(** * User-service backend: domain layer and use cases

    A shallow embedding of the domain layer of the user-service backend
    (value objects [Email], [Username], [Password], the [User] aggregate and
    the use cases that act on it through the [UserRepository] port), with the
    properties the specification states about them.

    Conventions of the embedding.
    - A JavaScript string is a [string]; each [ascii] stands for one UTF-16
      code unit below 256 (so the white-space class and the case mapping are
      the ECMAScript ones restricted to that range).
    - [throw new Error(msg)] is the outcome [Throw msg]; the code has no error
      classes, an error is identified by its message.
    - A [Date] is its time value, an integer number of milliseconds.
    - An optional property ([x?: T], or a value that may be [undefined] or
      [null]) is an [option]. *)

From Stdlib Require Import ZArith Ascii String List Bool Lia.
From stdpp Require Import base option list strings gmap.

Local Open Scope string_scope.
Local Open Scope Z_scope.

(** ** Outcomes of fallible code *)

Inductive Outcome (A : Type) : Type :=
| Ok (a : A)
| Throw (message : string).
Arguments Ok {A} a.
Arguments Throw {A} message.

(** ** JavaScript strings *)

Module Js.

Definition code (c : ascii) : nat := nat_of_ascii c.

(** [WhiteSpace] and [LineTerminator] code points below 256: TAB, LF, VT,
    FF, CR, SP and NBSP.  This is what [\s] matches and what [trim]
    strips. *)
Definition isWhiteSpace (c : ascii) : bool :=
  let n := code c in
  ((9 <=? n) && (n <=? 13) || (n =? 32) || (n =? 160))%nat.

(** [String.prototype.toLowerCase] on one code unit below 256: A-Z and the
    Latin-1 capitals (all of 0xC0-0xDE but the multiplication sign). *)
Definition toLowerChar (c : ascii) : ascii :=
  let n := code c in
  if ((65 <=? n) && (n <=? 90)
      || (192 <=? n) && (n <=? 222) && negb (n =? 215))%nat
  then ascii_of_nat (n + 32) else c.

Fixpoint toLowerCase (s : string) : string :=
  match s with
  | EmptyString => EmptyString
  | String c s' => String (toLowerChar c) (toLowerCase s')
  end.

Fixpoint trimStart (s : string) : string :=
  match s with
  | EmptyString => EmptyString
  | String c s' => if isWhiteSpace c then trimStart s' else s
  end.

(** [true] when every code unit of the string is white space. *)
Fixpoint allWhiteSpace (s : string) : bool :=
  match s with
  | EmptyString => true
  | String c s' => isWhiteSpace c && allWhiteSpace s'
  end.

Fixpoint trimEnd (s : string) : string :=
  match s with
  | EmptyString => EmptyString
  | String c s' => if allWhiteSpace s then EmptyString else String c (trimEnd s')
  end.

Definition trim (s : string) : string := trimEnd (trimStart s).

(** [s.startsWith(p)] *)
Fixpoint startsWith (p s : string) : bool :=
  match p, s with
  | EmptyString, _ => true
  | String a p', String b s' => Ascii.eqb a b && startsWith p' s'
  | String _ _, EmptyString => false
  end.

(** [s.includes(p)] *)
Fixpoint includes (p s : string) : bool :=
  startsWith p s ||
  match s with
  | EmptyString => false
  | String _ s' => includes p s'
  end.

(** [parts.join(sep)] *)
Fixpoint join (sep : string) (parts : list string) : string :=
  match parts with
  | [] => ""
  | [p] => p
  | p :: rest => p +:+ sep +:+ join sep rest
  end.

(** [true] when every code unit of the string satisfies [P]. *)
Fixpoint every (P : ascii -> bool) (s : string) : bool :=
  match s with
  | EmptyString => true
  | String c s' => P c && every P s'
  end.

(** Truthiness of a string: only the empty string is falsy. *)
Definition truthy (s : string) : bool := negb (String.eqb s "").

(** Truthiness of an optional string: [undefined] and [""] are falsy. *)
Definition truthyOpt (s : option string) : bool :=
  match s with Some s => truthy s | None => false end.

(** *** Numbers

    A number is an IEEE 754 double.  The model holds the integral ones as
    [Z]: a [Z] stands for a number when it is its own [toDouble].
    [toDouble z] is the double nearest to the integer [z] (of magnitude
    below 2^1024), a tie going to the neighbour with the even significand:
    below 2^53 in magnitude every integer is a double; from there on the
    doubles are the multiples of [2 ^ (Z.log2 |z| - 52)]. *)
Definition toDouble (z : Z) : Z :=
  let m := Z.abs z in
  if m <? 2 ^ 53 then z
  else
    let ulp := 2 ^ (Z.log2 m - 52) in
    let q := m / ulp in
    let r := m mod ulp in
    let nearest :=
      if 2 * r <? ulp then q * ulp
      else if ulp <? 2 * r then (q + 1) * ulp
      else if Z.even q then q * ulp else (q + 1) * ulp in
    Z.sgn z * nearest.

(** [x += 1] on a number: the exact sum, rounded to a double.  The sum of a
    finite double and 1 never overflows. *)
Definition increment (x : Z) : Z := toDouble (x + 1).

End Js.

Arguments Js.toDouble : simpl never.
Arguments Js.increment : simpl never.

(** ** Regular expressions

    The patterns of the value objects use character classes, concatenation
    and [+] between the anchors [^] and [$]; [RegExp.prototype.test] on such
    a pattern (no [m] flag) is a match of the whole string, decided here with
    derivatives. *)

Module Regex.

Inductive regex : Type :=
| Void
| Eps
| Class (p : ascii -> bool)
| Seq (r1 r2 : regex)
| Alt (r1 r2 : regex)
| Star (r : regex).

Definition Plus (r : regex) : regex := Seq r (Star r).

Fixpoint nullable (r : regex) : bool :=
  match r with
  | Void => false
  | Eps => true
  | Class _ => false
  | Seq r1 r2 => nullable r1 && nullable r2
  | Alt r1 r2 => nullable r1 || nullable r2
  | Star _ => true
  end.

Fixpoint deriv (c : ascii) (r : regex) : regex :=
  match r with
  | Void => Void
  | Eps => Void
  | Class p => if p c then Eps else Void
  | Seq r1 r2 =>
      Alt (Seq (deriv c r1) r2) (if nullable r1 then deriv c r2 else Void)
  | Alt r1 r2 => Alt (deriv c r1) (deriv c r2)
  | Star r1 => Seq (deriv c r1) (Star r1)
  end.

(** [/^r$/.test(s)] *)
Fixpoint test (r : regex) (s : string) : bool :=
  match s with
  | EmptyString => nullable r
  | String c s' => test (deriv c r) s'
  end.

(** A regex that visibly matches nothing. *)
Fixpoint isVoid (r : regex) : bool :=
  match r with
  | Void => true
  | Eps | Class _ | Star _ => false
  | Seq r1 r2 => isVoid r1 || isVoid r2
  | Alt r1 r2 => isVoid r1 && isVoid r2
  end.

(** Every character class of [r] is included in [P]. *)
Fixpoint classesWithin (P : ascii -> bool) (r : regex) : Prop :=
  match r with
  | Void | Eps => True
  | Class p => forall c, p c = true -> P c = true
  | Seq r1 r2 | Alt r1 r2 => classesWithin P r1 /\ classesWithin P r2
  | Star r1 => classesWithin P r1
  end.

(** The strings a pattern denotes. *)
Inductive Matches : regex -> string -> Prop :=
| MatchEps : Matches Eps ""
| MatchClass (p : ascii -> bool) (c : ascii) :
    p c = true -> Matches (Class p) (String c "")
| MatchSeq (r1 r2 : regex) (s1 s2 : string) :
    Matches r1 s1 -> Matches r2 s2 -> Matches (Seq r1 r2) (s1 +:+ s2)
| MatchAltL (r1 r2 : regex) (s : string) :
    Matches r1 s -> Matches (Alt r1 r2) s
| MatchAltR (r1 r2 : regex) (s : string) :
    Matches r2 s -> Matches (Alt r1 r2) s
| MatchStarNil (r : regex) : Matches (Star r) ""
| MatchStarApp (r : regex) (s1 s2 : string) :
    Matches r s1 -> Matches (Star r) s2 -> Matches (Star r) (s1 +:+ s2).

End Regex.

(** ** Value objects *)

Module Email.

Record t : Type := mk { value : string }.

(** [[^\s@]] *)
Definition notSpaceNorAt (c : ascii) : bool :=
  negb (Js.isWhiteSpace c) && negb (Ascii.eqb c "@").

(** [/^[^\s@]+@[^\s@]+\.[^\s@]+$/] *)
Definition emailRegex : Regex.regex :=
  Regex.Seq (Regex.Plus (Regex.Class notSpaceNorAt))
 (Regex.Seq (Regex.Class (Ascii.eqb "@"))
 (Regex.Seq (Regex.Plus (Regex.Class notSpaceNorAt))
 (Regex.Seq (Regex.Class (Ascii.eqb "."))
            (Regex.Plus (Regex.Class notSpaceNorAt))))).

Definition isValid (email : string) : bool := Regex.test emailRegex email.

(** The constructor: validates the argument as given, then stores its
    lower-cased, trimmed form. *)
Definition new (email : string) : Outcome t :=
  if negb (isValid email) then Throw "Invalid email format"
  else Ok (mk (Js.trim (Js.toLowerCase email))).

Definition getValue (e : t) : string := value e.

Definition equals (e other : t) : bool := String.eqb (value e) (value other).

End Email.

Module Username.

Record t : Type := mk { value : string }.

(** [[a-zA-Z0-9_]] *)
Definition wordChar (c : ascii) : bool :=
  let n := Js.code c in
  ((97 <=? n) && (n <=? 122) || (65 <=? n) && (n <=? 90)
   || (48 <=? n) && (n <=? 57) || (n =? 95))%nat.

(** [/^[a-zA-Z0-9_]+$/] *)
Definition usernameRegex : Regex.regex := Regex.Plus (Regex.Class wordChar).

Definition isValid (username : string) : bool :=
  if negb (Js.truthy username)
     || (String.length (Js.trim username) <? 3)%nat
     || (50 <? String.length (Js.trim username))%nat
  then false
  else Regex.test usernameRegex (Js.trim username).

Definition new (username : string) : Outcome t :=
  if negb (isValid username) then Throw "Invalid username format"
  else Ok (mk (Js.trim username)).

Definition getValue (u : t) : string := value u.

Definition equals (u other : t) : bool := String.eqb (value u) (value other).

End Username.

Module Password.

Record t : Type := mk { value : string }.

Definition isValid (password : string) : bool :=
  Js.truthy password && (8 <=? String.length password)%nat.

Definition new (password : string) : Outcome t :=
  if negb (isValid password) then Throw "Password must be at least 8 characters long"
  else Ok (mk password).

Definition getValue (p : t) : string := value p.

End Password.

(** ** Data model of the User aggregate *)

(** The time value of a [Date]. *)
Definition Date : Type := Z.

(** ['user' | 'admin'] *)
Inductive UserRole : Type := RoleUser | RoleAdmin.

Definition roleName (r : UserRole) : string :=
  match r with RoleUser => "user" | RoleAdmin => "admin" end.

(** ['google' | 'facebook' | 'github'] *)
Inductive SocialProvider : Type := Google | Facebook | Github.

Definition providerName (p : SocialProvider) : string :=
  match p with Google => "google" | Facebook => "facebook" | Github => "github" end.

Definition provider_eqb (p q : SocialProvider) : bool :=
  String.eqb (providerName p) (providerName q).

Inductive Gender : Type := Male | Female | OtherGender.

Inductive AddressType : Type := Home | Work | OtherAddress.

(** ['public' | 'friends' | 'private'] *)
Inductive ProfileVisibility : Type := Public | Friends | Private.

(** A value of type [unknown] stored in [providerData] or [customFields]. *)
Inductive JsValue : Type :=
| JsString (s : string)
| JsNumber (n : Z)
| JsBoolean (b : bool)
| JsNull.

(** [{ ...a, ...b }] on objects used as maps: the keys of both, [b] winning. *)
Definition spread (a b : gmap string JsValue) : gmap string JsValue := b ∪ a.

Module UserProfile.

Record t : Type := mk {
  firstName : string;
  lastName : string;
  displayName : option string;
  gender : option Gender;
  avatarUrl : option string;
  phone : option string;
  dateOfBirth : option Date;
  bio : option string
}.

(** [Partial<UserProfile>]: every property may be absent. *)
Record partial : Type := mkPartial {
  p_firstName : option string;
  p_lastName : option string;
  p_displayName : option string;
  p_gender : option Gender;
  p_avatarUrl : option string;
  p_phone : option string;
  p_dateOfBirth : option Date;
  p_bio : option string
}.

(** [{ ...profile, ...partial }] *)
Definition merge (profile : t) (p : partial) : t :=
  {| firstName := default (firstName profile) (p_firstName p);
     lastName := default (lastName profile) (p_lastName p);
     displayName := from_option Some (displayName profile) (p_displayName p);
     gender := from_option Some (gender profile) (p_gender p);
     avatarUrl := from_option Some (avatarUrl profile) (p_avatarUrl p);
     phone := from_option Some (phone profile) (p_phone p);
     dateOfBirth := from_option Some (dateOfBirth profile) (p_dateOfBirth p);
     bio := from_option Some (bio profile) (p_bio p) |}.

End UserProfile.

Module Address.

Record t : Type := mk {
  id : string;
  type : AddressType;
  addressLine1 : string;
  addressLine2 : option string;
  city : string;
  stateProvince : option string;
  postalCode : option string;
  country : string;
  isDefault : bool;
  createdAt : Date;
  updatedAt : Date
}.

(** [Omit<Address, 'id' | 'createdAt' | 'updatedAt'>] *)
Record input : Type := mkInput {
  i_type : AddressType;
  i_addressLine1 : string;
  i_addressLine2 : option string;
  i_city : string;
  i_stateProvince : option string;
  i_postalCode : option string;
  i_country : string;
  i_isDefault : bool
}.

(** [{ ...address, id, createdAt, updatedAt }] *)
Definition ofInput (a : input) (newId : string) (created updated : Date) : t :=
  {| id := newId; type := i_type a; addressLine1 := i_addressLine1 a;
     addressLine2 := i_addressLine2 a; city := i_city a;
     stateProvince := i_stateProvince a; postalCode := i_postalCode a;
     country := i_country a; isDefault := i_isDefault a;
     createdAt := created; updatedAt := updated |}.

(** [addr.isDefault = b] *)
Definition setDefault (b : bool) (a : t) : t :=
  {| id := id a; type := type a; addressLine1 := addressLine1 a;
     addressLine2 := addressLine2 a; city := city a;
     stateProvince := stateProvince a; postalCode := postalCode a;
     country := country a; isDefault := b;
     createdAt := createdAt a; updatedAt := updatedAt a |}.

End Address.

Module SocialAccount.

Record t : Type := mk {
  id : string;
  provider : SocialProvider;
  providerId : string;
  providerEmail : string;
  providerData : gmap string JsValue;
  linkedAt : Date;
  isActive : bool
}.

(** [account => account.provider === provider && account.isActive], the test
    [linkSocialAccount] and [hasLinkedSocialAccount] apply to an account. *)
Definition activeFor (p : SocialProvider) (account : t) : bool :=
  provider_eqb (provider account) p && isActive account.

End SocialAccount.

Module UserPreferences.

Record Notifications : Type := mkNotifications {
  email : bool;
  push : bool;
  sms : bool
}.

Record Privacy : Type := mkPrivacy {
  profileVisibility : ProfileVisibility;
  showEmail : bool;
  showPhone : bool
}.

Record t : Type := mk {
  language : string;
  timezone : string;
  notifications : Notifications;
  privacy : Privacy
}.

(** [Partial<UserPreferences>]: the merge is shallow, so [notifications] and
    [privacy] are replaced as a whole when given. *)
Record partial : Type := mkPartial {
  p_language : option string;
  p_timezone : option string;
  p_notifications : option Notifications;
  p_privacy : option Privacy
}.

(** [{ ...preferences, ...partial }] *)
Definition merge (preferences : t) (p : partial) : t :=
  {| language := default (language preferences) (p_language p);
     timezone := default (timezone preferences) (p_timezone p);
     notifications := default (notifications preferences) (p_notifications p);
     privacy := default (privacy preferences) (p_privacy p) |}.

End UserPreferences.

(** ** Clock and identifier generator

    [new Date()] and [uuidv4()] read the outside world.  The runtime holds
    what they are going to answer: the n-th reading of the clock and the n-th
    identifier, with the number of readings made so far. *)

Module Runtime.

Record t : Type := mk {
  clock : nat -> Date;
  ticks : nat;
  uuidGen : nat -> string;
  uuidCount : nat
}.

(** [new Date()] *)
Definition newDate (rt : t) : Date * t :=
  (clock rt (ticks rt), mk (clock rt) (S (ticks rt)) (uuidGen rt) (uuidCount rt)).

(** [uuidv4()] *)
Definition uuidv4 (rt : t) : string * t :=
  (uuidGen rt (uuidCount rt), mk (clock rt) (ticks rt) (uuidGen rt) (S (uuidCount rt))).

End Runtime.

(** [array.findIndex(f)]; [None] stands for -1. *)
Fixpoint findIndex {A : Type} (f : A -> bool) (l : list A) : option nat :=
  match l with
  | [] => None
  | x :: l' => if f x then Some 0%nat else option_map S (findIndex f l')
  end.

(** ** The User aggregate *)

Module User.

(** [UserProps] *)
Record t : Type := mk {
  id : option string;
  username : Username.t;
  email : Email.t;
  passwordHash : option string;
  role : UserRole;
  profile : UserProfile.t;
  addresses : list Address.t;
  socialAccounts : list SocialAccount.t;
  emailVerified : bool;
  phoneVerified : bool;
  isActive : bool;
  isSuspended : bool;
  suspendedReason : option string;
  suspendedAt : option Date;
  preferences : UserPreferences.t;
  lastLoginAt : option Date;
  lastActiveAt : option Date;
  loginCount : Z;
  customFields : gmap string JsValue;
  createdAt : Date;
  updatedAt : Date;
  createdBy : option string;
  updatedBy : option string
}.

(** *** Assignments to single properties of [this.props] *)

Definition setUpdatedAt (d : Date) (u : t) : t :=
  mk (id u) (username u) (email u) (passwordHash u) (role u) (profile u)
     (addresses u) (socialAccounts u) (emailVerified u) (phoneVerified u)
     (isActive u) (isSuspended u) (suspendedReason u) (suspendedAt u)
     (preferences u) (lastLoginAt u) (lastActiveAt u) (loginCount u)
     (customFields u) (createdAt u) d (createdBy u) (updatedBy u).

Definition setProfile (p : UserProfile.t) (u : t) : t :=
  mk (id u) (username u) (email u) (passwordHash u) (role u) p
     (addresses u) (socialAccounts u) (emailVerified u) (phoneVerified u)
     (isActive u) (isSuspended u) (suspendedReason u) (suspendedAt u)
     (preferences u) (lastLoginAt u) (lastActiveAt u) (loginCount u)
     (customFields u) (createdAt u) (updatedAt u) (createdBy u) (updatedBy u).

Definition setPreferences (p : UserPreferences.t) (u : t) : t :=
  mk (id u) (username u) (email u) (passwordHash u) (role u) (profile u)
     (addresses u) (socialAccounts u) (emailVerified u) (phoneVerified u)
     (isActive u) (isSuspended u) (suspendedReason u) (suspendedAt u)
     p (lastLoginAt u) (lastActiveAt u) (loginCount u)
     (customFields u) (createdAt u) (updatedAt u) (createdBy u) (updatedBy u).

Definition setIsActive (b : bool) (u : t) : t :=
  mk (id u) (username u) (email u) (passwordHash u) (role u) (profile u)
     (addresses u) (socialAccounts u) (emailVerified u) (phoneVerified u)
     b (isSuspended u) (suspendedReason u) (suspendedAt u)
     (preferences u) (lastLoginAt u) (lastActiveAt u) (loginCount u)
     (customFields u) (createdAt u) (updatedAt u) (createdBy u) (updatedBy u).

Definition setIsSuspended (b : bool) (u : t) : t :=
  mk (id u) (username u) (email u) (passwordHash u) (role u) (profile u)
     (addresses u) (socialAccounts u) (emailVerified u) (phoneVerified u)
     (isActive u) b (suspendedReason u) (suspendedAt u)
     (preferences u) (lastLoginAt u) (lastActiveAt u) (loginCount u)
     (customFields u) (createdAt u) (updatedAt u) (createdBy u) (updatedBy u).

Definition setSuspendedReason (r : option string) (u : t) : t :=
  mk (id u) (username u) (email u) (passwordHash u) (role u) (profile u)
     (addresses u) (socialAccounts u) (emailVerified u) (phoneVerified u)
     (isActive u) (isSuspended u) r (suspendedAt u)
     (preferences u) (lastLoginAt u) (lastActiveAt u) (loginCount u)
     (customFields u) (createdAt u) (updatedAt u) (createdBy u) (updatedBy u).

Definition setSuspendedAt (d : option Date) (u : t) : t :=
  mk (id u) (username u) (email u) (passwordHash u) (role u) (profile u)
     (addresses u) (socialAccounts u) (emailVerified u) (phoneVerified u)
     (isActive u) (isSuspended u) (suspendedReason u) d
     (preferences u) (lastLoginAt u) (lastActiveAt u) (loginCount u)
     (customFields u) (createdAt u) (updatedAt u) (createdBy u) (updatedBy u).

Definition setEmailVerified (b : bool) (u : t) : t :=
  mk (id u) (username u) (email u) (passwordHash u) (role u) (profile u)
     (addresses u) (socialAccounts u) b (phoneVerified u)
     (isActive u) (isSuspended u) (suspendedReason u) (suspendedAt u)
     (preferences u) (lastLoginAt u) (lastActiveAt u) (loginCount u)
     (customFields u) (createdAt u) (updatedAt u) (createdBy u) (updatedBy u).

Definition setLastLoginAt (d : option Date) (u : t) : t :=
  mk (id u) (username u) (email u) (passwordHash u) (role u) (profile u)
     (addresses u) (socialAccounts u) (emailVerified u) (phoneVerified u)
     (isActive u) (isSuspended u) (suspendedReason u) (suspendedAt u)
     (preferences u) d (lastActiveAt u) (loginCount u)
     (customFields u) (createdAt u) (updatedAt u) (createdBy u) (updatedBy u).

Definition setLastActiveAt (d : option Date) (u : t) : t :=
  mk (id u) (username u) (email u) (passwordHash u) (role u) (profile u)
     (addresses u) (socialAccounts u) (emailVerified u) (phoneVerified u)
     (isActive u) (isSuspended u) (suspendedReason u) (suspendedAt u)
     (preferences u) (lastLoginAt u) d (loginCount u)
     (customFields u) (createdAt u) (updatedAt u) (createdBy u) (updatedBy u).

Definition setLoginCount (n : Z) (u : t) : t :=
  mk (id u) (username u) (email u) (passwordHash u) (role u) (profile u)
     (addresses u) (socialAccounts u) (emailVerified u) (phoneVerified u)
     (isActive u) (isSuspended u) (suspendedReason u) (suspendedAt u)
     (preferences u) (lastLoginAt u) (lastActiveAt u) n
     (customFields u) (createdAt u) (updatedAt u) (createdBy u) (updatedBy u).

Definition setPasswordHash (h : option string) (u : t) : t :=
  mk (id u) (username u) (email u) h (role u) (profile u)
     (addresses u) (socialAccounts u) (emailVerified u) (phoneVerified u)
     (isActive u) (isSuspended u) (suspendedReason u) (suspendedAt u)
     (preferences u) (lastLoginAt u) (lastActiveAt u) (loginCount u)
     (customFields u) (createdAt u) (updatedAt u) (createdBy u) (updatedBy u).

Definition setAddresses (l : list Address.t) (u : t) : t :=
  mk (id u) (username u) (email u) (passwordHash u) (role u) (profile u)
     l (socialAccounts u) (emailVerified u) (phoneVerified u)
     (isActive u) (isSuspended u) (suspendedReason u) (suspendedAt u)
     (preferences u) (lastLoginAt u) (lastActiveAt u) (loginCount u)
     (customFields u) (createdAt u) (updatedAt u) (createdBy u) (updatedBy u).

Definition setSocialAccounts (l : list SocialAccount.t) (u : t) : t :=
  mk (id u) (username u) (email u) (passwordHash u) (role u) (profile u)
     (addresses u) l (emailVerified u) (phoneVerified u)
     (isActive u) (isSuspended u) (suspendedReason u) (suspendedAt u)
     (preferences u) (lastLoginAt u) (lastActiveAt u) (loginCount u)
     (customFields u) (createdAt u) (updatedAt u) (createdBy u) (updatedBy u).

(** *** Business logic methods *)

Definition canLogin (u : t) : bool :=
  isActive u && negb (isSuspended u) && emailVerified u.

Definition canAccessAdminFeatures (u : t) : bool :=
  String.eqb (roleName (role u)) "admin" && canLogin u.

Definition canModifyUser (targetUserId : string) (u : t) : bool :=
  String.eqb (roleName (role u)) "admin"
  || bool_decide (id u = Some targetUserId).

Definition getFullName (u : t) : string :=
  let full := Js.trim (UserProfile.firstName (profile u) +:+ " "
                       +:+ UserProfile.lastName (profile u)) in
  if Js.truthy full then full else Username.getValue (username u).

Definition getDefaultAddress (u : t) : option Address.t :=
  match List.find Address.isDefault (addresses u) with
  | Some a => Some a
  | None => head (addresses u)
  end.

Definition hasLinkedSocialAccount (provider : SocialProvider) (u : t) : bool :=
  existsb (SocialAccount.activeFor provider) (socialAccounts u).

(** *** State mutation methods

    Each takes the aggregate and the runtime and returns the aggregate after
    the call and the runtime after its readings of the clock. *)

Definition touch (u : t) (rt : Runtime.t) : t * Runtime.t :=
  let '(now, rt) := Runtime.newDate rt in (setUpdatedAt now u, rt).

Definition updateProfile (p : UserProfile.partial) (u : t) (rt : Runtime.t)
  : t * Runtime.t :=
  touch (setProfile (UserProfile.merge (profile u) p) u) rt.

Definition updatePreferences (p : UserPreferences.partial) (u : t) (rt : Runtime.t)
  : t * Runtime.t :=
  touch (setPreferences (UserPreferences.merge (preferences u) p) u) rt.

Definition activate (u : t) (rt : Runtime.t) : t * Runtime.t :=
  touch (setIsActive true u) rt.

Definition deactivate (u : t) (rt : Runtime.t) : t * Runtime.t :=
  touch (setIsActive false u) rt.

Definition suspend (reason : string) (u : t) (rt : Runtime.t) : t * Runtime.t :=
  let u := setIsSuspended true u in
  let u := setSuspendedReason (Some reason) u in
  let '(now, rt) := Runtime.newDate rt in
  let u := setSuspendedAt (Some now) u in
  touch u rt.

Definition unsuspend (u : t) (rt : Runtime.t) : t * Runtime.t :=
  let u := setIsSuspended false u in
  let u := setSuspendedReason None u in
  let u := setSuspendedAt None u in
  touch u rt.

Definition verifyEmail (u : t) (rt : Runtime.t) : t * Runtime.t :=
  touch (setEmailVerified true u) rt.

Definition recordLogin (u : t) (rt : Runtime.t) : t * Runtime.t :=
  let '(now, rt) := Runtime.newDate rt in
  let u := setLastLoginAt (Some now) u in
  let '(now, rt) := Runtime.newDate rt in
  let u := setLastActiveAt (Some now) u in
  let u := setLoginCount (Js.increment (loginCount u)) u in
  touch u rt.

Definition changePassword (newPasswordHash : string) (u : t) (rt : Runtime.t)
  : t * Runtime.t :=
  touch (setPasswordHash (Some newPasswordHash) u) rt.

Definition addAddress (address : Address.input) (u : t) (rt : Runtime.t)
  : t * Runtime.t :=
  let '(newId, rt) := Runtime.uuidv4 rt in
  let '(created, rt) := Runtime.newDate rt in
  let '(updated, rt) := Runtime.newDate rt in
  let newAddress := Address.ofInput address newId created updated in
  let '(stored, newAddress) :=
    if (length (addresses u) =? 0)%nat || Address.i_isDefault address
    then (map (Address.setDefault false) (addresses u),
          Address.setDefault true newAddress)
    else (addresses u, newAddress) in
  touch (setAddresses (stored ++ [newAddress])%list u) rt.

Definition linkSocialAccount (provider : SocialProvider)
    (providerId providerEmail : string) (providerData : gmap string JsValue)
    (u : t) (rt : Runtime.t) : t * Runtime.t :=
  let existingAccountIndex :=
    findIndex (SocialAccount.activeFor provider) (socialAccounts u) in
  let '(accounts, rt) :=
    match existingAccountIndex with
    | Some i =>
        match socialAccounts u !! i with
        | Some old =>
            let '(now, rt) := Runtime.newDate rt in
            (<[i := SocialAccount.mk (SocialAccount.id old)
                      (SocialAccount.provider old) providerId providerEmail
                      (spread (SocialAccount.providerData old) providerData)
                      now (SocialAccount.isActive old)]> (socialAccounts u), rt)
        | None => (socialAccounts u, rt) (* no such case: the index was found *)
        end
    | None =>
        let '(newId, rt) := Runtime.uuidv4 rt in
        let '(now, rt) := Runtime.newDate rt in
        ((socialAccounts u
            ++ [SocialAccount.mk newId provider providerId providerEmail
                  providerData now true])%list, rt)
    end in
  touch (setSocialAccounts accounts u) rt.

(** [User.create]: the properties as given, without [id], stamped with one
    reading of the clock. *)
Definition create (username : Username.t) (email : Email.t)
    (passwordHash : option string) (role : UserRole) (profile : UserProfile.t)
    (addresses : list Address.t) (socialAccounts : list SocialAccount.t)
    (emailVerified phoneVerified isActive isSuspended : bool)
    (preferences : UserPreferences.t) (loginCount : Z)
    (customFields : gmap string JsValue) (rt : Runtime.t) : t * Runtime.t :=
  let '(now, rt) := Runtime.newDate rt in
  (mk None username email passwordHash role profile addresses socialAccounts
      emailVerified phoneVerified isActive isSuspended None None preferences
      None None loginCount customFields now now None None, rt).

End User.

(** ** The persistence port *)

Inductive SortOrder : Type := Asc | Desc.

Record UserFilters : Type := mkUserFilters {
  f_isActive : option bool;
  f_emailVerified : option bool;
  f_role : option string;
  f_isSuspended : option bool;
  f_createdAfter : option Date;
  f_createdBefore : option Date
}.

Record PaginationOptions : Type := mkPaginationOptions {
  page : Z;
  limit : Z;
  sortBy : option string;
  sortOrder : option SortOrder
}.

Record Pagination : Type := mkPagination {
  pg_page : Z;
  pg_limit : Z;
  pg_total : Z;
  pg_pages : Z
}.

Record PaginationResult : Type := mkPaginationResult {
  data : list User.t;
  pagination : Pagination
}.

(** The object the search use case builds: [page], [limit], [skip] and
    [includeInactive], which is a boolean or [undefined]. *)
Record SearchOptions : Type := mkSearchOptions {
  so_page : Z;
  so_limit : Z;
  so_skip : Z;
  so_includeInactive : option bool
}.

Record Conflicts : Type := mkConflicts {
  c_email : bool;
  c_username : bool
}.

(** [{ exists: boolean; conflicts?: { email: boolean; username: boolean } }] *)
Record ExistsResult : Type := mkExistsResult {
  r_exists : bool;
  r_conflicts : option Conflicts
}.

(** A call of a method of the port, with its arguments. *)
Inductive PortCall : Type :=
| CallCreate (user : User.t)
| CallFindById (id : string)
| CallFindByEmail (email : Email.t)
| CallFindByUsername (username : Username.t)
| CallFindBySocialAccount (provider providerId : string)
| CallUpdate (user : User.t)
| CallDelete (id : string)
| CallFindAll (filters : option UserFilters) (options : option PaginationOptions)
| CallSearch (query : string) (options : option SearchOptions)
| CallExists (email : Email.t) (username : Username.t).

Module UserRepository.

(** The [UserRepository] interface over a store of type [W]: every method
    reads and may change the store, and may fail (a rejected promise). *)
Record t (W : Type) : Type := mk {
  create : User.t -> W -> Outcome User.t * W;
  findById : string -> W -> Outcome (option User.t) * W;
  findByEmail : Email.t -> W -> Outcome (option User.t) * W;
  findByUsername : Username.t -> W -> Outcome (option User.t) * W;
  findBySocialAccount : string -> string -> W -> Outcome (option User.t) * W;
  update : User.t -> W -> Outcome User.t * W;
  delete : string -> W -> Outcome bool * W;
  findAll : option UserFilters -> option PaginationOptions -> W
            -> Outcome PaginationResult * W;
  search : string -> option SearchOptions -> W -> Outcome (list User.t) * W;
  exists_ : Email.t -> Username.t -> W -> Outcome ExistsResult * W
}.
Arguments create {W}.
Arguments findById {W}.
Arguments findByEmail {W}.
Arguments findByUsername {W}.
Arguments findBySocialAccount {W}.
Arguments update {W}.
Arguments delete {W}.
Arguments findAll {W}.
Arguments search {W}.
Arguments exists_ {W}.

End UserRepository.

(** ** Use-case programs

    A use case runs against an environment: the store behind the port, the
    runtime, and the log of the calls made to the port so far.  It ends with a
    value or with a thrown error; the effects made before a throw stay. *)

Record Env (W : Type) : Type := mkEnv {
  world : W;
  runtime : Runtime.t;
  calls : list PortCall
}.
Arguments mkEnv {W}.
Arguments world {W}.
Arguments runtime {W}.
Arguments calls {W}.

Definition M (W A : Type) : Type := Env W -> Outcome A * Env W.

Definition ret {W A : Type} (a : A) : M W A := fun env => (Ok a, env).

Definition throw {W A : Type} (message : string) : M W A :=
  fun env => (Throw message, env).

Definition bind {W A B : Type} (m : M W A) (k : A -> M W B) : M W B :=
  fun env =>
    match m env with
    | (Ok a, env') => k a env'
    | (Throw message, env') => (Throw message, env')
    end.

Notation "'let*' x ':=' m 'in' k" := (bind m (fun x => k))
  (at level 10, x name, m at level 100, k at level 200).

(** A value-object constructor or an injected function that may throw. *)
Definition attempt {W A : Type} (o : Outcome A) : M W A := fun env => (o, env).

(** A method of the aggregate, run on the runtime of the environment. *)
Definition entity {W A : Type} (f : Runtime.t -> A * Runtime.t) : M W A :=
  fun env =>
    let '(a, rt) := f (runtime env) in (Ok a, mkEnv (world env) rt (calls env)).

(** [new Date()] inside a use case. *)
Definition newDate {W : Type} : M W Date := entity Runtime.newDate.

(** A call of the port: logged, then run on the store. *)
Definition port {W A : Type} (c : PortCall) (op : W -> Outcome A * W) : M W A :=
  fun env =>
    let '(r, w) := op (world env) in
    (r, mkEnv w (runtime env) (calls env ++ [c])%list).

Module Repo.

Section Calls.
Context {W : Type} (repo : UserRepository.t W).

Definition create (user : User.t) : M W User.t :=
  port (CallCreate user) (UserRepository.create repo user).

Definition findById (id : string) : M W (option User.t) :=
  port (CallFindById id) (UserRepository.findById repo id).

Definition findByEmail (email : Email.t) : M W (option User.t) :=
  port (CallFindByEmail email) (UserRepository.findByEmail repo email).

Definition findBySocialAccount (provider providerId : string)
  : M W (option User.t) :=
  port (CallFindBySocialAccount provider providerId)
       (UserRepository.findBySocialAccount repo provider providerId).

Definition update (user : User.t) : M W User.t :=
  port (CallUpdate user) (UserRepository.update repo user).

Definition findAll (filters : option UserFilters)
    (options : option PaginationOptions) : M W PaginationResult :=
  port (CallFindAll filters options) (UserRepository.findAll repo filters options).

Definition search (query : string) (options : option SearchOptions)
  : M W (list User.t) :=
  port (CallSearch query options) (UserRepository.search repo query options).

Definition exists_ (email : Email.t) (username : Username.t) : M W ExistsResult :=
  port (CallExists email username) (UserRepository.exists_ repo email username).

End Calls.

End Repo.

(** ** Use cases *)

(** [requestingUserRole === 'admin' || requestingUserId === userId] *)
Definition selfOrAdmin (requestingUserRole requestingUserId userId : string) : bool :=
  String.eqb requestingUserRole "admin" || String.eqb requestingUserId userId.

Module GetUser.

Record Request : Type := mkRequest {
  userId : string;
  requestingUserId : string;
  requestingUserRole : string
}.

Definition execute {W : Type} (userRepository : UserRepository.t W)
    (request : Request) : M W User.t :=
  let* targetUser := Repo.findById userRepository (userId request) in
  match targetUser with
  | None => throw "User not found"
  | Some targetUser =>
      let canAccessFullProfile :=
        selfOrAdmin (requestingUserRole request) (requestingUserId request)
                    (userId request) in
      if negb canAccessFullProfile then
        match UserPreferences.profileVisibility
                (UserPreferences.privacy (User.preferences targetUser)) with
        | Private => throw "This profile is private"
        | _ => ret targetUser
        end
      else ret targetUser
  end.

End GetUser.

Module UpdateUser.

Record Request : Type := mkRequest {
  userId : string;
  requestingUserId : string;
  requestingUserRole : string;
  profile : option UserProfile.partial;
  preferences : option UserPreferences.partial
}.

Definition execute {W : Type} (userRepository : UserRepository.t W)
    (request : Request) : M W User.t :=
  let* user := Repo.findById userRepository (userId request) in
  match user with
  | None => throw "User not found"
  | Some user =>
      let canModify :=
        selfOrAdmin (requestingUserRole request) (requestingUserId request)
                    (userId request) in
      if negb canModify then
        throw "You can only update your own profile or you must be an admin"
      else
        let* user :=
          match profile request with
          | Some p => entity (User.updateProfile p user)
          | None => ret user
          end in
        let* user :=
          match preferences request with
          | Some p => entity (User.updatePreferences p user)
          | None => ret user
          end in
        let* updatedUser := Repo.update userRepository user in
        ret updatedUser
  end.

End UpdateUser.

Module DeleteUser.

Record Request : Type := mkRequest {
  userId : string;
  requestingUserId : string;
  requestingUserRole : string
}.

Record Response : Type := mkResponse {
  message : string;
  deletedAt : Date
}.

Definition execute {W : Type} (userRepository : UserRepository.t W)
    (request : Request) : M W Response :=
  let* user := Repo.findById userRepository (userId request) in
  match user with
  | None => throw "User not found"
  | Some user =>
      let canDelete :=
        selfOrAdmin (requestingUserRole request) (requestingUserId request)
                    (userId request) in
      if negb canDelete then
        throw "You can only delete your own account or you must be an admin"
      else if String.eqb (requestingUserId request) (userId request)
              && String.eqb (requestingUserRole request) "admin" then
        throw "Administrators cannot delete their own account"
      else
        let* user := entity (User.deactivate user) in
        let* user := entity (User.suspend "Account deleted by user" user) in
        let* _ := Repo.update userRepository user in
        let* now := newDate in
        ret (mkResponse "User account has been successfully deleted" now)
  end.

End DeleteUser.

(** [x || d] on a number that may be absent: [undefined] and [0] are falsy.
    Numbers are integers here; [NaN] and fractions are left out. *)
Definition orNumber (x : option Z) (d : Z) : Z :=
  match x with
  | Some n => if n =? 0 then d else n
  | None => d
  end.

(** [x || d] on a string that may be absent. *)
Definition orString (x : option string) (d : string) : string :=
  match x with
  | Some s => if Js.truthy s then s else d
  | None => d
  end.

Module ListUsers.

(** The [options] of a request as they arrive: any property may be missing. *)
Record Options : Type := mkOptions {
  o_page : option Z;
  o_limit : option Z;
  o_sortBy : option string;
  o_sortOrder : option SortOrder
}.

Record Request : Type := mkRequest {
  requestingUserRole : string;
  filters : option UserFilters;
  options : option Options
}.

Definition execute {W : Type} (userRepository : UserRepository.t W)
    (request : Request) : M W PaginationResult :=
  if negb (String.eqb (requestingUserRole request) "admin") then
    throw "Only administrators can view all users"
  else
    let queryOptions :=
      {| page := orNumber (options request ≫= o_page) 1;
         limit := Z.min (orNumber (options request ≫= o_limit) 20) 100;
         sortBy := Some (orString (options request ≫= o_sortBy) "createdAt");
         sortOrder := Some (default Desc (options request ≫= o_sortOrder)) |} in
    let* result := Repo.findAll userRepository (filters request) (Some queryOptions) in
    ret result.

End ListUsers.

Module SearchUsers.

Record Options : Type := mkOptions {
  o_limit : option Z;
  o_skip : option Z;
  o_includeInactive : option bool
}.

Record Request : Type := mkRequest {
  query : string;
  requestingUserRole : string;
  options : option Options
}.

Definition execute {W : Type} (userRepository : UserRepository.t W)
    (request : Request) : M W (list User.t) :=
  if negb (Js.truthy (query request))
     || (String.length (Js.trim (query request)) <? 2)%nat then
    throw "Search query must be at least 2 characters long"
  else
    let searchOptions :=
      {| so_page := 1;
         so_limit := Z.min (orNumber (options request ≫= o_limit) 20) 50;
         so_skip := orNumber (options request ≫= o_skip) 0;
         so_includeInactive :=
           if String.eqb (requestingUserRole request) "admin"
           then options request ≫= o_includeInactive
           else Some false |} in
    let* users :=
      Repo.search userRepository (Js.trim (query request)) (Some searchOptions) in
    ret users.

End SearchUsers.

Module LinkSocialAccount.

Record Request : Type := mkRequest {
  userId : string;
  requestingUserId : string;
  requestingUserRole : string;
  provider : SocialProvider;
  providerId : string;
  providerEmail : string;
  providerData : option (gmap string JsValue)
}.

Definition execute {W : Type} (userRepository : UserRepository.t W)
    (request : Request) : M W User.t :=
  let providerData' := default ∅ (providerData request) in
  let canModify :=
    selfOrAdmin (requestingUserRole request) (requestingUserId request)
                (userId request) in
  if negb canModify then
    throw "You can only link social accounts to your own profile"
  else
    let* user := Repo.findById userRepository (userId request) in
    match user with
    | None => throw "User not found"
    | Some user =>
        let* existingUser :=
          Repo.findBySocialAccount userRepository
            (providerName (provider request)) (providerId request) in
        let linkedElsewhere :=
          match existingUser with
          | Some existing =>
              negb (bool_decide (User.id existing = Some (userId request)))
          | None => false
          end in
        if linkedElsewhere then
          throw ("This " +:+ providerName (provider request)
                 +:+ " account is already linked to another user")
        else
          let* user :=
            entity (User.linkSocialAccount (provider request)
                      (providerId request) (providerEmail request)
                      providerData' user) in
          let* updatedUser := Repo.update userRepository user in
          ret updatedUser
    end.

End LinkSocialAccount.

Module LoginUser.

Record Request : Type := mkRequest {
  email : string;
  password : string
}.

Record Tokens : Type := mkTokens {
  accessToken : string;
  refreshToken : string
}.

(** [{ userId, email, role }] *)
Record Payload : Type := mkPayload {
  p_userId : option string;
  p_email : string;
  p_role : UserRole
}.

Record Response : Type := mkResponse {
  user : User.t;
  tokens : Tokens
}.

(** The reasons pushed when [canLogin()] is false, in the order of the code. *)
Definition reasons (u : User.t) : list string :=
  ((if negb (User.isActive u) then ["account is inactive"] else [])
   ++ (if User.isSuspended u then ["account is suspended"] else [])
   ++ (if negb (User.emailVerified u) then ["email is not verified"] else []))%list.

Definition execute {W : Type} (userRepository : UserRepository.t W)
    (comparePassword : string -> string -> Outcome bool)
    (generateTokens : Payload -> Outcome Tokens)
    (request : Request) : M W Response :=
  if negb (Js.truthy (email request)) || negb (Js.truthy (password request)) then
    throw "Email and password are required"
  else
    let* emailVO := attempt (Email.new (email request)) in
    let* user := Repo.findByEmail userRepository emailVO in
    match user with
    | None => throw "Invalid email or password"
    | Some user =>
        if negb (User.canLogin user) then
          throw ("Cannot login: " +:+ Js.join ", " (reasons user))
        else if negb (Js.truthyOpt (User.passwordHash user)) then
          throw "Password not set for this account"
        else
          let* isPasswordValid :=
            attempt (comparePassword (password request)
                       (default "" (User.passwordHash user))) in
          if negb isPasswordValid then throw "Invalid email or password"
          else
            let* user := entity (User.recordLogin user) in
            let* _ := Repo.update userRepository user in
            let payload :=
              mkPayload (User.id user) (Email.getValue (User.email user))
                        (User.role user) in
            let* tokens := attempt (generateTokens payload) in
            ret (mkResponse user tokens)
    end.

End LoginUser.

Module CreateUser.

Record Request : Type := mkRequest {
  username : string;
  email : string;
  password : string;
  firstName : string;
  lastName : string;
  role : option UserRole;
  gender : option Gender;
  phone : option string;
  dateOfBirth : option Date;
  bio : option string
}.

Record Response : Type := mkResponse {
  user : User.t;
  requiresEmailVerification : bool
}.

(** The messages pushed for the fields the port reports as taken, in the
    order of the code; [conflicts?.email] is falsy when [conflicts] is
    missing. *)
Definition conflicts (existingUser : ExistsResult) : list string :=
  ((if from_option c_email false (r_conflicts existingUser)
    then ["Email already registered"] else [])
   ++ (if from_option c_username false (r_conflicts existingUser)
       then ["Username already taken"] else []))%list.

Definition defaultPreferences : UserPreferences.t :=
  UserPreferences.mk "en" "UTC"
    (UserPreferences.mkNotifications true true false)
    (UserPreferences.mkPrivacy Public false false).

Definition execute {W : Type} (userRepository : UserRepository.t W)
    (hashPassword : string -> Outcome string)
    (request : Request) : M W Response :=
  let* email := attempt (Email.new (email request)) in
  let* username := attempt (Username.new (username request)) in
  let* password := attempt (Password.new (password request)) in
  let* existingUser := Repo.exists_ userRepository email username in
  if r_exists existingUser then
    throw (Js.join ", " (conflicts existingUser))
  else
    let* passwordHash := attempt (hashPassword (Password.getValue password)) in
    let profile :=
      UserProfile.mk (firstName request) (lastName request) None
        (gender request)
        None
        (if Js.truthyOpt (phone request) then phone request else None)
        (dateOfBirth request)
        (if Js.truthyOpt (bio request) then bio request else None) in
    let* user :=
      entity (User.create username email (Some passwordHash)
                (default RoleUser (role request)) profile [] []
                false false true false defaultPreferences 0 ∅) in
    let* savedUser := Repo.create userRepository user in
    ret (mkResponse savedUser true).

End CreateUser.

(** ** The HTTP error handler

    Outside the use cases: the Express error handler turns a thrown error
    into a status and a code, which it picks from fragments of the
    message. *)

Module ErrorHandler.

Record Response : Type := mkResponse {
  statusCode : Z;
  errorCode : string;
  message : string
}.

(** [errorHandler(err, req, res, next)], as a function of [err.message] and
    of whether [NODE_ENV] is ['production']. *)
Definition errorHandler (production : bool) (errMessage : string) : Response :=
  let message := if production then "Internal server error" else errMessage in
  if Js.includes "already exists" errMessage
     || Js.includes "already registered" errMessage
  then mkResponse 409 "CONFLICT" message
  else if Js.includes "not found" errMessage
  then mkResponse 404 "NOT_FOUND" message
  else if Js.includes "Invalid" errMessage || Js.includes "required" errMessage
  then mkResponse 400 "VALIDATION_ERROR" message
  else if Js.includes "Unauthorized" errMessage
          || Js.includes "Invalid email or password" errMessage
  then mkResponse 401 "UNAUTHORIZED" message
  else if Js.includes "cannot" errMessage || Js.includes "not allowed" errMessage
          || Js.includes "admin" errMessage
  then mkResponse 403 "FORBIDDEN" message
  else mkResponse 500 "INTERNAL_ERROR" message.

End ErrorHandler.

(** ** Response shaping *)

(** [UserResponseDto], the full view of a user.  [user.id!] asserts an
    identifier that may still be missing, so [id] stays optional. *)
Module UserResponseDto.

Record t : Type := mk {
  id : option string;
  username : string;
  email : string;
  role : UserRole;
  profile : UserProfile.t;
  emailVerified : bool;
  isActive : bool;
  isSuspended : bool;
  preferences : UserPreferences.t;
  loginCount : Z;
  lastLoginAt : option Date;
  createdAt : Date;
  updatedAt : Date
}.

Definition toUserResponseDto (user : User.t) : t :=
  mk (User.id user) (Username.getValue (User.username user))
     (Email.getValue (User.email user)) (User.role user) (User.profile user)
     (User.emailVerified user) (User.isActive user) (User.isSuspended user)
     (User.preferences user) (User.loginCount user) (User.lastLoginAt user)
     (User.createdAt user) (User.updatedAt user).

End UserResponseDto.

Module UserPresenter.

(** The [profile] of [PublicUserData] and of [SearchResultData]; a key the
    object literal leaves out is [None]. *)
Record PublicProfile : Type := mkPublicProfile {
  firstName : string;
  lastName : string;
  displayName : option string;
  avatarUrl : option string;
  bio : option string
}.

Record PublicUserData : Type := mkPublicUserData {
  id : option string;
  username : string;
  profile : PublicProfile;
  emailVerified : bool;
  createdAt : Date
}.

Record SearchResultData : Type := mkSearchResultData {
  s_id : option string;
  s_username : string;
  s_profile : PublicProfile;
  s_emailVerified : bool;
  s_email : option string;
  s_role : option UserRole;
  s_isActive : option bool;
  s_createdAt : Date
}.

(** What [presentSocialAccounts] lists for an account; the public view
    leaves [id], [providerEmail] and [isActive] out. *)
Record SocialAccountView : Type := mkSocialAccountView {
  v_id : option string;
  v_provider : SocialProvider;
  v_providerEmail : option string;
  v_linkedAt : Date;
  v_isActive : option bool
}.

Record MinimalUser : Type := mkMinimalUser {
  m_id : option string;
  m_username : string;
  m_displayName : string;
  m_avatarUrl : option string;
  m_isActive : bool
}.

Record PaginationMeta : Type := mkPaginationMeta {
  current : Z;
  pm_limit : Z;
  total : Z;
  pages : Z;
  hasNext : bool;
  hasPrev : bool
}.

Definition presentUser (user : User.t) : UserResponseDto.t :=
  UserResponseDto.toUserResponseDto user.

Definition presentUserList (users : list User.t) : list UserResponseDto.t :=
  map presentUser users.

Definition presentPublicProfile (user : User.t) : PublicUserData :=
  mkPublicUserData (User.id user) (Username.getValue (User.username user))
    (mkPublicProfile
       (UserProfile.firstName (User.profile user))
       (UserProfile.lastName (User.profile user))
       (UserProfile.displayName (User.profile user))
       (UserProfile.avatarUrl (User.profile user))
       (UserProfile.bio (User.profile user)))
    (User.emailVerified user) (User.createdAt user).

Definition presentSearchResults (users : list User.t)
    (requestingUserRole : string) : list SearchResultData :=
  map (fun user =>
         let admin := String.eqb requestingUserRole "admin" in
         mkSearchResultData (User.id user)
           (Username.getValue (User.username user))
           (mkPublicProfile
              (UserProfile.firstName (User.profile user))
              (UserProfile.lastName (User.profile user))
              (UserProfile.displayName (User.profile user))
              (UserProfile.avatarUrl (User.profile user))
              None)
           (User.emailVerified user)
           (if admin then Some (Email.getValue (User.email user)) else None)
           (if admin then Some (User.role user) else None)
           (if admin then Some (User.isActive user) else None)
           (User.createdAt user))
      users.

Definition presentMinimalUser (user : User.t) : MinimalUser :=
  mkMinimalUser (User.id user) (Username.getValue (User.username user))
    (if Js.truthyOpt (UserProfile.displayName (User.profile user))
     then default "" (UserProfile.displayName (User.profile user))
     else User.getFullName user)
    (UserProfile.avatarUrl (User.profile user))
    (User.isActive user).

Definition presentPaginationMeta (pagination : Pagination) : PaginationMeta :=
  mkPaginationMeta (pg_page pagination) (pg_limit pagination)
    (pg_total pagination) (pg_pages pagination)
    (pg_page pagination <? pg_pages pagination)
    (1 <? pg_page pagination).

(** [requestingUserId === user.id], both possibly [undefined]. *)
Definition sameId (requestingUserId userId : option string) : bool :=
  bool_decide (requestingUserId = userId).

(** [requestingUserRole === 'admin'] on a role that may be [undefined]. *)
Definition isAdmin (requestingUserRole : option string) : bool :=
  match requestingUserRole with
  | Some role => String.eqb role "admin"
  | None => false
  end.

Definition presentUserWithPrivacy (user : User.t)
    (requestingUserId requestingUserRole : option string)
  : UserResponseDto.t + PublicUserData :=
  if isAdmin requestingUserRole then inl (presentUser user)
  else if sameId requestingUserId (User.id user) then inl (presentUser user)
  else
    match UserPreferences.profileVisibility
            (UserPreferences.privacy (User.preferences user)) with
    | Private =>
        inr (mkPublicUserData (User.id user)
               (Username.getValue (User.username user))
               (mkPublicProfile
                  (UserProfile.firstName (User.profile user))
                  (UserProfile.lastName (User.profile user))
                  (UserProfile.displayName (User.profile user))
                  None None)
               (User.emailVerified user) (User.createdAt user))
    | _ => inr (presentPublicProfile user)
    end.

Definition presentUserAddresses (user : User.t)
    (requestingUserId requestingUserRole : option string) : list Address.t :=
  if isAdmin requestingUserRole || sameId requestingUserId (User.id user)
  then map (fun address =>
              Address.mk (Address.id address) (Address.type address)
                (Address.addressLine1 address) (Address.addressLine2 address)
                (Address.city address) (Address.stateProvince address)
                (Address.postalCode address) (Address.country address)
                (Address.isDefault address) (Address.createdAt address)
                (Address.updatedAt address))
           (User.addresses user)
  else [].

Definition presentSocialAccounts (user : User.t)
    (requestingUserId requestingUserRole : option string)
  : list SocialAccountView :=
  if isAdmin requestingUserRole || sameId requestingUserId (User.id user)
  then map (fun account =>
              mkSocialAccountView (Some (SocialAccount.id account))
                (SocialAccount.provider account)
                (Some (SocialAccount.providerEmail account))
                (SocialAccount.linkedAt account)
                (Some (SocialAccount.isActive account)))
           (User.socialAccounts user)
  else map (fun account =>
              mkSocialAccountView None (SocialAccount.provider account) None
                (SocialAccount.linkedAt account) None)
           (List.filter SocialAccount.isActive (User.socialAccounts user)).

End UserPresenter.

(** ** Authorization middleware *)

Module AuthMiddleware.

(** [req.user], set by [authenticate]. *)
Record AuthUser : Type := mkAuthUser {
  id : string;
  email : string;
  role : string
}.

(** The route parameters the middleware reads. *)
Record Params : Type := mkParams {
  p_userId : option string;
  p_id : option string
}.

(** A middleware either answers with a status and an error envelope
    (message, code) or calls [next()]. *)
Inductive Result : Type :=
| Next
| Respond (status : Z) (message code : string).

Definition requireAdmin (user : option AuthUser) : Result :=
  match user with
  | None => Respond 401 "Authentication required" "UNAUTHORIZED"
  | Some u =>
      if negb (String.eqb (role u) "admin")
      then Respond 403 "Administrator access required" "FORBIDDEN"
      else Next
  end.

(** [req.params.userId || req.params.id] *)
Definition targetUserId (params : Params) : option string :=
  if Js.truthyOpt (p_userId params) then p_userId params else p_id params.

Definition requireSelfOrAdmin (user : option AuthUser) (params : Params) : Result :=
  match user with
  | None => Respond 401 "Authentication required" "UNAUTHORIZED"
  | Some u =>
      if negb (String.eqb (role u) "admin")
         && negb (bool_decide (Some (id u) = targetUserId params))
      then Respond 403
             "You can only access your own resources or must be an admin"
             "FORBIDDEN"
      else Next
  end.

End AuthMiddleware.

(** ** The MongoDB adapter: existence check *)

Module MongoUserRepository.

(** The two fields [select('email username')] keeps of a stored document. *)
Record Doc : Type := mkDoc {
  email : string;
  username : string
}.

(** [{ $or: [{ email }, { username }] }] on a document. *)
Definition matchesEither (e : Email.t) (u : Username.t) (doc : Doc) : bool :=
  String.eqb (email doc) (Email.getValue e)
  || String.eqb (username doc) (Username.getValue u).

(** [exists(email, username)], given the answer of
    [UserModel.findOne(...)]: a document, [null], or a failure, of which
    [Throw s] carries the rendering [`${error}`]. *)
Definition exists_ (findOne : Outcome (option Doc)) (e : Email.t) (u : Username.t)
  : Outcome ExistsResult :=
  match findOne with
  | Throw rendered => Throw ("Error checking user existence: " +:+ rendered)
  | Ok None => Ok (mkExistsResult false None)
  | Ok (Some existingUser) =>
      Ok (mkExistsResult true
            (Some (mkConflicts
                     (String.eqb (email existingUser) (Email.getValue e))
                     (String.eqb (username existingUser) (Username.getValue u)))))
  end.

End MongoUserRepository.

(** ** Predicates of the specification *)

(** Number of addresses flagged as default. *)
Definition countDefault (l : list Address.t) : nat :=
  length (filter (fun a => Address.isDefault a = true) l).

(** Number of active accounts of a given provider. *)
Definition countActive (p : SocialProvider) (l : list SocialAccount.t) : nat :=
  length (filter (fun a => SocialAccount.activeFor p a = true) l).

(** At most one active account per provider. *)
Definition oneActivePerProvider (l : list SocialAccount.t) : Prop :=
  forall p, (countActive p l <= 1)%nat.

(** The aggregate after the soft delete of [DeleteUser], and the runtime
    after it. *)
Definition softDelete (u : User.t) (rt : Runtime.t) : User.t * Runtime.t :=
  let '(u, rt) := User.deactivate u rt in
  User.suspend "Account deleted by user" u rt.

(** The message of the conflict error of registration for the two flags of
    the port's report. *)
Definition conflictMessage (emailTaken usernameTaken : bool) : string :=
  match emailTaken, usernameTaken with
  | true, true => "Email already registered, Username already taken"
  | true, false => "Email already registered"
  | false, true => "Username already taken"
  | false, false => ""
  end.

(** A part of an email address: not empty, without white space or [@]. *)
Definition emailPart (s : string) : Prop :=
  s <> "" /\ Js.every Email.notSpaceNorAt s = true.

(** A code unit that is not white space. *)
Definition notWhiteSpace (c : ascii) : bool := negb (Js.isWhiteSpace c).

(** The record [linkSocialAccount] writes over an existing one: the new
    provider id and email, the old data overridden by the new, the new date;
    identifier, provider and activity as they were. *)
Definition relinked (providerId providerEmail : string)
    (providerData : gmap string JsValue) (now : Date) (old : SocialAccount.t)
  : SocialAccount.t :=
  SocialAccount.mk (SocialAccount.id old) (SocialAccount.provider old)
    providerId providerEmail
    (spread (SocialAccount.providerData old) providerData) now
    (SocialAccount.isActive old).

(** The properties of the aggregate that none of its methods assigns. *)
Definition sameIdentity (u u' : User.t) : Prop :=
  User.id u' = User.id u
  /\ User.username u' = User.username u
  /\ User.email u' = User.email u
  /\ User.role u' = User.role u
  /\ User.phoneVerified u' = User.phoneVerified u
  /\ User.customFields u' = User.customFields u
  /\ User.createdAt u' = User.createdAt u
  /\ User.createdBy u' = User.createdBy u
  /\ User.updatedBy u' = User.updatedBy u.

(** A call of a state-mutating method of the aggregate, with its
    arguments. *)
Inductive Mutation : Type :=
| UpdateProfile (profile : UserProfile.partial)
| UpdatePreferences (preferences : UserPreferences.partial)
| Activate
| Deactivate
| Suspend (reason : string)
| Unsuspend
| VerifyEmail
| RecordLogin
| ChangePassword (newPasswordHash : string)
| AddAddress (address : Address.input)
| LinkSocial (provider : SocialProvider) (providerId providerEmail : string)
             (providerData : gmap string JsValue).

Definition mutate (m : Mutation) (u : User.t) (rt : Runtime.t) : User.t * Runtime.t :=
  match m with
  | UpdateProfile p => User.updateProfile p u rt
  | UpdatePreferences p => User.updatePreferences p u rt
  | Activate => User.activate u rt
  | Deactivate => User.deactivate u rt
  | Suspend reason => User.suspend reason u rt
  | Unsuspend => User.unsuspend u rt
  | VerifyEmail => User.verifyEmail u rt
  | RecordLogin => User.recordLogin u rt
  | ChangePassword h => User.changePassword h u rt
  | AddAddress a => User.addAddress a u rt
  | LinkSocial p providerId providerEmail data =>
      User.linkSocialAccount p providerId providerEmail data u rt
  end.

(** The calls of a list, one after the other. *)
Fixpoint mutateAll (ms : list Mutation) (u : User.t) (rt : Runtime.t)
  : User.t * Runtime.t :=
  match ms with
  | [] => (u, rt)
  | m :: ms' => let '(u, rt) := mutate m u rt in mutateAll ms' u rt
  end.

(** What a property holds after [{ ...old, ...partial }]: the value the
    partial gives for it, and the old value when the partial gives none. *)
Definition spreadOver {A : Type} (old : A) (given : option A) (new : A) : Prop :=
  match given with
  | Some v => new = v
  | None => new = old
  end.

(** The partial without any property. *)
Definition noProfileChange : UserProfile.partial :=
  UserProfile.mkPartial None None None None None None None None.

(** [{ ...a, ...b }] on two partial profiles. *)
Definition overrideProfile (a b : UserProfile.partial) : UserProfile.partial :=
  UserProfile.mkPartial
    (from_option Some (UserProfile.p_firstName a) (UserProfile.p_firstName b))
    (from_option Some (UserProfile.p_lastName a) (UserProfile.p_lastName b))
    (from_option Some (UserProfile.p_displayName a) (UserProfile.p_displayName b))
    (from_option Some (UserProfile.p_gender a) (UserProfile.p_gender b))
    (from_option Some (UserProfile.p_avatarUrl a) (UserProfile.p_avatarUrl b))
    (from_option Some (UserProfile.p_phone a) (UserProfile.p_phone b))
    (from_option Some (UserProfile.p_dateOfBirth a) (UserProfile.p_dateOfBirth b))
    (from_option Some (UserProfile.p_bio a) (UserProfile.p_bio b)).

(** [{ ...a, ...b }] on two partial preferences. *)
Definition overridePreferences (a b : UserPreferences.partial)
  : UserPreferences.partial :=
  UserPreferences.mkPartial
    (from_option Some (UserPreferences.p_language a) (UserPreferences.p_language b))
    (from_option Some (UserPreferences.p_timezone a) (UserPreferences.p_timezone b))
    (from_option Some (UserPreferences.p_notifications a)
       (UserPreferences.p_notifications b))
    (from_option Some (UserPreferences.p_privacy a) (UserPreferences.p_privacy b)).

(** ** A repository with canned answers

    The stand-in the unit tests use for the port: the store is the set of
    answers the lookups are going to give; writes succeed and return the
    aggregate they were given. *)

Module Mock.

Record Answers : Type := mkAnswers {
  byId : option User.t;
  byEmail : option User.t;
  bySocialAccount : option User.t;
  existing : ExistsResult
}.

Definition emptyPage : PaginationResult :=
  mkPaginationResult [] (mkPagination 1 20 0 0).

Definition repository : UserRepository.t Answers :=
  UserRepository.mk Answers
    (fun user w => (Ok user, w))
    (fun _ w => (Ok (byId w), w))
    (fun _ w => (Ok (byEmail w), w))
    (fun _ w => (Ok None, w))
    (fun _ _ w => (Ok (bySocialAccount w), w))
    (fun user w => (Ok user, w))
    (fun _ w => (Ok true, w))
    (fun _ _ w => (Ok emptyPage, w))
    (fun _ _ w => (Ok [], w))
    (fun _ _ w => (Ok (existing w), w)).

Definition runtime : Runtime.t :=
  Runtime.mk (fun n => 1700000000000 + Z.of_nat n) 0
             (fun n => "uuid-" +:+ String (ascii_of_nat (97 + n)) "") 0.

Definition env (answers : Answers) : Env Answers := mkEnv answers runtime [].

Definition nothing : Answers := mkAnswers None None None (mkExistsResult false None).

Definition profile : UserProfile.t :=
  UserProfile.mk "Test" "User" None None None None None None.

(** An active, verified user with a password hash and no address. *)
Definition user (id name : string) (role : UserRole) : User.t :=
  User.mk (Some id) (Username.mk name) (Email.mk (name +:+ "@example.com"))
    (Some "hashed-password") role profile [] [] true false true false None None
    CreateUser.defaultPreferences None None 0 ∅ 1600000000000 1600000000000
    None None.

Definition home (isDefault : bool) : Address.input :=
  Address.mkInput Home "1 Main St" None "Hanoi" None None "VN" isDefault.

Definition comparePassword (password hash : string) : Outcome bool :=
  Ok (String.eqb ("hashed-" +:+ password) hash).

Definition generateTokens (payload : LoginUser.Payload) : Outcome LoginUser.Tokens :=
  Ok (LoginUser.mkTokens "access-token" "refresh-token").

Definition hashPassword (password : string) : Outcome string :=
  Ok ("hashed-" +:+ password).

End Mock.

(** * Properties *)

(** ** Strings and regular expressions *)

Lemma toLowerChar_notWhiteSpace (c : ascii) :
  notWhiteSpace c = true -> notWhiteSpace (Js.toLowerChar c) = true.
Proof.
  destruct c as [[] [] [] [] [] [] [] []]; vm_compute; congruence.
Qed.

Lemma toLowerCase_notWhiteSpace (s : string) :
  Js.every notWhiteSpace s = true ->
  Js.every notWhiteSpace (Js.toLowerCase s) = true.
Proof.
  induction s as [|c s IH]; simpl; [done|].
  intros [Hc Hs]%andb_true_iff.
  by rewrite toLowerChar_notWhiteSpace, IH.
Qed.

Lemma toLowerChar_idempotent (c : ascii) :
  Js.toLowerChar (Js.toLowerChar c) = Js.toLowerChar c.
Proof.
  destruct c as [[] [] [] [] [] [] [] []]; reflexivity.
Qed.

Lemma toLowerCase_idempotent (s : string) :
  Js.toLowerCase (Js.toLowerCase s) = Js.toLowerCase s.
Proof.
  induction s as [|c s IH]; simpl; [done|].
  by rewrite toLowerChar_idempotent, IH.
Qed.

Lemma trimEnd_notWhiteSpace (s : string) :
  Js.every notWhiteSpace s = true -> Js.trimEnd s = s.
Proof.
  induction s as [|c s IH]; [done|].
  intros [Hc Hs]%andb_true_iff.
  change (Js.trimEnd (String c s))
    with (if Js.isWhiteSpace c && Js.allWhiteSpace s
          then EmptyString else String c (Js.trimEnd s)).
  unfold notWhiteSpace in Hc. apply negb_true_iff in Hc.
  by rewrite Hc, IH.
Qed.

Lemma trim_notWhiteSpace (s : string) :
  Js.every notWhiteSpace s = true -> Js.trim s = s.
Proof.
  intros H. unfold Js.trim.
  assert (Js.trimStart s = s) as ->; [|by apply trimEnd_notWhiteSpace].
  destruct s as [|c s]; [done|].
  simpl in *. apply andb_true_iff in H as [Hc _].
  unfold notWhiteSpace in Hc. apply negb_true_iff in Hc. by rewrite Hc.
Qed.

Lemma isVoid_not_nullable (r : Regex.regex) :
  Regex.isVoid r = true -> Regex.nullable r = false.
Proof.
  induction r as [| |p|r1 IH1 r2 IH2|r1 IH1 r2 IH2|r IH]; simpl; try done.
  - intros [H|H]%orb_true_iff.
    + by rewrite IH1.
    + rewrite IH2 by done. apply andb_false_r.
  - intros [H1 H2]%andb_true_iff. by rewrite IH1, IH2.
Qed.

Lemma deriv_isVoid (c : ascii) (r : Regex.regex) :
  Regex.isVoid r = true -> Regex.isVoid (Regex.deriv c r) = true.
Proof.
  induction r as [| |p|r1 IH1 r2 IH2|r1 IH1 r2 IH2|r IH]; simpl; try done.
  - intros [H|H]%orb_true_iff.
    + by rewrite (IH1 H), (isVoid_not_nullable r1 H).
    + rewrite H, orb_true_r. simpl. destruct (Regex.nullable r1); auto.
  - intros [H1 H2]%andb_true_iff. by rewrite IH1, IH2.
Qed.

Lemma test_isVoid (s : string) (r : Regex.regex) :
  Regex.isVoid r = true -> Regex.test r s = false.
Proof.
  revert r. induction s as [|c s IH]; intros r H; simpl.
  - by apply isVoid_not_nullable.
  - apply IH. by apply deriv_isVoid.
Qed.

Lemma deriv_classesWithin (P : ascii -> bool) (c : ascii) (r : Regex.regex) :
  Regex.classesWithin P r -> Regex.classesWithin P (Regex.deriv c r).
Proof.
  induction r as [| |p|r1 IH1 r2 IH2|r1 IH1 r2 IH2|r IH]; simpl; try done.
  - intros _. by destruct (p c).
  - intros [H1 H2]. repeat split; auto.
    destruct (Regex.nullable r1); simpl; auto.
  - intros [H1 H2]. auto.
  - intros H. auto.
Qed.

Lemma deriv_outside_isVoid (P : ascii -> bool) (c : ascii) (r : Regex.regex) :
  Regex.classesWithin P r -> P c = false ->
  Regex.isVoid (Regex.deriv c r) = true.
Proof.
  intros Hr Hc.
  induction r as [| |p|r1 IH1 r2 IH2|r1 IH1 r2 IH2|r IH]; simpl in *; try done.
  - destruct (p c) eqn:Hp; [|done]. rewrite (Hr c Hp) in Hc. done.
  - destruct Hr as [H1 H2]. rewrite (IH1 H1). simpl.
    destruct (Regex.nullable r1); auto.
  - destruct Hr as [H1 H2]. by rewrite IH1, IH2.
  - by rewrite IH.
Qed.

(** A string matched by a pattern is made of characters of its classes. *)
Lemma test_every (P : ascii -> bool) (s : string) (r : Regex.regex) :
  Regex.classesWithin P r -> Regex.test r s = true -> Js.every P s = true.
Proof.
  revert r. induction s as [|c s IH]; intros r Hr Hs; simpl in *; [done|].
  destruct (P c) eqn:Hc; simpl.
  - apply (IH (Regex.deriv c r)); [by apply deriv_classesWithin|done].
  - rewrite test_isVoid in Hs; [done|]. by apply (deriv_outside_isVoid P).
Qed.

Lemma append_empty_inv (s1 s2 : string) : s1 +:+ s2 = "" -> s1 = "" /\ s2 = "".
Proof. destruct s1; [done|]. discriminate. Qed.

Lemma append_cons_inv (s1 s2 : string) (c : ascii) (s : string) :
  s1 +:+ s2 = String c s ->
  (s1 = "" /\ s2 = String c s) \/ (exists s1', s1 = String c s1' /\ s = s1' +:+ s2).
Proof.
  destruct s1 as [|a s1]; [by left|].
  intros [= -> <-]. right. eauto.
Qed.

Lemma nullable_Matches (r : Regex.regex) :
  Regex.nullable r = true <-> Regex.Matches r "".
Proof.
  split.
  - induction r as [| |p|r1 IH1 r2 IH2|r1 IH1 r2 IH2|r IH]; simpl; try done.
    + intros _. constructor.
    + intros [H1 H2]%andb_true_iff.
      change "" with ("" +:+ ""). constructor; auto.
    + intros [H|H]%orb_true_iff; [apply Regex.MatchAltL|apply Regex.MatchAltR]; auto.
    + intros _. constructor.
  - intros H. remember "" as s eqn:Hs.
    induction H as [|p c Hc|r1 r2 s1 s2 _ IH1 _ IH2|r1 r2 s _ IH|r1 r2 s _ IH
                   |r|r s1 s2 _ _ _ _]; simpl; try done.
    + apply append_empty_inv in Hs as [-> ->].
      by rewrite IH1, IH2.
    + by rewrite IH.
    + rewrite IH by done. apply orb_true_r.
Qed.

Lemma deriv_Matches (c : ascii) (r : Regex.regex) (s : string) :
  Regex.Matches (Regex.deriv c r) s <-> Regex.Matches r (String c s).
Proof.
  split.
  - revert s.
    induction r as [| |p|r1 IH1 r2 IH2|r1 IH1 r2 IH2|r IH]; simpl; intros s H.
    + inversion H.
    + inversion H.
    + destruct (p c) eqn:Hc; inversion H; subst. by constructor.
    + inversion H as [| | |? ? ? H1|? ? ? H2| |]; subst.
      * inversion H1 as [| |? ? s1 s2 Hd H2| | | |]; subst.
        change (String c (s1 +:+ s2)) with (String c s1 +:+ s2).
        constructor; auto.
      * destruct (Regex.nullable r1) eqn:Hn; [|inversion H2].
        change (String c s) with ("" +:+ String c s).
        constructor; [by apply nullable_Matches|auto].
    + inversion H; subst; [apply Regex.MatchAltL|apply Regex.MatchAltR]; auto.
    + inversion H as [| |? ? s1 s2 Hd H2| | | |]; subst.
      change (String c (s1 +:+ s2)) with (String c s1 +:+ s2).
      constructor; auto.
  - intros H. remember (String c s) as s0 eqn:Hs. revert s Hs.
    induction H as [|p a Ha|r1 r2 s1 s2 H1 IH1 H2 IH2|r1 r2 s0 _ IH|r1 r2 s0 _ IH
                   |r|r s1 s2 H1 IH1 H2 IH2]; intros s Hs; simpl; try done.
    + injection Hs as -> <-. rewrite Ha. constructor.
    + apply append_cons_inv in Hs as [[-> ->]|(s1' & -> & ->)].
      * apply Regex.MatchAltR.
        apply nullable_Matches in H1 as ->. by apply IH2.
      * apply Regex.MatchAltL. constructor; auto.
    + apply Regex.MatchAltL; auto.
    + apply Regex.MatchAltR; auto.
    + apply append_cons_inv in Hs as [[-> ->]|(s1' & -> & ->)].
      * by apply IH2.
      * constructor; auto.
Qed.

(** The derivative matcher decides the denotation. *)
Lemma test_Matches (r : Regex.regex) (s : string) :
  Regex.test r s = true <-> Regex.Matches r s.
Proof.
  revert r. induction s as [|c s IH]; intros r; simpl.
  - apply nullable_Matches.
  - rewrite IH. apply deriv_Matches.
Qed.

Lemma Matches_class (p : ascii -> bool) (s : string) :
  Regex.Matches (Regex.Class p) s <-> exists c, s = String c "" /\ p c = true.
Proof.
  split.
  - inversion 1; subst. eauto.
  - intros (c & -> & Hc). by constructor.
Qed.

Lemma Matches_star_class (p : ascii -> bool) (s : string) :
  Regex.Matches (Regex.Star (Regex.Class p)) s <-> Js.every p s = true.
Proof.
  split.
  - intros H. remember (Regex.Star (Regex.Class p)) as r eqn:Hr.
    induction H as [| | | | | |r s1 s2 H1 _ _ IH2]; try done.
    injection Hr as ->. apply Matches_class in H1 as (c & -> & Hc).
    change (String c "" +:+ s2) with (String c s2). simpl.
    by rewrite Hc, IH2.
  - induction s as [|c s IH]; simpl; [constructor|].
    intros [Hc Hs]%andb_true_iff.
    change (String c s) with (String c "" +:+ s).
    constructor; [by constructor|auto].
Qed.

Lemma Matches_plus_class (p : ascii -> bool) (s : string) :
  Regex.Matches (Regex.Plus (Regex.Class p)) s <-> s <> "" /\ Js.every p s = true.
Proof.
  unfold Regex.Plus. split.
  - inversion 1 as [| |? ? s1 s2 H1 H2| | | |]; subst.
    apply Matches_class in H1 as (c & -> & Hc).
    apply Matches_star_class in H2.
    change (String c "" +:+ s2) with (String c s2). simpl.
    by rewrite Hc, H2.
  - destruct s as [|c s]; intros [Hne H]; [done|].
    simpl in H. apply andb_true_iff in H as [Hc Hs].
    change (String c s) with (String c "" +:+ s).
    constructor; [by constructor|by apply Matches_star_class].
Qed.

Lemma Matches_seq (r1 r2 : Regex.regex) (s : string) :
  Regex.Matches (Regex.Seq r1 r2) s <->
  exists s1 s2, s = s1 +:+ s2 /\ Regex.Matches r1 s1 /\ Regex.Matches r2 s2.
Proof.
  split.
  - inversion 1; subst. eauto.
  - intros (s1 & s2 & -> & H1 & H2). by constructor.
Qed.

Lemma Matches_char (a : ascii) (s : string) :
  Regex.Matches (Regex.Class (Ascii.eqb a)) s <-> s = String a "".
Proof.
  rewrite Matches_class. split.
  - by intros (c & -> & ->%Ascii.eqb_eq).
  - intros ->. exists a. by rewrite Ascii.eqb_refl.
Qed.

Lemma emailRegex_classes : Regex.classesWithin notWhiteSpace Email.emailRegex.
Proof.
  assert (forall c, Email.notSpaceNorAt c = true -> notWhiteSpace c = true) as H1.
  { intros c [H _]%andb_true_iff. done. }
  unfold Email.emailRegex, Regex.Plus. cbn [Regex.classesWithin].
  repeat split; try exact H1; intros c Hc; apply Ascii.eqb_eq in Hc; by subst.
Qed.

(** ** Email *)

Lemma valid_email_no_whiteSpace (s : string) :
  Email.isValid s = true -> Js.every notWhiteSpace s = true.
Proof. apply test_every, emailRegex_classes. Qed.

(** What the pattern accepts: a local part, [@], and a domain with a dot
    inside, none of them with white space or a second [@]. *)
Lemma email_isValid_shape (s : string) :
  Email.isValid s = true <->
  exists loc domain tld,
    s = loc +:+ "@" +:+ domain +:+ "." +:+ tld
    /\ emailPart loc /\ emailPart domain /\ emailPart tld.
Proof.
  unfold Email.isValid, Email.emailRegex. rewrite test_Matches.
  unfold emailPart. split.
  - intros (loc & s1 & -> & Hloc%Matches_plus_class & H)%Matches_seq.
    apply Matches_seq in H as (? & s2 & -> & ->%Matches_char & H).
    apply Matches_seq in H as (domain & s3 & -> & Hdom%Matches_plus_class & H).
    apply Matches_seq in H as (? & tld & -> & ->%Matches_char & Htld%Matches_plus_class).
    by exists loc, domain, tld.
  - intros (loc & domain & tld & -> & Hloc & Hdom & Htld).
    constructor; [by apply Matches_plus_class|].
    constructor; [by apply Matches_char|].
    constructor; [by apply Matches_plus_class|].
    constructor; [by apply Matches_char|by apply Matches_plus_class].
Qed.

(** On an argument that passes [isValid] the constructor succeeds and the
    value is the lower-cased argument: there is no white space left to
    trim. *)
Lemma email_new_valid (s : string) :
  Email.isValid s = true -> Email.new s = Ok (Email.mk (Js.toLowerCase s)).
Proof.
  intros H. unfold Email.new. rewrite H. simpl.
  by rewrite trim_notWhiteSpace
    by by apply toLowerCase_notWhiteSpace, valid_email_no_whiteSpace.
Qed.

(** The constructor fails exactly on the arguments [isValid] refuses. *)
Lemma email_new_invalid (s : string) :
  Email.isValid s = false -> Email.new s = Throw "Invalid email format".
Proof. intros H. unfold Email.new. by rewrite H. Qed.

(** Two valid arguments that differ only in letter case give equal values. *)
Lemma email_case_insensitive (s1 s2 : string) :
  Email.isValid s1 = true -> Email.isValid s2 = true ->
  Js.toLowerCase s1 = Js.toLowerCase s2 ->
  Email.new s1 = Email.new s2.
Proof.
  intros H1 H2 H. by rewrite (email_new_valid s1), (email_new_valid s2), H.
Qed.

Lemma email_case_insensitive_witness :
  Email.new "Test@Example.COM" = Email.new "test@example.com".
Proof. by apply email_case_insensitive. Defined.

(** A valid argument has no white space, so an argument with white space
    around it is refused. *)
Lemma email_padded_refused (s : string) :
  Js.every notWhiteSpace s = false -> Email.new s = Throw "Invalid email format".
Proof.
  intros H. apply email_new_invalid.
  destruct (Email.isValid s) eqn:Hv; [|done].
  by rewrite (valid_email_no_whiteSpace s Hv) in H.
Qed.

(** C4. The constructor validates its argument before it trims it: on
    ["A@B.com "], the example of the specification, the pattern refuses the
    trailing space and the constructor throws, although the trimmed,
    lower-cased argument is ["a@b.com"], which is accepted, and although
    [Username] trims before it validates. *)
Theorem email_trailing_space_rejected :
  Email.new "A@B.com " = Throw "Invalid email format"
  /\ Email.new "a@b.com" = Ok (Email.mk "a@b.com")
  /\ Email.new "A@B.com" = Ok (Email.mk "a@b.com")
  /\ Js.trim (Js.toLowerCase "A@B.com ") = "a@b.com"
  /\ Email.new "  test@example.com  " = Throw "Invalid email format"
  /\ Username.new "  user_1 " = Ok (Username.mk "user_1").
Proof. repeat split; reflexivity. Qed.

(** ** The User aggregate *)

(** C1. [canLogin()] is true if and only if the user is active, not
    suspended and has a verified email; it is false as soon as the user is
    inactive, suspended or unverified. *)
Theorem canLogin_iff (u : User.t) :
  (User.canLogin u = true <->
   User.isActive u = true /\ User.isSuspended u = false
   /\ User.emailVerified u = true)
  /\ (User.isActive u = false \/ User.isSuspended u = true
      \/ User.emailVerified u = false <-> User.canLogin u = false).
Proof.
  unfold User.canLogin.
  destruct (User.isActive u), (User.isSuspended u), (User.emailVerified u);
    simpl; intuition congruence.
Qed.

(** ** Running use-case programs *)

Lemma selfOrAdmin_false (role requester target : string) :
  selfOrAdmin role requester target = false <->
  role <> "admin" /\ requester <> target.
Proof.
  unfold selfOrAdmin. rewrite orb_false_iff, !String.eqb_neq. done.
Qed.

Lemma selfOrAdmin_true (role requester target : string) :
  selfOrAdmin role requester target = true <->
  role = "admin" \/ requester = target.
Proof.
  unfold selfOrAdmin. rewrite orb_true_iff, !String.eqb_eq. done.
Qed.

(** Unfolds the combinators of a use-case program. *)
Ltac run :=
  unfold Repo.create, Repo.findById, Repo.findByEmail, Repo.findBySocialAccount,
    Repo.update, Repo.findAll, Repo.search, Repo.exists_, newDate;
  unfold bind, throw, ret, attempt, entity, port; simpl.

Section Lookup.
Context {W : Type} (repo : UserRepository.t W).


End Lookup.


(** A soft-deleted account cannot log in, whatever its other flags. *)
Lemma softDelete_blocks_login (u : User.t) (rt : Runtime.t) :
  User.canLogin (fst (softDelete u rt)) = false.
Proof. reflexivity. Qed.

Section Delete.
Context {W : Type} (repo : UserRepository.t W).

(** C5. DeleteUser on an existing user.  A non-admin deleting their own
    account, and an admin deleting another user, succeed, and the delete is
    soft: the only write to the port is [update] with the user deactivated
    and suspended with reason "Account deleted by user"; [delete] is not
    called.  An admin deleting their own account fails with the error
    "Administrators cannot delete their own account", and nothing is
    written. *)
Theorem delete_is_soft_and_guarded
    (userId requester role : string) (env : Env W) (u saved : User.t)
    (w1 w2 : W) :
  let deleted := fst (softDelete u (runtime env)) in
  let rt := snd (softDelete u (runtime env)) in
  let del := DeleteUser.execute repo
               (DeleteUser.mkRequest userId requester role) env in
  let success :=
    (Ok (DeleteUser.mkResponse "User account has been successfully deleted"
           (fst (Runtime.newDate rt))),
     mkEnv w2 (snd (Runtime.newDate rt))
           (calls env ++ [CallFindById userId; CallUpdate deleted])) in
  UserRepository.findById repo userId (world env) = (Ok (Some u), w1) ->
  UserRepository.update repo deleted w1 = (Ok saved, w2) ->
  (User.isActive deleted = false
   /\ User.isSuspended deleted = true
   /\ User.suspendedReason deleted = Some "Account deleted by user"
   /\ User.id deleted = User.id u
   /\ User.username deleted = User.username u
   /\ User.email deleted = User.email u)
  /\ (role <> "admin" -> requester = userId -> del = success)
  /\ (role = "admin" -> requester = userId ->
      del = (Throw "Administrators cannot delete their own account",
             mkEnv w1 (runtime env) (calls env ++ [CallFindById userId])))
  /\ (role = "admin" -> requester <> userId -> del = success).
Proof.
  intros deleted rt del success Hfind Hupdate.
  split; [done|].
  unfold del, success, DeleteUser.execute, selfOrAdmin.
  cbn in Hupdate.
  split; [|split].
  - intros Hrole%String.eqb_neq ->. run.
    rewrite Hfind, Hrole, String.eqb_refl. cbn.
    rewrite Hupdate. cbn. by rewrite <- app_assoc.
  - intros -> ->. run. by rewrite Hfind, String.eqb_refl.
  - intros -> Hother%String.eqb_neq. run.
    rewrite Hfind, Hother. cbn.
    rewrite Hupdate. cbn. by rewrite <- app_assoc.
Qed.

End Delete.

Lemma delete_is_soft_and_guarded_witness :
  let repo := Mock.repository in
  let bob := Mock.user "u2" "bob" RoleUser in
  let root := Mock.user "a1" "root" RoleAdmin in
  let found u := Mock.env (Mock.mkAnswers (Some u) None None
                             (mkExistsResult false None)) in
  let deleted := fst (softDelete bob Mock.runtime) in
  (* a user deletes their own account *)
  (fst (DeleteUser.execute repo (DeleteUser.mkRequest "u2" "u2" "user") (found bob))
   = Ok (DeleteUser.mkResponse "User account has been successfully deleted"
           1700000000003)
   /\ calls (snd (DeleteUser.execute repo (DeleteUser.mkRequest "u2" "u2" "user")
                    (found bob)))
      = [CallFindById "u2"; CallUpdate deleted])
  (* an admin deletes their own account *)
  /\ fst (DeleteUser.execute repo (DeleteUser.mkRequest "a1" "a1" "admin") (found root))
     = Throw "Administrators cannot delete their own account"
  (* an admin deletes another user *)
  /\ calls (snd (DeleteUser.execute repo (DeleteUser.mkRequest "u2" "a1" "admin")
                   (found bob)))
     = [CallFindById "u2"; CallUpdate deleted].
Proof.
  intros repo bob root found deleted.
  destruct (delete_is_soft_and_guarded repo "u2" "u2" "user" (found bob) bob
              deleted (world (found bob)) (world (found bob)) eq_refl eq_refl)
    as (_ & Hself & _ & _).
  destruct (delete_is_soft_and_guarded repo "a1" "a1" "admin" (found root) root
              (fst (softDelete root Mock.runtime))
              (world (found root)) (world (found root)) eq_refl eq_refl)
    as (_ & _ & Hadmin & _).
  destruct (delete_is_soft_and_guarded repo "u2" "a1" "admin" (found bob) bob
              deleted (world (found bob)) (world (found bob)) eq_refl eq_refl)
    as (_ & _ & _ & Hother).
  rewrite (Hself ltac:(done) eq_refl), (Hadmin eq_refl eq_refl),
    (Hother eq_refl ltac:(done)).
  repeat split.
Defined.

Section Listing.
Context {W : Type} (repo : UserRepository.t W).

(** C8. ListUsers.  For a requester whose role is not admin the use case
    fails with the error "Only administrators can view all users" whatever
    the filters and the options, without calling the port.  For an admin it
    calls [findAll] once, with the filters as given and with options whose
    page defaults to 1, limit to 20, sort key to "createdAt" and direction to
    descending, and whose limit is 100 when a limit above 100 is asked; the
    result is the port's. *)
Theorem listUsers_admin_only_and_defaults
    (role : string) (filters : option UserFilters)
    (options : option ListUsers.Options) (env : Env W) :
  let list := ListUsers.execute repo (ListUsers.mkRequest role filters options) env in
  let passed :=
    mkPaginationOptions
      (orNumber (options ≫= ListUsers.o_page) 1)
      (Z.min (orNumber (options ≫= ListUsers.o_limit) 20) 100)
      (Some (orString (options ≫= ListUsers.o_sortBy) "createdAt"))
      (Some (default Desc (options ≫= ListUsers.o_sortOrder))) in
  (role <> "admin" ->
   list = (Throw "Only administrators can view all users", env))
  /\ (role = "admin" ->
      fst list = fst (UserRepository.findAll repo filters (Some passed) (world env))
      /\ calls (snd list) = (calls env ++ [CallFindAll filters (Some passed)])%list
      /\ (options = None ->
          passed = mkPaginationOptions 1 20 (Some "createdAt") (Some Desc))
      /\ (forall o, options = Some o ->
          (ListUsers.o_page o = None -> page passed = 1)
          /\ (ListUsers.o_limit o = None -> limit passed = 20)
          /\ (ListUsers.o_sortBy o = None -> sortBy passed = Some "createdAt")
          /\ (ListUsers.o_sortOrder o = None -> sortOrder passed = Some Desc)
          /\ (forall n, ListUsers.o_limit o = Some n -> 100 < n -> limit passed = 100)
          /\ (forall n, ListUsers.o_limit o = Some n -> 0 < n <= 100 ->
              limit passed = n))
      /\ limit passed <= 100).
Proof.
  intros list passed. unfold list, ListUsers.execute. simpl. split.
  - intros Hrole%String.eqb_neq. by rewrite Hrole.
  - intros ->. run. fold passed.
    split; [by destruct (UserRepository.findAll repo _ _ _) as [[r|m] w]|].
    split; [by destruct (UserRepository.findAll repo _ _ _) as [[r|m] w]|].
    split; [by intros ->|].
    split; [|unfold passed; simpl; lia].
    intros given ->. unfold passed; simpl.
    repeat split; try (by intros ->);
      intros n -> Hn; simpl; destruct (Z.eqb_spec n 0); lia.
Qed.

(** C9. SearchUsers.  For a query that is not empty and has at least two
    characters once trimmed, and a requester whose role is not admin, the
    use case does not fail by itself: it calls [search] once, with the
    trimmed query and with options whose [includeInactive] is false whatever
    the request asked, and returns what the port returns. *)
Theorem searchUsers_forces_includeInactive
    (query role : string) (options : option SearchUsers.Options) (env : Env W) :
  query <> "" ->
  (2 <= String.length (Js.trim query))%nat ->
  role <> "admin" ->
  let search := SearchUsers.execute repo (SearchUsers.mkRequest query role options) env in
  exists passed : SearchOptions,
    so_includeInactive passed = Some false
    /\ so_page passed = 1
    /\ so_limit passed = Z.min (orNumber (options ≫= SearchUsers.o_limit) 20) 50
    /\ so_skip passed = orNumber (options ≫= SearchUsers.o_skip) 0
    /\ calls (snd search) = (calls env ++ [CallSearch (Js.trim query) (Some passed)])%list
    /\ fst search
       = fst (UserRepository.search repo (Js.trim query) (Some passed) (world env)).
Proof.
  intros Hquery Hlen Hrole%String.eqb_neq search.
  unfold search, SearchUsers.execute. simpl.
  assert (Js.truthy query = true) as ->.
  { unfold Js.truthy. apply negb_true_iff. by apply String.eqb_neq. }
  assert ((String.length (Js.trim query) <? 2)%nat = false) as ->.
  { apply Nat.ltb_ge. lia. }
  rewrite Hrole. simpl. run.
  eexists (mkSearchOptions _ _ _ _). simpl.
  repeat split; try reflexivity;
    destruct (UserRepository.search repo _ _ _) as [[result|message] w];
    reflexivity.
Qed.

End Listing.

Lemma listUsers_admin_only_and_defaults_witness :
  let repo := Mock.repository in
  let env := Mock.env Mock.nothing in
  let huge := Some (ListUsers.mkOptions (Some 3) (Some 500) None None) in
  ListUsers.execute repo (ListUsers.mkRequest "user" None huge) env
  = (Throw "Only administrators can view all users", env)
  /\ calls (snd (ListUsers.execute repo (ListUsers.mkRequest "admin" None huge) env))
     = [CallFindAll None
          (Some (mkPaginationOptions 3 100 (Some "createdAt") (Some Desc)))]
  /\ calls (snd (ListUsers.execute repo (ListUsers.mkRequest "admin" None None) env))
     = [CallFindAll None
          (Some (mkPaginationOptions 1 20 (Some "createdAt") (Some Desc)))].
Proof.
  intros repo env huge.
  destruct (listUsers_admin_only_and_defaults repo "user" None huge env)
    as [Hforbidden _].
  destruct (listUsers_admin_only_and_defaults repo "admin" None huge env)
    as [_ Hhuge].
  destruct (listUsers_admin_only_and_defaults repo "admin" None None env)
    as [_ Hnone].
  destruct (Hhuge eq_refl) as (_ & Hcalls & _).
  destruct (Hnone eq_refl) as (_ & Hcalls' & _).
  split; [apply Hforbidden; discriminate|].
  split; [exact Hcalls|exact Hcalls'].
Defined.

Lemma searchUsers_forces_includeInactive_witness :
  let request :=
    SearchUsers.mkRequest "  jo  " "user"
      (Some (SearchUsers.mkOptions (Some 80) None (Some true))) in
  calls (snd (SearchUsers.execute Mock.repository request (Mock.env Mock.nothing)))
  = [CallSearch "jo" (Some (mkSearchOptions 1 50 0 (Some false)))].
Proof.
  intros request.
  destruct (searchUsers_forces_includeInactive Mock.repository "  jo  " "user"
              (Some (SearchUsers.mkOptions (Some 80) None (Some true)))
              (Mock.env Mock.nothing))
    as (passed & Hinactive & Hpage & Hlimit & Hskip & Hcalls & _).
  - discriminate.
  - vm_compute. lia.
  - discriminate.
  - unfold request. rewrite Hcalls.
    destruct passed as [p l s i]. simpl in *. by subst.
Defined.

Section Login.
Context {W : Type} (repo : UserRepository.t W).
Context (comparePassword : string -> string -> Outcome bool).
Context (generateTokens : LoginUser.Payload -> Outcome LoginUser.Tokens).

(** C2. LoginUser with a well-formed email and a non-empty password: the
    run in which the port finds no user for the email and the run in which
    it finds a user who can log in and has a stored hash, but the password
    comparison fails, end with the same error, "Invalid email or password",
    after the same single call of the port. *)
Theorem login_failures_identical
    (email password : string) (absent wrong : Env W) (u : User.t)
    (hash : string) (w w' : W) :
  let e := Email.mk (Js.toLowerCase email) in
  let login := LoginUser.execute repo comparePassword generateTokens
                 (LoginUser.mkRequest email password) in
  Email.isValid email = true ->
  password <> "" ->
  UserRepository.findByEmail repo e (world absent) = (Ok None, w) ->
  UserRepository.findByEmail repo e (world wrong) = (Ok (Some u), w') ->
  User.canLogin u = true ->
  User.passwordHash u = Some hash ->
  hash <> "" ->
  comparePassword password hash = Ok false ->
  fst (login absent) = fst (login wrong)
  /\ fst (login absent) = Throw "Invalid email or password"
  /\ calls (snd (login absent)) = (calls absent ++ [CallFindByEmail e])%list
  /\ calls (snd (login wrong)) = (calls wrong ++ [CallFindByEmail e])%list.
Proof.
  intros e login Hvalid Hpassword Habsent Hwrong Hcan Hhash Hne Hcompare.
  assert (Js.truthy email = true) as Hemail.
  { destruct email; [discriminate Hvalid|done]. }
  assert (Js.truthy password = true) as Hpw.
  { unfold Js.truthy. apply negb_true_iff. by apply String.eqb_neq. }
  assert (Js.truthy hash = true) as Hh.
  { unfold Js.truthy. apply negb_true_iff. by apply String.eqb_neq. }
  assert (login absent = (Throw "Invalid email or password",
            mkEnv w (runtime absent) (calls absent ++ [CallFindByEmail e]))) as H1.
  { unfold login, LoginUser.execute. simpl. rewrite Hemail, Hpw. simpl.
    rewrite (email_new_valid email Hvalid). run. fold e. by rewrite Habsent. }
  assert (login wrong = (Throw "Invalid email or password",
            mkEnv w' (runtime wrong) (calls wrong ++ [CallFindByEmail e]))) as H2.
  { unfold login, LoginUser.execute. simpl. rewrite Hemail, Hpw. simpl.
    rewrite (email_new_valid email Hvalid). run. fold e. rewrite Hwrong.
    rewrite Hcan, Hhash. simpl. rewrite Hh. simpl. by rewrite Hcompare. }
  by rewrite H1, H2.
Qed.

End Login.

Lemma login_failures_identical_witness :
  let bob := Mock.user "u2" "bob" RoleUser in
  let login := LoginUser.execute Mock.repository Mock.comparePassword
                 Mock.generateTokens
                 (LoginUser.mkRequest "Bob@Example.com" "wrong-password") in
  let absent := Mock.env Mock.nothing in
  let wrong := Mock.env (Mock.mkAnswers None (Some bob) None
                           (mkExistsResult false None)) in
  fst (login absent) = fst (login wrong)
  /\ fst (login absent) = Throw "Invalid email or password".
Proof.
  intros bob login absent wrong.
  destruct (login_failures_identical Mock.repository Mock.comparePassword
              Mock.generateTokens "Bob@Example.com" "wrong-password"
              absent wrong bob "hashed-password" (world absent) (world wrong))
    as (Hsame & Hmessage & _); try reflexivity; try discriminate.
  split; [exact Hsame|exact Hmessage].
Defined.

Section Registration.
Context {W : Type} (repo : UserRepository.t W).
Context (hashPassword : string -> Outcome string).

(** What CreateUser throws on a reported conflict, for an email, a username
    and a password that construct: an [Error] whose message names every
    field the report of the port flags and no other.  Nothing is created. *)
Lemma register_conflict_names_every_field
    (request : CreateUser.Request) (env : Env W)
    (e : Email.t) (u : Username.t) (p : Password.t)
    (report : ExistsResult) (w : W) :
  let emailTaken := from_option c_email false (r_conflicts report) in
  let usernameTaken := from_option c_username false (r_conflicts report) in
  let register := CreateUser.execute repo hashPassword request env in
  Email.new (CreateUser.email request) = Ok e ->
  Username.new (CreateUser.username request) = Ok u ->
  Password.new (CreateUser.password request) = Ok p ->
  UserRepository.exists_ repo e u (world env) = (Ok report, w) ->
  r_exists report = true ->
  register = (Throw (conflictMessage emailTaken usernameTaken),
              mkEnv w (runtime env) (calls env ++ [CallExists e u]))
  /\ Js.includes "Email" (conflictMessage emailTaken usernameTaken) = emailTaken
  /\ Js.includes "Username" (conflictMessage emailTaken usernameTaken) = usernameTaken
  /\ (emailTaken = true -> usernameTaken = false ->
      fst register = Throw "Email already registered")
  /\ (emailTaken = true -> usernameTaken = true ->
      fst register = Throw "Email already registered, Username already taken").
Proof.
  intros emailTaken usernameTaken register He Hu Hp Hreport Hexists.
  assert (register = (Throw (conflictMessage emailTaken usernameTaken),
            mkEnv w (runtime env) (calls env ++ [CallExists e u]))) as H.
  { unfold register, CreateUser.execute. run. rewrite He, Hu, Hp, Hreport, Hexists.
    unfold CreateUser.conflicts. fold emailTaken usernameTaken.
    by destruct emailTaken, usernameTaken. }
  rewrite H. simpl.
  repeat split; try (by destruct emailTaken, usernameTaken); by intros -> ->.
Qed.

End Registration.

Lemma register_conflict_names_every_field_witness :
  let request :=
    CreateUser.mkRequest "alice_1" "Alice@Example.com" "password123"
      "Alice" "Doe" None None None None None in
  let taken email username :=
    Mock.env (Mock.mkAnswers None None None
                (mkExistsResult true (Some (mkConflicts email username)))) in
  let register := CreateUser.execute Mock.repository Mock.hashPassword request in
  fst (register (taken true false)) = Throw "Email already registered"
  /\ fst (register (taken true true))
     = Throw "Email already registered, Username already taken"
  /\ calls (snd (register (taken true true)))
     = [CallExists (Email.mk "alice@example.com") (Username.mk "alice_1")].
Proof.
  intros request taken register.
  destruct (register_conflict_names_every_field Mock.repository Mock.hashPassword
              request (taken true false) (Email.mk "alice@example.com")
              (Username.mk "alice_1") (Password.mk "password123")
              (mkExistsResult true (Some (mkConflicts true false)))
              (world (taken true false)) eq_refl eq_refl eq_refl eq_refl eq_refl)
    as (_ & _ & _ & Hemail & _).
  destruct (register_conflict_names_every_field Mock.repository Mock.hashPassword
              request (taken true true) (Email.mk "alice@example.com")
              (Username.mk "alice_1") (Password.mk "password123")
              (mkExistsResult true (Some (mkConflicts true true)))
              (world (taken true true)) eq_refl eq_refl eq_refl eq_refl eq_refl)
    as (Hrun & _ & _ & _ & Hboth).
  split; [exact (Hemail eq_refl eq_refl)|].
  split; [exact (Hboth eq_refl eq_refl)|].
  unfold register. rewrite Hrun. reflexivity.
Defined.

Section ConflictReports.
Context {W : Type} (repo : UserRepository.t W).
Context (hashPassword : string -> Outcome string).

(** C3. A registration that meets a conflict is not always refused as a
    conflict, nor with every taken field named.  Take an email, a username
    and a password that construct, and the MongoDB adapter as the port, its
    query having found [found], a document of the store that holds the
    email or the username.  When [found] holds the username only, the use
    case throws "Username already taken", which the error handler answers
    500 INTERNAL_ERROR and not 409 CONFLICT.  When [found] holds the email
    only, the use case throws "Email already registered" and the username
    is not named, although another document of the store holds it. *)
Theorem register_conflict_misreported
    (request : CreateUser.Request) (env : Env W)
    (e : Email.t) (n : Username.t) (p : Password.t)
    (store : list MongoUserRepository.Doc) (found : MongoUserRepository.Doc)
    (w : W) (production : bool) :
  let register := CreateUser.execute repo hashPassword request env in
  let holdsEmail doc := MongoUserRepository.email doc = Email.getValue e in
  let holdsUsername doc := MongoUserRepository.username doc = Username.getValue n in
  let answer := ErrorHandler.errorHandler production "Username already taken" in
  Email.new (CreateUser.email request) = Ok e ->
  Username.new (CreateUser.username request) = Ok n ->
  Password.new (CreateUser.password request) = Ok p ->
  In found store ->
  MongoUserRepository.matchesEither e n found = true ->
  UserRepository.exists_ repo e n (world env)
  = (MongoUserRepository.exists_ (Ok (Some found)) e n, w) ->
  (~ holdsEmail found ->
   fst register = Throw "Username already taken"
   /\ ErrorHandler.statusCode answer = 500
   /\ ErrorHandler.errorCode answer = "INTERNAL_ERROR")
  /\ (holdsEmail found -> ~ holdsUsername found ->
      forall other, In other store -> holdsUsername other ->
      fst register = Throw "Email already registered").
Proof.
  intros register holdsEmail holdsUsername answer He Hn Hp Hin Hmatch Hport.
  unfold holdsEmail, holdsUsername, MongoUserRepository.matchesEither in *.
  assert (fst register
          = Throw (conflictMessage
                     (String.eqb (MongoUserRepository.email found) (Email.getValue e))
                     (String.eqb (MongoUserRepository.username found)
                        (Username.getValue n)))) as Hthrow.
  { unfold register, CreateUser.execute. run. rewrite He, Hn, Hp, Hport. simpl.
    unfold CreateUser.conflicts. simpl.
    by destruct (String.eqb (MongoUserRepository.email found) (Email.getValue e)),
      (String.eqb (MongoUserRepository.username found) (Username.getValue n)). }
  split.
  - intros Hemail%String.eqb_neq. rewrite Hemail in Hthrow, Hmatch.
    simpl in Hmatch. rewrite Hmatch in Hthrow. split; [exact Hthrow|].
    unfold answer. by destruct production.
  - intros Hemail%String.eqb_eq Husername%String.eqb_neq other _ _.
    by rewrite Hemail, Husername in Hthrow.
Qed.

End ConflictReports.

Lemma register_conflict_misreported_witness :
  let request :=
    CreateUser.mkRequest "alice_1" "Alice@Example.com" "password123"
      "Alice" "Doe" None None None None None in
  let reported email username :=
    Mock.env (Mock.mkAnswers None None None
                (mkExistsResult true (Some (mkConflicts email username)))) in
  let register := CreateUser.execute Mock.repository Mock.hashPassword request in
  fst (register (reported false true)) = Throw "Username already taken"
  /\ ErrorHandler.errorHandler false "Username already taken"
     = ErrorHandler.mkResponse 500 "INTERNAL_ERROR" "Username already taken"
  /\ fst (register (reported true false)) = Throw "Email already registered".
Proof.
  intros request reported register.
  pose (namesake := MongoUserRepository.mkDoc "rob@example.com" "alice_1").
  pose (alice := MongoUserRepository.mkDoc "alice@example.com" "alice_0").
  pose (bob := MongoUserRepository.mkDoc "bob@example.com" "alice_1").
  destruct (register_conflict_misreported Mock.repository Mock.hashPassword
              request (reported false true) (Email.mk "alice@example.com")
              (Username.mk "alice_1") (Password.mk "password123")
              [namesake] namesake (world (reported false true)) false
              eq_refl eq_refl eq_refl (or_introl eq_refl) eq_refl eq_refl)
    as [Hname _].
  destruct (register_conflict_misreported Mock.repository Mock.hashPassword
              request (reported true false) (Email.mk "alice@example.com")
              (Username.mk "alice_1") (Password.mk "password123")
              [alice; bob] alice (world (reported true false)) false
              eq_refl eq_refl eq_refl (or_introl eq_refl) eq_refl eq_refl)
    as [_ Hemail].
  destruct (Hname ltac:(discriminate)) as (Hthrow & _ & _).
  split; [exact Hthrow|]. split; [reflexivity|].
  exact (Hemail eq_refl ltac:(discriminate) bob (or_intror (or_introl eq_refl))
           eq_refl).
Defined.

(** ** Addresses *)

Lemma countDefault_app (l1 l2 : list Address.t) :
  countDefault (l1 ++ l2) = (countDefault l1 + countDefault l2)%nat.
Proof. unfold countDefault. by rewrite filter_app, length_app. Qed.

Lemma countDefault_cleared (l : list Address.t) :
  countDefault (map (Address.setDefault false) l) = 0%nat.
Proof.
  unfold countDefault. induction l as [|a l IH]; [done|].
  simpl. by rewrite filter_cons_False.
Qed.

Lemma countDefault_singleton (a : Address.t) :
  countDefault [a] = if Address.isDefault a then 1%nat else 0%nat.
Proof.
  unfold countDefault. destruct (Address.isDefault a) eqn:Ha.
  - by rewrite filter_cons_True.
  - rewrite filter_cons_False; [done|]. by rewrite Ha.
Qed.

Lemma cleared_all_false (l : list Address.t) :
  Forall (fun a => Address.isDefault a = false) (map (Address.setDefault false) l).
Proof. induction l; constructor; done. Qed.

(** What [addAddress] leaves in [addresses]: when the list was empty or the
    new address is marked default, the stored ones with their flag cleared
    and the new one flagged; otherwise the stored ones as they were and the
    new one with the flag it came with. *)
Lemma addAddress_addresses (address : Address.input) (u : User.t) (rt : Runtime.t) :
  let new := Address.ofInput address (Runtime.uuidGen rt (Runtime.uuidCount rt))
               (Runtime.clock rt (Runtime.ticks rt))
               (Runtime.clock rt (S (Runtime.ticks rt))) in
  User.addresses (fst (User.addAddress address u rt))
  = if (length (User.addresses u) =? 0)%nat || Address.i_isDefault address
    then (map (Address.setDefault false) (User.addresses u)
            ++ [Address.setDefault true new])%list
    else (User.addresses u ++ [new])%list.
Proof.
  unfold User.addAddress. simpl.
  by destruct ((length (User.addresses u) =? 0)%nat || Address.i_isDefault address).
Qed.

(** C7. [addAddress] keeps at most one default address when there was at
    most one; on an empty list it leaves exactly one address, flagged as
    default whatever flag it came with; and an address that comes marked as
    default is stored flagged after the flag of every stored address has
    been cleared, so that it is the only default one. *)
Theorem addAddress_single_default
    (address : Address.input) (u : User.t) (rt : Runtime.t) :
  let before := User.addresses u in
  let after := User.addresses (fst (User.addAddress address u rt)) in
  ((countDefault before <= 1)%nat -> (countDefault after <= 1)%nat)
  /\ (before = [] ->
      exists new, after = [new] /\ Address.isDefault new = true
                  /\ countDefault after = 1%nat)
  /\ (Address.i_isDefault address = true ->
      exists new, after = (map (Address.setDefault false) before ++ [new])%list
                  /\ Address.isDefault new = true
                  /\ Forall (fun a => Address.isDefault a = false)
                            (take (length before) after)
                  /\ countDefault after = 1%nat).
Proof.
  intros before after. unfold after. rewrite addAddress_addresses. fold before.
  split; [|split].
  - intros Hbefore.
    destruct ((length before =? 0)%nat || Address.i_isDefault address) eqn:Hcase.
    + by rewrite countDefault_app, countDefault_cleared, countDefault_singleton.
    + apply orb_false_iff in Hcase as [_ Hflag].
      rewrite countDefault_app, countDefault_singleton. simpl.
      rewrite Hflag. lia.
  - intros ->. simpl. eexists. split; [done|]. split; [done|].
    by rewrite countDefault_singleton.
  - intros ->. rewrite orb_true_r. eexists. split; [done|]. split; [done|].
    split.
    + rewrite take_app_length'; [apply cleared_all_false|by rewrite length_map].
    + by rewrite countDefault_app, countDefault_cleared, countDefault_singleton.
Qed.

Lemma addAddress_single_default_witness :
  let bob := Mock.user "u2" "bob" RoleUser in
  let first := fst (User.addAddress (Mock.home false) bob Mock.runtime) in
  let second := fst (User.addAddress (Mock.home true) first
                       (snd (User.addAddress (Mock.home false) bob Mock.runtime))) in
  map Address.isDefault (User.addresses first) = [true]
  /\ countDefault (User.addresses first) = 1%nat
  /\ map Address.isDefault (User.addresses second) = [false; true]
  /\ countDefault (User.addresses second) = 1%nat.
Proof.
  intros bob first second.
  destruct (addAddress_single_default (Mock.home false) bob Mock.runtime)
    as (_ & Hempty & _).
  destruct (Hempty eq_refl) as (new & _ & _ & Hfirst).
  destruct (addAddress_single_default (Mock.home true) first
              (snd (User.addAddress (Mock.home false) bob Mock.runtime)))
    as (_ & _ & Hdefault).
  destruct (Hdefault eq_refl) as (new' & _ & _ & _ & Hsecond).
  split; [reflexivity|]. split; [exact Hfirst|].
  split; [reflexivity|exact Hsecond].
Defined.

(** ** Social accounts *)

Lemma provider_eqb_eq (p q : SocialProvider) : provider_eqb p q = true <-> p = q.
Proof. destruct p, q; by compute. Qed.

Lemma findIndex_Some {A : Type} (f : A -> bool) (l : list A) (i : nat) :
  findIndex f l = Some i -> exists x, l !! i = Some x /\ f x = true.
Proof.
  revert i. induction l as [|a l IH]; intros i; simpl; [done|].
  destruct (f a) eqn:Ha.
  - intros [= <-]. eauto.
  - destruct (findIndex f l) as [j|]; simpl; [|done].
    intros [= <-]. by apply IH.
Qed.

Lemma findIndex_None {A : Type} (f : A -> bool) (l : list A) :
  findIndex f l = None -> Forall (fun x => f x = false) l.
Proof.
  induction l as [|a l IH]; simpl; [constructor|].
  destruct (f a) eqn:Ha; [done|].
  destruct (findIndex f l); simpl; [done|]. intros _. constructor; auto.
Qed.

Lemma findIndex_elem {A : Type} (f : A -> bool) (l : list A) (i : nat) (x : A) :
  l !! i = Some x -> f x = true -> is_Some (findIndex f l).
Proof.
  intros Hx Hf. destruct (findIndex f l) eqn:Hnone; [done|].
  apply findIndex_None in Hnone.
  rewrite Forall_lookup in Hnone. specialize (Hnone i x Hx). congruence.
Qed.

Lemma countActive_app (p : SocialProvider) (l1 l2 : list SocialAccount.t) :
  countActive p (l1 ++ l2) = (countActive p l1 + countActive p l2)%nat.
Proof. unfold countActive. by rewrite filter_app, length_app. Qed.

Lemma countActive_cons (p : SocialProvider) (a : SocialAccount.t)
    (l : list SocialAccount.t) :
  countActive p (a :: l)
  = ((if SocialAccount.activeFor p a then 1 else 0) + countActive p l)%nat.
Proof.
  unfold countActive.
  destruct (SocialAccount.activeFor p a) eqn:Ha.
  - by rewrite filter_cons_True.
  - rewrite filter_cons_False; [done|]. by rewrite Ha.
Qed.

Lemma countActive_none (p : SocialProvider) (l : list SocialAccount.t) :
  Forall (fun a => SocialAccount.activeFor p a = false) l -> countActive p l = 0%nat.
Proof.
  induction 1 as [|a l Ha _ IH]; [done|].
  by rewrite countActive_cons, Ha, IH.
Qed.

(** Writing over an account a record that is of the same provider and as
    active changes no count. *)
Lemma countActive_insert (q : SocialProvider) (l : list SocialAccount.t)
    (i : nat) (old new : SocialAccount.t) :
  l !! i = Some old ->
  SocialAccount.activeFor q new = SocialAccount.activeFor q old ->
  countActive q (<[i := new]> l) = countActive q l.
Proof.
  intros Hold Hsame.
  rewrite <- (take_drop_middle l i old Hold) at 2.
  rewrite insert_take_drop by by eapply lookup_lt_Some.
  by rewrite !countActive_app, !countActive_cons, Hsame.
Qed.

Lemma activeFor_relinked (q : SocialProvider) (providerId providerEmail : string)
    (providerData : gmap string JsValue) (now : Date) (old : SocialAccount.t) :
  SocialAccount.activeFor q (relinked providerId providerEmail providerData now old)
  = SocialAccount.activeFor q old.
Proof. done. Qed.

Section Linking.
Context (provider : SocialProvider) (providerId providerEmail : string).
Context (providerData : gmap string JsValue) (u : User.t) (rt : Runtime.t).

Local Abbreviation linked :=
  (fst (User.linkSocialAccount provider providerId providerEmail providerData u rt)).

(** An active account of the provider exists: it is written over, in
    place. *)
Lemma linkSocialAccount_found (i : nat) :
  findIndex (SocialAccount.activeFor provider) (User.socialAccounts u) = Some i ->
  exists old,
    User.socialAccounts u !! i = Some old
    /\ SocialAccount.activeFor provider old = true
    /\ User.socialAccounts linked
       = <[i := relinked providerId providerEmail providerData
                  (Runtime.clock rt (Runtime.ticks rt)) old]>
           (User.socialAccounts u).
Proof.
  intros Hi. destruct (findIndex_Some _ _ _ Hi) as (old & Hold & Hactive).
  exists old. split; [done|]. split; [done|].
  unfold User.linkSocialAccount. by rewrite Hi, Hold.
Qed.

(** No active account of the provider: a new active record is appended. *)
Lemma linkSocialAccount_fresh :
  findIndex (SocialAccount.activeFor provider) (User.socialAccounts u) = None ->
  User.socialAccounts linked
  = (User.socialAccounts u
       ++ [SocialAccount.mk (Runtime.uuidGen rt (Runtime.uuidCount rt))
             provider providerId providerEmail providerData
             (Runtime.clock rt (Runtime.ticks rt)) true])%list.
Proof.
  intros Hnone. unfold User.linkSocialAccount. by rewrite Hnone.
Qed.

(** After the call the user has an active account of the provider. *)
Lemma linkSocialAccount_links :
  is_Some (findIndex (SocialAccount.activeFor provider) (User.socialAccounts linked)).
Proof.
  destruct (findIndex (SocialAccount.activeFor provider) (User.socialAccounts u)) as [i|] eqn:Hi.
  - destruct (linkSocialAccount_found i Hi) as (old & Hold & Hactive & ->).
    eapply (findIndex_elem _ _ i).
    + apply list_lookup_insert_eq. by eapply lookup_lt_Some.
    + by rewrite activeFor_relinked.
  - rewrite (linkSocialAccount_fresh Hi).
    eapply (findIndex_elem _ _ (length (User.socialAccounts u))).
    + by rewrite lookup_app_r, Nat.sub_diag.
    + unfold SocialAccount.activeFor. simpl. rewrite andb_true_r. by apply provider_eqb_eq.
Qed.

(** The call keeps the invariant of one active account per provider. *)
Lemma linkSocialAccount_invariant :
  oneActivePerProvider (User.socialAccounts u) ->
  oneActivePerProvider (User.socialAccounts linked).
Proof.
  intros Hinv q.
  destruct (findIndex (SocialAccount.activeFor provider) (User.socialAccounts u)) as [i|] eqn:Hi.
  - destruct (linkSocialAccount_found i Hi) as (old & Hold & Hactive & ->).
    by rewrite (countActive_insert q _ i old).
  - rewrite (linkSocialAccount_fresh Hi), countActive_app, countActive_cons.
    unfold SocialAccount.activeFor at 1. simpl. rewrite andb_true_r.
    destruct (provider_eqb provider q) eqn:Hq.
    + apply provider_eqb_eq in Hq as <-.
      rewrite (countActive_none provider) by by apply findIndex_None.
      done.
    + specialize (Hinv q). unfold countActive at 2. simpl. lia.
Qed.

End Linking.

(** X30. Linking a social account.  Two calls of [linkSocialAccount] with the
    same provider on one user: the second finds the active record the first
    left and writes over it in place (new provider id and email, the old
    data overridden by the new, the date refreshed), so no record is added;
    and each call keeps at most one active account per provider.  In the
    LinkSocialAccount use case, for an authorized requester and an existing
    target, when the port finds the (provider, provider id) pair on a user
    with another id, the use case throws an [Error] whose message names the
    provider; the aggregate is not touched and nothing is written to the
    port. *)
Theorem link_updates_in_place_or_conflicts
    (provider : SocialProvider)
    (id1 email1 : string) (data1 : gmap string JsValue)
    (id2 email2 : string) (data2 : gmap string JsValue)
    (u : User.t) (rt : Runtime.t)
    {W : Type} (repo : UserRepository.t W)
    (userId requester role : string) (env : Env W)
    (target other : User.t) (w1 w2 : W) :
  let first := User.linkSocialAccount provider id1 email1 data1 u rt in
  let second := User.linkSocialAccount provider id2 email2 data2
                  (fst first) (snd first) in
  let once := User.socialAccounts (fst first) in
  let twice := User.socialAccounts (fst second) in
  let request := LinkSocialAccount.mkRequest userId requester role provider
                   id2 email2 (Some data2) in
  let message := "This " +:+ providerName provider
                 +:+ " account is already linked to another user" in
  ((exists i old,
      once !! i = Some old
      /\ SocialAccount.provider old = provider
      /\ SocialAccount.isActive old = true
      /\ twice = <[i := relinked id2 email2 data2
                          (Runtime.clock (snd first) (Runtime.ticks (snd first)))
                          old]> once)
   /\ length twice = length once
   /\ countActive provider twice = countActive provider once
   /\ (oneActivePerProvider (User.socialAccounts u) ->
       oneActivePerProvider once /\ oneActivePerProvider twice))
  /\ (selfOrAdmin role requester userId = true ->
      UserRepository.findById repo userId (world env) = (Ok (Some target), w1) ->
      UserRepository.findBySocialAccount repo (providerName provider) id2 w1
      = (Ok (Some other), w2) ->
      User.id other <> Some userId ->
      LinkSocialAccount.execute repo request env
      = (Throw message,
         mkEnv w2 (runtime env)
           (calls env ++ [CallFindById userId;
                          CallFindBySocialAccount (providerName provider) id2]))
      /\ Js.includes (providerName provider) message = true).
Proof.
  intros first second once twice request message. split.
  - destruct (linkSocialAccount_links provider id1 email1 data1 u rt) as [i Hi].
    destruct (linkSocialAccount_found provider id2 email2 data2
                (fst first) (snd first) i Hi) as (old & Hold & Hactive & Htwice).
    fold first once in Hold. fold first second once twice in Htwice.
    apply andb_true_iff in Hactive as [Hprovider%provider_eqb_eq Hisactive].
    split; [by exists i, old|].
    split; [by rewrite Htwice, length_insert|].
    split; [by rewrite Htwice, (countActive_insert provider _ i old)|].
    intros Hinv.
    assert (oneActivePerProvider once) as Honce
      by by apply linkSocialAccount_invariant.
    split; [done|]. by apply linkSocialAccount_invariant.
  - intros Hauth Hfind Hlinked Hother.
    split; [|by destruct provider].
    unfold LinkSocialAccount.execute. simpl. rewrite Hauth. run.
    rewrite Hfind. simpl. rewrite Hlinked. simpl.
    rewrite bool_decide_eq_false_2 by done. simpl.
    by rewrite <- app_assoc.
Qed.

Lemma link_updates_in_place_or_conflicts_witness :
  let bob := Mock.user "u2" "bob" RoleUser in
  let eve := Mock.user "u9" "eve" RoleUser in
  let data1 : gmap string JsValue :=
    {[ "name" := JsString "Bob"; "locale" := JsString "en" ]} in
  let data2 : gmap string JsValue := {[ "name" := JsString "Robert" ]} in
  let first := User.linkSocialAccount Google "g-1" "bob@gmail.com" data1
                 bob Mock.runtime in
  let second := User.linkSocialAccount Google "g-2" "rob@gmail.com" data2
                  (fst first) (snd first) in
  let request := LinkSocialAccount.mkRequest "u2" "u2" "user" Google "g-2"
                   "rob@gmail.com" (Some data2) in
  let taken := Mock.env (Mock.mkAnswers (Some bob) None (Some eve)
                           (mkExistsResult false None)) in
  length (User.socialAccounts (fst first)) = 1%nat
  /\ length (User.socialAccounts (fst second)) = 1%nat
  /\ map SocialAccount.providerId (User.socialAccounts (fst second)) = ["g-2"]
  /\ map (fun a => SocialAccount.providerData a !! "locale")
         (User.socialAccounts (fst second)) = [Some (JsString "en")]
  /\ map (fun a => SocialAccount.providerData a !! "name")
         (User.socialAccounts (fst second)) = [Some (JsString "Robert")]
  /\ LinkSocialAccount.execute Mock.repository request taken
     = (Throw "This google account is already linked to another user",
        mkEnv (world taken) Mock.runtime
          [CallFindById "u2"; CallFindBySocialAccount "google" "g-2"]).
Proof.
  intros bob eve data1 data2 first second request taken.
  destruct (link_updates_in_place_or_conflicts Google "g-1" "bob@gmail.com" data1
              "g-2" "rob@gmail.com" data2 bob Mock.runtime Mock.repository
              "u2" "u2" "user" taken bob eve (world taken) (world taken))
    as [(_ & Hlength & _) Hconflict].
  destruct (Hconflict eq_refl eq_refl eq_refl ltac:(discriminate)) as [Hrun _].
  split; [reflexivity|]. split; [exact (eq_trans Hlength eq_refl)|].
  split; [reflexivity|]. split; [vm_compute; reflexivity|].
  split; [vm_compute; reflexivity|]. exact Hrun.
Defined.

(** C6. A social account that is linked to another user is not refused as a
    conflict.  For an authorized requester and an existing target, when the
    port finds the (provider, provider id) pair on a user with another id,
    the use case throws "This <provider> account is already linked to
    another user"; the error handler answers that message 500
    INTERNAL_ERROR, for every provider and in every environment, and not
    the 409 CONFLICT it gives "Email already registered". *)
Theorem link_conflict_answered_internal_error
    {W : Type} (repo : UserRepository.t W)
    (request : LinkSocialAccount.Request) (env : Env W)
    (target other : User.t) (w1 w2 : W) (production : bool) :
  let userId := LinkSocialAccount.userId request in
  let provider := LinkSocialAccount.provider request in
  let message := "This " +:+ providerName provider
                 +:+ " account is already linked to another user" in
  let answer := ErrorHandler.errorHandler production message in
  selfOrAdmin (LinkSocialAccount.requestingUserRole request)
              (LinkSocialAccount.requestingUserId request) userId = true ->
  UserRepository.findById repo userId (world env) = (Ok (Some target), w1) ->
  UserRepository.findBySocialAccount repo (providerName provider)
    (LinkSocialAccount.providerId request) w1 = (Ok (Some other), w2) ->
  User.id other <> Some userId ->
  fst (LinkSocialAccount.execute repo request env) = Throw message
  /\ ErrorHandler.statusCode answer = 500
  /\ ErrorHandler.errorCode answer = "INTERNAL_ERROR"
  /\ ErrorHandler.errorCode
       (ErrorHandler.errorHandler production "Email already registered")
     = "CONFLICT".
Proof.
  intros userId provider message answer Hauth Hfind Hlinked Hother.
  split.
  - unfold LinkSocialAccount.execute. fold userId provider.
    rewrite Hauth. run. fold userId.
    rewrite Hfind. simpl. fold provider. rewrite Hlinked. simpl.
    by rewrite bool_decide_eq_false_2 by done.
  - unfold answer, message. by destruct provider, production.
Qed.

Lemma link_conflict_answered_internal_error_witness :
  let bob := Mock.user "u2" "bob" RoleUser in
  let eve := Mock.user "u9" "eve" RoleUser in
  let request := LinkSocialAccount.mkRequest "u2" "u2" "user" Google "g-2"
                   "rob@gmail.com" None in
  let taken := Mock.env (Mock.mkAnswers (Some bob) None (Some eve)
                           (mkExistsResult false None)) in
  fst (LinkSocialAccount.execute Mock.repository request taken)
  = Throw "This google account is already linked to another user"
  /\ ErrorHandler.errorHandler false
       "This google account is already linked to another user"
     = ErrorHandler.mkResponse 500 "INTERNAL_ERROR"
         "This google account is already linked to another user".
Proof.
  intros bob eve request taken.
  destruct (link_conflict_answered_internal_error Mock.repository request taken
              bob eve (world taken) (world taken) false
              eq_refl eq_refl eq_refl ltac:(discriminate))
    as (Hthrow & _).
  split; [exact Hthrow|reflexivity].
Defined.

Section Delegation.
Context {W : Type} (repo : UserRepository.t W).

(** Without a conflict the LinkSocialAccount use case hands the request to
    the aggregate's [linkSocialAccount] and passes the result to [update]. *)
Lemma link_delegates_to_aggregate
    (request : LinkSocialAccount.Request) (env : Env W)
    (target : User.t) (existing : option User.t) (w1 w2 : W) :
  let userId := LinkSocialAccount.userId request in
  let provider := LinkSocialAccount.provider request in
  let providerId := LinkSocialAccount.providerId request in
  let linked :=
    User.linkSocialAccount provider providerId
      (LinkSocialAccount.providerEmail request)
      (default ∅ (LinkSocialAccount.providerData request))
      target (runtime env) in
  selfOrAdmin (LinkSocialAccount.requestingUserRole request)
              (LinkSocialAccount.requestingUserId request) userId = true ->
  UserRepository.findById repo userId (world env) = (Ok (Some target), w1) ->
  UserRepository.findBySocialAccount repo (providerName provider) providerId w1
  = (Ok existing, w2) ->
  (forall other, existing = Some other -> User.id other = Some userId) ->
  LinkSocialAccount.execute repo request env
  = (fst (UserRepository.update repo (fst linked) w2),
     mkEnv (snd (UserRepository.update repo (fst linked) w2)) (snd linked)
       (calls env ++ [CallFindById userId;
                      CallFindBySocialAccount (providerName provider) providerId;
                      CallUpdate (fst linked)])).
Proof.
  intros userId provider providerId linked Hauth Hfind Hlinked Hsame.
  unfold LinkSocialAccount.execute. fold userId provider providerId.
  rewrite Hauth. run. fold userId provider providerId.
  rewrite Hfind. simpl. rewrite Hlinked. simpl.
  assert (match existing with
          | Some other => negb (bool_decide (User.id other = Some userId))
          | None => false
          end = false) as ->.
  { destruct existing as [other|]; [|done].
    by rewrite bool_decide_eq_true_2 by by apply Hsame. }
  subst linked.
  destruct (User.linkSocialAccount _ _ _ _ _ _) as [user rt']. simpl.
  destruct (UserRepository.update repo user w2) as [[saved|message] w3];
    simpl; by rewrite <- !app_assoc.
Qed.

End Delegation.

(** ** The HTTP error handler *)

(** The codes the handler gives to the errors of the use cases. *)
Lemma errorHandler_codes :
  let code message :=
    ErrorHandler.errorCode (ErrorHandler.errorHandler false message) in
  code "User not found" = "NOT_FOUND"
  /\ code "Email already registered" = "CONFLICT"
  /\ code "Email already registered, Username already taken" = "CONFLICT"
  /\ code "Username already taken" = "INTERNAL_ERROR"
  /\ code "This google account is already linked to another user"
     = "INTERNAL_ERROR"
  /\ code "Only administrators can view all users" = "FORBIDDEN"
  /\ code "Administrators cannot delete their own account" = "FORBIDDEN"
  /\ code "You can only delete your own account or you must be an admin"
     = "FORBIDDEN"
  /\ code "You can only update your own profile or you must be an admin"
     = "FORBIDDEN"
  /\ code "You can only link social accounts to your own profile"
     = "INTERNAL_ERROR"
  /\ code "This profile is private" = "INTERNAL_ERROR"
  /\ code "Invalid email or password" = "VALIDATION_ERROR"
  /\ code "Invalid email format" = "VALIDATION_ERROR"
  /\ code "Email and password are required" = "VALIDATION_ERROR".
Proof. repeat split; reflexivity. Qed.

(** * Further properties of the code *)

(** ** Value objects *)

Lemma toLowerCase_app (a b : string) :
  Js.toLowerCase (a +:+ b) = Js.toLowerCase a +:+ Js.toLowerCase b.
Proof.
  induction a as [|c a IH]; [done|].
  change (String c a +:+ b) with (String c (a +:+ b)). simpl.
  by rewrite IH.
Qed.

Lemma toLowerChar_notSpaceNorAt (c : ascii) :
  Email.notSpaceNorAt c = true -> Email.notSpaceNorAt (Js.toLowerChar c) = true.
Proof.
  destruct c as [[] [] [] [] [] [] [] []]; vm_compute; congruence.
Qed.

Lemma toLowerCase_emailPart (s : string) :
  emailPart s -> emailPart (Js.toLowerCase s).
Proof.
  intros [Hne Hs]. split.
  - by destruct s.
  - clear Hne. induction s as [|c s IH]; [done|]. simpl in *.
    apply andb_true_iff in Hs as [Hc Hs].
    by rewrite toLowerChar_notSpaceNorAt, IH.
Qed.

(** Lower-casing keeps an address valid. *)
Lemma toLowerCase_valid (s : string) :
  Email.isValid s = true -> Email.isValid (Js.toLowerCase s) = true.
Proof.
  rewrite !email_isValid_shape.
  intros (loc & domain & tld & -> & Hloc & Hdom & Htld).
  exists (Js.toLowerCase loc), (Js.toLowerCase domain), (Js.toLowerCase tld).
  rewrite !toLowerCase_app.
  repeat split; by apply toLowerCase_emailPart.
Qed.

(** X2. The value of an [Email] is a normal form: whatever argument the
    constructor accepts, the value is the lower-cased argument, holds no
    white space, is left alone by lower-casing and trimming, and is itself
    accepted, giving back the same [Email]. *)
Theorem email_value_normal_form (s : string) (e : Email.t) :
  Email.new s = Ok e ->
  Email.getValue e = Js.toLowerCase s
  /\ Js.every notWhiteSpace (Email.getValue e) = true
  /\ Js.trim (Js.toLowerCase (Email.getValue e)) = Email.getValue e
  /\ Email.new (Email.getValue e) = Ok e
  /\ Email.equals e e = true.
Proof.
  intros H. destruct (Email.isValid s) eqn:Hvalid.
  - rewrite (email_new_valid s Hvalid) in H. injection H as <-. simpl.
    assert (Js.every notWhiteSpace (Js.toLowerCase s) = true) as Hws
      by by apply toLowerCase_notWhiteSpace, valid_email_no_whiteSpace.
    split; [done|]. split; [done|].
    rewrite toLowerCase_idempotent.
    split; [by apply trim_notWhiteSpace|].
    rewrite (email_new_valid _ (toLowerCase_valid s Hvalid)).
    rewrite toLowerCase_idempotent. split; [done|].
    unfold Email.equals. apply String.eqb_refl.
  - by rewrite (email_new_invalid s Hvalid) in H.
Qed.

Lemma email_value_normal_form_witness :
  Email.new "Test@Example.COM" = Ok (Email.mk "test@example.com")
  /\ Email.new "test@example.com" = Ok (Email.mk "test@example.com").
Proof.
  destruct (email_value_normal_form "Test@Example.COM"
              (Email.mk "test@example.com") eq_refl) as (_ & _ & _ & H & _).
  split; [reflexivity|exact H].
Defined.

Lemma wordChar_notWhiteSpace (c : ascii) :
  Username.wordChar c = true -> notWhiteSpace c = true.
Proof.
  destruct c as [[] [] [] [] [] [] [] []]; vm_compute; congruence.
Qed.

Lemma every_impl (P Q : ascii -> bool) (s : string) :
  (forall c, P c = true -> Q c = true) ->
  Js.every P s = true -> Js.every Q s = true.
Proof.
  intros HPQ. induction s as [|c s IH]; [done|]. simpl.
  intros [Hc Hs]%andb_true_iff. by rewrite (HPQ c Hc), IH.
Qed.

(** What [Username.isValid] accepts: an argument whose trimmed form has 3 to
    50 code units, all of them letters, digits or underscores.  White space
    around the name is accepted, white space inside is not. *)
Theorem username_isValid_iff (s : string) :
  Username.isValid s = true <->
  (3 <= String.length (Js.trim s) <= 50)%nat
  /\ Js.every Username.wordChar (Js.trim s) = true.
Proof.
  unfold Username.isValid, Username.usernameRegex.
  assert (Regex.test (Regex.Plus (Regex.Class Username.wordChar)) (Js.trim s) = true
          <-> Js.trim s <> "" /\ Js.every Username.wordChar (Js.trim s) = true)
    as Htest by (by rewrite test_Matches, Matches_plus_class).
  destruct (negb (Js.truthy s) || (String.length (Js.trim s) <? 3)%nat
            || (50 <? String.length (Js.trim s))%nat) eqn:Hguard.
  - split; [done|]. intros [[Hmin Hmax] _].
    apply orb_true_iff in Hguard as [[Hempty|Hshort]%orb_true_iff|Hlong].
    + destruct s; [simpl in Hmin; lia|done].
    + apply Nat.ltb_lt in Hshort. lia.
    + apply Nat.ltb_lt in Hlong. lia.
  - apply orb_false_iff in Hguard as [[_ Hshort]%orb_false_iff Hlong].
    apply Nat.ltb_ge in Hshort, Hlong.
    rewrite Htest. split.
    + intros [_ Hword]. done.
    + intros [_ Hword]. split; [|done]. intros Hnil. rewrite Hnil in Hshort.
      simpl in Hshort. lia.
Qed.

(** X4. The value of a [Username] is a normal form: it is the trimmed argument,
    and constructing a [Username] from it gives the same [Username]. *)
Theorem username_value_normal_form (s : string) (u : Username.t) :
  Username.new s = Ok u ->
  Username.getValue u = Js.trim s
  /\ (3 <= String.length (Username.getValue u) <= 50)%nat
  /\ Js.every Username.wordChar (Username.getValue u) = true
  /\ Username.new (Username.getValue u) = Ok u.
Proof.
  unfold Username.new. destruct (Username.isValid s) eqn:Hvalid; [|done].
  simpl. intros [= <-]. simpl.
  apply username_isValid_iff in Hvalid as [Hlen Hword].
  assert (Js.trim (Js.trim s) = Js.trim s) as Htrim.
  { apply trim_notWhiteSpace.
    by apply (every_impl Username.wordChar), Hword; apply wordChar_notWhiteSpace. }
  repeat split; try done; try lia.
  assert (Username.isValid (Js.trim s) = true) as ->.
  { apply username_isValid_iff. by rewrite Htrim. }
  simpl. by rewrite Htrim.
Qed.

Lemma username_value_normal_form_witness :
  Username.new "  user_1 " = Ok (Username.mk "user_1")
  /\ Username.new "user_1" = Ok (Username.mk "user_1").
Proof.
  destruct (username_value_normal_form "  user_1 " (Username.mk "user_1") eq_refl)
    as (_ & _ & _ & H).
  split; [reflexivity|exact H].
Defined.

(** ** Methods of the aggregate *)

Lemma mutate_effect (m : Mutation) (u : User.t) (rt : Runtime.t) :
  let u' := fst (mutate m u rt) in
  let rt' := snd (mutate m u rt) in
  sameIdentity u u'
  /\ Runtime.clock rt' = Runtime.clock rt
  /\ (Runtime.ticks rt < Runtime.ticks rt')%nat
  /\ User.updatedAt u' = Runtime.clock rt (Runtime.ticks rt' - 1).
Proof.
  assert (forall n, (S n - 1 = n)%nat) as Hpred by lia.
  destruct m as [p|p| | |reason| | | |h|address|provider pid pem data];
    cbv zeta.
  10: { unfold mutate, User.addAddress. simpl.
        destruct ((length (User.addresses u) =? 0)%nat
                  || Address.i_isDefault address);
          simpl; rewrite ?Hpred, ?Nat.sub_0_r; repeat split; lia. }
  10: { unfold mutate, User.linkSocialAccount.
        destruct (findIndex _ _) as [i|]; [destruct (_ !! i)|]; simpl;
          rewrite ?Hpred, ?Nat.sub_0_r; repeat split; lia. }
  all: simpl; rewrite ?Hpred, ?Nat.sub_0_r; repeat split; lia.
Qed.

(** X5. Whatever methods are called on the aggregate, in whatever order: the
    identifier, username, email, role, phone verification, custom fields and
    creation stamps stay as they were, and after at least one call
    [updatedAt] is the last reading made of the clock. *)
Theorem mutations_keep_identity (ms : list Mutation) (u : User.t) (rt : Runtime.t) :
  let u' := fst (mutateAll ms u rt) in
  let rt' := snd (mutateAll ms u rt) in
  sameIdentity u u'
  /\ Runtime.clock rt' = Runtime.clock rt
  /\ (Runtime.ticks rt + length ms <= Runtime.ticks rt')%nat
  /\ (ms <> [] -> User.updatedAt u' = Runtime.clock rt (Runtime.ticks rt' - 1)).
Proof.
  revert u rt. induction ms as [|m ms IH]; intros u rt; simpl.
  - repeat split; try done. lia.
  - destruct (mutate_effect m u rt) as (Hid & Hclock & Hticks & Hupdated).
    destruct (mutate m u rt) as [u1 rt1]. simpl in *.
    destruct (IH u1 rt1) as (Hid' & Hclock' & Hticks' & Hupdated').
    split; [|split; [|split]].
    + unfold sameIdentity in *. intuition congruence.
    + congruence.
    + lia.
    + intros _. destruct ms as [|m' ms'].
      * simpl. done.
      * rewrite Hupdated' by done. by rewrite Hclock.
Qed.

(** X6. Whatever methods are called on the aggregate: a user with at most one
    default address and at most one active social account per provider
    still has both properties afterwards. *)
Theorem mutations_keep_list_invariants
    (ms : list Mutation) (u : User.t) (rt : Runtime.t) :
  (countDefault (User.addresses u) <= 1)%nat ->
  oneActivePerProvider (User.socialAccounts u) ->
  let u' := fst (mutateAll ms u rt) in
  (countDefault (User.addresses u') <= 1)%nat
  /\ oneActivePerProvider (User.socialAccounts u').
Proof.
  revert u rt. induction ms as [|m ms IH]; intros u rt Haddr Hsocial; simpl.
  - done.
  - assert ((countDefault (User.addresses (fst (mutate m u rt))) <= 1)%nat
            /\ oneActivePerProvider (User.socialAccounts (fst (mutate m u rt))))
      as [Haddr' Hsocial'].
    { destruct m as [p|p| | |reason| | | |h|address|provider pid pem data];
        simpl; try done.
      - split; [|by unfold User.addAddress; simpl;
                   destruct ((length _ =? 0)%nat || _)].
        rewrite addAddress_addresses.
        destruct ((length (User.addresses u) =? 0)%nat
                  || Address.i_isDefault address) eqn:Hcase.
        + by rewrite countDefault_app, countDefault_cleared, countDefault_singleton.
        + apply orb_false_iff in Hcase as [_ Hflag].
          rewrite countDefault_app, countDefault_singleton. simpl.
          rewrite Hflag. lia.
      - split; [|by apply linkSocialAccount_invariant].
        unfold User.linkSocialAccount.
        destruct (findIndex _ _) as [i|]; [destruct (_ !! i)|]; done. }
    destruct (mutate m u rt) as [u1 rt1]. simpl in *. by apply IH.
Qed.

Lemma mutations_keep_list_invariants_witness :
  let bob := Mock.user "u2" "bob" RoleUser in
  let ms :=
    [AddAddress (Mock.home false); LinkSocial Google "g-1" "bob@gmail.com" ∅;
     AddAddress (Mock.home true); Suspend "spam";
     LinkSocial Google "g-2" "rob@gmail.com" ∅; AddAddress (Mock.home true)] in
  let after := fst (mutateAll ms bob Mock.runtime) in
  length (User.addresses after) = 3%nat
  /\ (countDefault (User.addresses after) <= 1)%nat
  /\ oneActivePerProvider (User.socialAccounts after).
Proof.
  intros bob ms after.
  destruct (mutations_keep_list_invariants ms bob Mock.runtime) as [Ha Hs].
  - vm_compute. lia.
  - intros p. vm_compute. lia.
  - split; [reflexivity|]. split; [exact Ha|exact Hs].
Defined.

(** X7. Suspending and then unsuspending an account that was not suspended gives
    the account back, with only [updatedAt] moved to the reading of the
    clock the second call made; the reason and the date of the suspension
    are gone.  In between the account cannot log in. *)
Theorem suspend_unsuspend_round_trip (reason : string) (u : User.t) (rt : Runtime.t) :
  User.isSuspended u = false ->
  User.suspendedReason u = None ->
  User.suspendedAt u = None ->
  let suspended := User.suspend reason u rt in
  let restored := User.unsuspend (fst suspended) (snd suspended) in
  User.canLogin (fst suspended) = false
  /\ User.suspendedReason (fst suspended) = Some reason
  /\ User.suspendedAt (fst suspended) = Some (Runtime.clock rt (Runtime.ticks rt))
  /\ fst restored
     = User.setUpdatedAt (Runtime.clock rt (Runtime.ticks rt + 2)) u
  /\ User.canLogin (fst restored) = User.canLogin u.
Proof.
  intros Hs Hr Ha suspended restored.
  destruct u. simpl in *. subst. unfold User.canLogin. simpl.
  rewrite andb_false_r.
  replace (S (S (Runtime.ticks rt))) with (Runtime.ticks rt + 2)%nat by lia.
  repeat split; done.
Qed.

Lemma suspend_unsuspend_round_trip_witness :
  let bob := Mock.user "u2" "bob" RoleUser in
  let suspended := User.suspend "spam" bob Mock.runtime in
  fst (User.unsuspend (fst suspended) (snd suspended))
  = User.setUpdatedAt 1700000000002 bob.
Proof.
  intros bob suspended.
  destruct (suspend_unsuspend_round_trip "spam" bob Mock.runtime
              eq_refl eq_refl eq_refl) as (_ & _ & _ & H & _).
  exact H.
Defined.

(** The three enabling transitions commute: activating, unsuspending and
    verifying the email of an account give the same account in all six
    orders, and that account can log in, whatever its flags were. *)
Theorem enabling_transitions_commute (u : User.t) (rt : Runtime.t) :
  let run ms := fst (mutateAll ms u rt) in
  let enabled := run [Activate; Unsuspend; VerifyEmail] in
  run [Activate; VerifyEmail; Unsuspend] = enabled
  /\ run [Unsuspend; Activate; VerifyEmail] = enabled
  /\ run [Unsuspend; VerifyEmail; Activate] = enabled
  /\ run [VerifyEmail; Activate; Unsuspend] = enabled
  /\ run [VerifyEmail; Unsuspend; Activate] = enabled
  /\ User.canLogin enabled = true
  /\ User.canLogin (run [Activate; Unsuspend; VerifyEmail; Suspend "x"]) = false
  /\ User.canLogin (run [Activate; Unsuspend; VerifyEmail; Deactivate]) = false.
Proof. repeat split. Qed.

Lemma toDouble_exact (z : Z) : - 2 ^ 53 <= z <= 2 ^ 53 -> Js.toDouble z = z.
Proof.
  intros Hz. unfold Js.toDouble.
  destruct (Z.abs z <? 2 ^ 53) eqn:Hsmall; [done|].
  apply Z.ltb_ge in Hsmall.
  assert (z = 2 ^ 53 \/ z = - 2 ^ 53) as [-> | ->] by lia; reflexivity.
Qed.

Lemma increment_exact (x : Z) :
  - 2 ^ 53 <= x < 2 ^ 53 -> Js.increment x = x + 1.
Proof. intros Hx. unfold Js.increment. apply toDouble_exact. lia. Qed.

Lemma increment_stuck : Js.increment (2 ^ 53) = 2 ^ 53.
Proof. reflexivity. Qed.

Lemma recordLogin_effect (u : User.t) (rt : Runtime.t) :
  User.loginCount (fst (User.recordLogin u rt)) = Js.increment (User.loginCount u)
  /\ Runtime.ticks (snd (User.recordLogin u rt)) = (Runtime.ticks rt + 3)%nat
  /\ Runtime.clock (snd (User.recordLogin u rt)) = Runtime.clock rt
  /\ User.canLogin (fst (User.recordLogin u rt)) = User.canLogin u
  /\ User.passwordHash (fst (User.recordLogin u rt)) = User.passwordHash u
  /\ User.lastLoginAt (fst (User.recordLogin u rt))
     = Some (Runtime.clock rt (Runtime.ticks rt))
  /\ User.lastActiveAt (fst (User.recordLogin u rt))
     = Some (Runtime.clock rt (Runtime.ticks rt + 1)).
Proof. simpl. repeat split; try done; try lia. f_equal. f_equal. lia. Qed.

(** X8. [recordLogin] counts as a double does: after n calls the login count
    has grown by exactly n as long as it started at -2^53 or above and ends
    at 2^53 or below; a count of 2^53 stays 2^53, however many calls
    follow.  In every case three readings of the clock were made per call,
    the last login and last activity dates are the first two readings of
    the last call, and neither the password hash nor the ability to log in
    has changed. *)
Theorem recordLogin_counts (n : nat) (u : User.t) (rt : Runtime.t) :
  let u' := fst (mutateAll (replicate n RecordLogin) u rt) in
  let rt' := snd (mutateAll (replicate n RecordLogin) u rt) in
  (- 2 ^ 53 <= User.loginCount u -> User.loginCount u + Z.of_nat n <= 2 ^ 53 ->
   User.loginCount u' = User.loginCount u + Z.of_nat n)
  /\ (User.loginCount u = 2 ^ 53 -> User.loginCount u' = 2 ^ 53)
  /\ Runtime.ticks rt' = (Runtime.ticks rt + 3 * n)%nat
  /\ User.canLogin u' = User.canLogin u
  /\ User.passwordHash u' = User.passwordHash u
  /\ ((0 < n)%nat ->
      User.lastLoginAt u' = Some (Runtime.clock rt (Runtime.ticks rt' - 3))
      /\ User.lastActiveAt u' = Some (Runtime.clock rt (Runtime.ticks rt' - 2))).
Proof.
  revert u rt. induction n as [|n IH]; intros u rt.
  - simpl. repeat split; try done; try lia.
  - cbn [replicate mutateAll mutate].
    destruct (recordLogin_effect u rt) as (H1 & H2 & H3 & H4 & H5 & H6 & H7).
    destruct (User.recordLogin u rt) as [u1 rt1]. simpl in H1, H2, H3, H4, H5, H6, H7.
    destruct (IH u1 rt1) as (Hcount & Hstuck & Hticks & Hcan & Hhash & Hlast).
    cbv zeta in *.
    split; [|split; [|split; [lia|split; [congruence|split; [congruence|]]]]].
    + intros Hlow Hhigh.
      rewrite increment_exact in H1 by lia.
      rewrite Hcount; lia.
    + intros Hmax. rewrite Hmax, increment_stuck in H1. by apply Hstuck.
    + intros _. destruct n as [|n].
      * simpl. rewrite H6, H7, H2. split; f_equal; f_equal; lia.
      * destruct Hlast as [-> ->]; [lia|]. by rewrite H3.
Qed.

Lemma recordLogin_counts_witness :
  let bob := Mock.user "u2" "bob" RoleUser in
  let veteran := User.setLoginCount (2 ^ 53) bob in
  User.loginCount (fst (mutateAll (replicate 3 RecordLogin) bob Mock.runtime))
  = User.loginCount bob + 3
  /\ User.loginCount (fst (mutateAll (replicate 3 RecordLogin) veteran Mock.runtime))
     = 2 ^ 53.
Proof.
  intros bob veteran.
  destruct (recordLogin_counts 3 bob Mock.runtime) as (Hexact & _).
  destruct (recordLogin_counts 3 veteran Mock.runtime) as (_ & Hstuck & _).
  split; [apply Hexact; vm_compute; discriminate|exact (Hstuck eq_refl)].
Defined.

(** X9. [updateProfile] and [updatePreferences] merge: a partial without any
    property leaves the structure as it was; every property of the profile
    and of the preferences takes the value the partial gives for it and
    keeps its value when the partial gives none; and two updates in a row
    leave the structure one update with the second partial spread over the
    first would leave.  For preferences the merge is shallow: a given
    [notifications] or [privacy] replaces its three settings at once. *)
Theorem update_merge_laws
    (a b : UserProfile.partial) (c d : UserPreferences.partial)
    (u : User.t) (rt : Runtime.t) :
  let profileAfter ps := User.profile (fst (mutateAll (map UpdateProfile ps) u rt)) in
  let preferencesAfter ps :=
    User.preferences (fst (mutateAll (map UpdatePreferences ps) u rt)) in
  let old := User.profile u in
  let new := profileAfter [a] in
  let old' := User.preferences u in
  let new' := preferencesAfter [c] in
  profileAfter [noProfileChange] = old
  /\ preferencesAfter [UserPreferences.mkPartial None None None None] = old'
  /\ profileAfter [a; b] = profileAfter [overrideProfile a b]
  /\ preferencesAfter [c; d] = preferencesAfter [overridePreferences c d]
  /\ spreadOver (UserProfile.firstName old) (UserProfile.p_firstName a)
       (UserProfile.firstName new)
  /\ spreadOver (UserProfile.lastName old) (UserProfile.p_lastName a)
       (UserProfile.lastName new)
  /\ spreadOver (UserProfile.displayName old) (Some <$> UserProfile.p_displayName a)
       (UserProfile.displayName new)
  /\ spreadOver (UserProfile.gender old) (Some <$> UserProfile.p_gender a)
       (UserProfile.gender new)
  /\ spreadOver (UserProfile.avatarUrl old) (Some <$> UserProfile.p_avatarUrl a)
       (UserProfile.avatarUrl new)
  /\ spreadOver (UserProfile.phone old) (Some <$> UserProfile.p_phone a)
       (UserProfile.phone new)
  /\ spreadOver (UserProfile.dateOfBirth old) (Some <$> UserProfile.p_dateOfBirth a)
       (UserProfile.dateOfBirth new)
  /\ spreadOver (UserProfile.bio old) (Some <$> UserProfile.p_bio a)
       (UserProfile.bio new)
  /\ spreadOver (UserPreferences.language old') (UserPreferences.p_language c)
       (UserPreferences.language new')
  /\ spreadOver (UserPreferences.timezone old') (UserPreferences.p_timezone c)
       (UserPreferences.timezone new')
  /\ spreadOver (UserPreferences.notifications old')
       (UserPreferences.p_notifications c) (UserPreferences.notifications new')
  /\ spreadOver (UserPreferences.privacy old') (UserPreferences.p_privacy c)
       (UserPreferences.privacy new').
Proof.
  intros profileAfter preferencesAfter old new old' new'.
  unfold old, new, old', new', profileAfter, preferencesAfter.
  simpl. unfold UserProfile.merge, UserPreferences.merge, spreadOver. simpl.
  split; [by destruct (User.profile u)|].
  split; [by destruct (User.preferences u)|].
  split.
  { destruct a as [a1 a2 a3 a4 a5 a6 a7 a8], b as [b1 b2 b3 b4 b5 b6 b7 b8].
    simpl. f_equal;
      [by destruct a1, b1|by destruct a2, b2|by destruct a3, b3|by destruct a4, b4
      |by destruct a5, b5|by destruct a6, b6|by destruct a7, b7|by destruct a8, b8]. }
  split; [by destruct c as [[] [] [] []], d as [[] [] [] []]|].
  destruct a as [[] [] [] [] [] [] [] []], c as [[] [] [] []]; simpl;
    repeat split; reflexivity.
Qed.

Lemma update_merge_laws_witness :
  let bob := Mock.user "u2" "bob" RoleUser in
  let rename :=
    UserProfile.mkPartial (Some "Robert") None None None None None None None in
  let describe :=
    UserProfile.mkPartial None None None None None None None (Some "hello") in
  User.profile (fst (mutateAll [UpdateProfile rename; UpdateProfile describe]
                       bob Mock.runtime))
  = UserProfile.mk "Robert" "User" None None None None None (Some "hello").
Proof.
  intros bob rename describe.
  destruct (update_merge_laws rename describe
              (UserPreferences.mkPartial None None None None)
              (UserPreferences.mkPartial None None None None) bob Mock.runtime)
    as (_ & _ & H & _).
  etransitivity; [exact H|reflexivity].
Defined.

Lemma find_app_none {A : Type} (f : A -> bool) (l1 l2 : list A) :
  Forall (fun x => f x = false) l1 -> List.find f (l1 ++ l2) = List.find f l2.
Proof.
  induction 1 as [|x l1 Hx _ IH]; [done|]. simpl. by rewrite Hx.
Qed.

(** X10. [getDefaultAddress] answers nothing only for a user without addresses;
    what it answers is one of the user's addresses, a flagged one whenever
    one is flagged and the first one otherwise; and right after an
    [addAddress] that found no address, or that was given a flagged address,
    it answers the address just added. *)
Theorem getDefaultAddress_spec (address : Address.input) (u : User.t) (rt : Runtime.t) :
  (User.getDefaultAddress u = None <-> User.addresses u = [])
  /\ (forall a, User.getDefaultAddress u = Some a -> In a (User.addresses u))
  /\ (forall x, In x (User.addresses u) -> Address.isDefault x = true ->
      exists a, User.getDefaultAddress u = Some a /\ Address.isDefault a = true)
  /\ (Forall (fun x => Address.isDefault x = false) (User.addresses u) ->
      User.getDefaultAddress u = head (User.addresses u))
  /\ (User.addresses u = [] \/ Address.i_isDefault address = true ->
      let added := fst (User.addAddress address u rt) in
      User.getDefaultAddress added = last (User.addresses added)
      /\ exists a, User.getDefaultAddress added = Some a
                   /\ Address.isDefault a = true
                   /\ Address.id a = Runtime.uuidGen rt (Runtime.uuidCount rt)).
Proof.
  unfold User.getDefaultAddress.
  split; [|split; [|split; [|split]]].
  - destruct (List.find _ _) as [a|] eqn:Hfind.
    + split; [done|]. intros Hnil. by rewrite Hnil in Hfind.
    + by destruct (User.addresses u).
  - intros a. destruct (List.find _ _) as [b|] eqn:Hfind.
    + intros [= <-]. by apply find_some in Hfind as [? _].
    + destruct (User.addresses u); [done|]. intros [= <-]. by left.
  - intros x Hin Hx. destruct (List.find _ _) as [a|] eqn:Hfind.
    + exists a. split; [done|]. by apply find_some in Hfind as [_ ?].
    + pose proof (find_none _ _ Hfind x Hin). congruence.
  - intros Hnone. rewrite <- (app_nil_r (User.addresses u)) at 1.
    by rewrite find_app_none.
  - intros Hcase. cbv zeta. rewrite addAddress_addresses.
    assert ((length (User.addresses u) =? 0)%nat || Address.i_isDefault address = true)
      as ->.
    { destruct Hcase as [-> | ->]; [done|apply orb_true_r]. }
    rewrite find_app_none by apply cleared_all_false. simpl.
    rewrite last_snoc. split; [done|]. eexists. split; [done|]. done.
Qed.

Lemma getDefaultAddress_spec_witness :
  let bob := Mock.user "u2" "bob" RoleUser in
  User.getDefaultAddress bob = None
  /\ option_map Address.id
       (User.getDefaultAddress (fst (User.addAddress (Mock.home false) bob Mock.runtime)))
     = Some "uuid-a".
Proof.
  intros bob.
  destruct (getDefaultAddress_spec (Mock.home false) bob Mock.runtime)
    as (Hnone & _ & _ & _ & Hadded).
  destruct (Hadded (or_introl eq_refl)) as (_ & a & Ha & _ & Hid).
  split; [by apply Hnone|].
  rewrite Ha. simpl. by rewrite Hid.
Defined.

Lemma existsb_count {A : Type} (f : A -> bool) (l : list A) :
  existsb f l = true <-> (0 < length (filter (fun a => f a = true) l))%nat.
Proof.
  induction l as [|x l IH]; simpl; [by split; [|intros H; inversion H]|].
  destruct (f x) eqn:Hx.
  - rewrite filter_cons_True by done. simpl. split; [lia|done].
  - rewrite filter_cons_False by congruence. done.
Qed.

Lemma hasLinked_count (p : SocialProvider) (u : User.t) :
  User.hasLinkedSocialAccount p u = true
  <-> (0 < countActive p (User.socialAccounts u))%nat.
Proof. apply existsb_count. Qed.

(** X11. After [linkSocialAccount] the user has a linked account of that
    provider, whatever the accounts were before, and has one of any other
    provider exactly when there was one before. *)
Theorem linkSocialAccount_is_seen
    (provider other : SocialProvider) (providerId providerEmail : string)
    (providerData : gmap string JsValue) (u : User.t) (rt : Runtime.t) :
  let linked := fst (User.linkSocialAccount provider providerId providerEmail
                       providerData u rt) in
  User.hasLinkedSocialAccount provider linked = true
  /\ (other <> provider ->
      User.hasLinkedSocialAccount other linked
      = User.hasLinkedSocialAccount other u).
Proof.
  intros linked. split.
  - unfold User.hasLinkedSocialAccount.
    destruct (linkSocialAccount_links provider providerId providerEmail
                providerData u rt) as [i Hi].
    apply findIndex_Some in Hi as (x & Hx & Hactive).
    apply existsb_exists. exists x. split; [|done].
    apply list_elem_of_In. by eapply list_elem_of_lookup_2.
  - intros Hother.
    assert (countActive other (User.socialAccounts linked)
            = countActive other (User.socialAccounts u)) as Hcount.
    { unfold linked.
      destruct (findIndex (SocialAccount.activeFor provider) (User.socialAccounts u))
        as [i|] eqn:Hi.
      - destruct (linkSocialAccount_found provider providerId providerEmail
                    providerData u rt i Hi) as (old & Hold & _ & ->).
        by apply (countActive_insert other _ i old).
      - rewrite (linkSocialAccount_fresh provider providerId providerEmail
                   providerData u rt Hi).
        rewrite countActive_app, countActive_cons.
        unfold SocialAccount.activeFor at 1. simpl.
        assert (provider_eqb provider other = false) as ->.
        { destruct (provider_eqb provider other) eqn:Heq; [|done].
          apply provider_eqb_eq in Heq. congruence. }
        change (countActive other []) with 0%nat. simpl. lia. }
    pose proof (hasLinked_count other linked) as H1.
    pose proof (hasLinked_count other u) as H2.
    rewrite Hcount in H1.
    destruct (User.hasLinkedSocialAccount other linked),
             (User.hasLinkedSocialAccount other u); try done.
    + symmetry. apply H2, H1. done.
    + apply H1, H2. done.
Qed.

Lemma linkSocialAccount_is_seen_witness :
  let bob := Mock.user "u2" "bob" RoleUser in
  let linked := fst (User.linkSocialAccount Github "gh-7" "bob@github.com" ∅
                       bob Mock.runtime) in
  User.hasLinkedSocialAccount Github linked = true
  /\ User.hasLinkedSocialAccount Google linked = false.
Proof.
  intros bob linked.
  destruct (linkSocialAccount_is_seen Github Google "gh-7" "bob@github.com" ∅
              bob Mock.runtime) as [Hseen Hother].
  split; [exact Hseen|]. unfold linked. rewrite Hother; [reflexivity|discriminate].
Defined.

(** ** LoginUser *)

Section LoginCases.
Context {W : Type} (repo : UserRepository.t W).
Context (comparePassword : string -> string -> Outcome bool).
Context (generateTokens : LoginUser.Payload -> Outcome LoginUser.Tokens).

Local Abbreviation login := (LoginUser.execute repo comparePassword generateTokens).

(** X13. LoginUser refuses a request before it touches the port when the email or
    the password is empty ("Email and password are required") and when the
    email, as typed, is not a valid address ("Invalid email format"). *)
Theorem login_validates_before_lookup (email password : string) (env : Env W) :
  (email = "" \/ password = "" ->
   login (LoginUser.mkRequest email password) env
   = (Throw "Email and password are required", env))
  /\ (email <> "" -> password <> "" -> Email.isValid email = false ->
      login (LoginUser.mkRequest email password) env
      = (Throw "Invalid email format", env)).
Proof.
  unfold LoginUser.execute. simpl. split.
  - intros [-> | ->]; [done|]. simpl. by rewrite orb_true_r.
  - intros He Hp Hvalid.
    assert (Js.truthy email = true) as -> by by destruct email.
    assert (Js.truthy password = true) as -> by by destruct password.
    simpl. by rewrite (email_new_invalid email Hvalid).
Qed.

(** X14. LoginUser succeeds only with valid credentials: whenever it returns a
    response, the email was a valid address, the port found a user for its
    normal form, that user could log in and had a stored hash, and the
    injected comparison accepted the password against that hash.  The user
    of the response is the one found, after [recordLogin]: its login count
    is one more than before while that is a sum doubles make exactly, and
    stays 2^53 once there. *)
Theorem login_succeeds_only_with_valid_credentials
    (request : LoginUser.Request) (env : Env W) (response : LoginUser.Response) :
  fst (login request env) = Ok response ->
  exists (u : User.t) (hash : string) (w : W),
    Email.isValid (LoginUser.email request) = true
    /\ LoginUser.password request <> ""
    /\ UserRepository.findByEmail repo
         (Email.mk (Js.toLowerCase (LoginUser.email request))) (world env)
       = (Ok (Some u), w)
    /\ User.canLogin u = true
    /\ User.passwordHash u = Some hash
    /\ hash <> ""
    /\ comparePassword (LoginUser.password request) hash = Ok true
    /\ LoginUser.user response = fst (User.recordLogin u (runtime env))
    /\ (- 2 ^ 53 <= User.loginCount u < 2 ^ 53 ->
        User.loginCount (LoginUser.user response) = User.loginCount u + 1)
    /\ (User.loginCount u = 2 ^ 53 ->
        User.loginCount (LoginUser.user response) = 2 ^ 53).
Proof.
  unfold LoginUser.execute.
  destruct (Js.truthy (LoginUser.email request)) eqn:Hemail; [|done].
  destruct (Js.truthy (LoginUser.password request)) eqn:Hpassword; [|done].
  simpl.
  destruct (Email.isValid (LoginUser.email request)) eqn:Hvalid;
    [|by rewrite (email_new_invalid _ Hvalid)].
  rewrite (email_new_valid _ Hvalid). run.
  destruct (UserRepository.findByEmail repo _ (world env)) as [[[u|]|message] w];
    simpl; try done.
  destruct (User.canLogin u) eqn:Hcan; simpl; [|done].
  destruct (User.passwordHash u) as [hash|] eqn:Hhash; simpl; [|done].
  destruct (Js.truthy hash) eqn:Htruthy; simpl; [|done].
  destruct (comparePassword (LoginUser.password request) hash) as [[]|] eqn:Hcompare;
    simpl; try done.
  destruct (UserRepository.update repo _ w) as [[saved|message] w']; simpl; [|done].
  destruct (generateTokens _) as [tokens|message]; simpl; [|done].
  intros [= <-]. exists u, hash, w. simpl.
  repeat split; try done.
  - intros Hnil. by rewrite Hnil in Hpassword.
  - intros Hnil. by rewrite Hnil in Htruthy.
  - by apply increment_exact.
  - intros ->. apply increment_stuck.
Qed.

(** X15. With valid credentials, a port that accepts the update and a token
    generator that answers, LoginUser succeeds: it records the login on the
    user found, passes that user to [update], asks for tokens for the
    user's id, email value and role, and returns the user it updated (not
    the one the port returned) with the tokens.  The login count of that
    user is one more than before while doubles make that sum exactly, and
    stays 2^53 once there. *)
Theorem login_success
    (email password : string) (env : Env W) (u saved : User.t) (hash : string)
    (tokens : LoginUser.Tokens) (w w' : W) :
  let e := Email.mk (Js.toLowerCase email) in
  let logged := fst (User.recordLogin u (runtime env)) in
  Email.isValid email = true ->
  password <> "" ->
  UserRepository.findByEmail repo e (world env) = (Ok (Some u), w) ->
  User.canLogin u = true ->
  User.passwordHash u = Some hash ->
  hash <> "" ->
  comparePassword password hash = Ok true ->
  UserRepository.update repo logged w = (Ok saved, w') ->
  generateTokens (LoginUser.mkPayload (User.id u) (Email.getValue (User.email u))
                    (User.role u)) = Ok tokens ->
  login (LoginUser.mkRequest email password) env
  = (Ok (LoginUser.mkResponse logged tokens),
     mkEnv w' (snd (User.recordLogin u (runtime env)))
       (calls env ++ [CallFindByEmail e; CallUpdate logged]))
  /\ (- 2 ^ 53 <= User.loginCount u < 2 ^ 53 ->
      User.loginCount logged = User.loginCount u + 1)
  /\ (User.loginCount u = 2 ^ 53 -> User.loginCount logged = 2 ^ 53)
  /\ User.lastLoginAt logged
     = Some (Runtime.clock (runtime env) (Runtime.ticks (runtime env))).
Proof.
  intros e logged Hvalid Hpassword Hfind Hcan Hhash Hne Hcompare Hupdate Htokens.
  split; [|split; [by apply increment_exact|split; [|done]]];
    [|intros Hmax; subst logged; simpl; rewrite Hmax; apply increment_stuck].
  unfold LoginUser.execute. simpl.
  assert (Js.truthy email = true) as -> by by destruct email.
  assert (Js.truthy password = true) as -> by by destruct password.
  simpl. rewrite (email_new_valid email Hvalid). run. fold e.
  rewrite Hfind, Hcan, Hhash. simpl.
  assert (Js.truthy hash = true) as -> by by destruct hash.
  simpl. rewrite Hcompare. simpl.
  subst logged. simpl in Hupdate, Htokens |- *. rewrite Hupdate. simpl.
  rewrite Htokens.
  by rewrite <- app_assoc.
Qed.

(** X16. When the port finds the user but the user cannot log in, LoginUser
    fails with "Cannot login: " followed by the reasons, which are exactly
    the failing ones among inactive, suspended and unverified, in that
    order; the password is not looked at (the outcome is the same for every
    non-empty password and every comparison function) and nothing is
    written. *)
Theorem login_blocked_reports_reasons
    (email password : string) (env : Env W) (u : User.t) (w : W) :
  let e := Email.mk (Js.toLowerCase email) in
  Email.isValid email = true ->
  password <> "" ->
  UserRepository.findByEmail repo e (world env) = (Ok (Some u), w) ->
  User.canLogin u = false ->
  login (LoginUser.mkRequest email password) env
  = (Throw ("Cannot login: " +:+ Js.join ", " (LoginUser.reasons u)),
     mkEnv w (runtime env) (calls env ++ [CallFindByEmail e]))
  /\ LoginUser.reasons u <> []
  /\ (In "account is inactive" (LoginUser.reasons u) <-> User.isActive u = false)
  /\ (In "account is suspended" (LoginUser.reasons u) <-> User.isSuspended u = true)
  /\ (In "email is not verified" (LoginUser.reasons u)
      <-> User.emailVerified u = false).
Proof.
  intros e Hvalid Hpassword Hfind Hcan. split.
  - unfold LoginUser.execute. simpl.
    assert (Js.truthy email = true) as -> by by destruct email.
    assert (Js.truthy password = true) as -> by by destruct password.
    simpl. rewrite (email_new_valid email Hvalid). run. fold e.
    by rewrite Hfind, Hcan.
  - unfold User.canLogin in Hcan. unfold LoginUser.reasons.
    destruct (User.isActive u), (User.isSuspended u), (User.emailVerified u);
      simpl in *; try done; repeat split; try done;
      intuition (try discriminate; auto).
Qed.

End LoginCases.

Lemma login_succeeds_only_with_valid_credentials_witness :
  let bob := Mock.user "u2" "bob" RoleUser in
  let found := Mock.env (Mock.mkAnswers None (Some bob) None
                           (mkExistsResult false None)) in
  let logged := fst (User.recordLogin bob Mock.runtime) in
  fst (LoginUser.execute Mock.repository Mock.comparePassword Mock.generateTokens
         (LoginUser.mkRequest "Bob@Example.com" "password") found)
  = Ok (LoginUser.mkResponse logged
          (LoginUser.mkTokens "access-token" "refresh-token"))
  /\ User.loginCount logged = 1.
Proof.
  intros bob found logged.
  assert (fst (LoginUser.execute Mock.repository Mock.comparePassword
                 Mock.generateTokens
                 (LoginUser.mkRequest "Bob@Example.com" "password") found)
          = Ok (LoginUser.mkResponse logged
                  (LoginUser.mkTokens "access-token" "refresh-token"))) as Hrun
    by reflexivity.
  destruct (login_succeeds_only_with_valid_credentials Mock.repository
              Mock.comparePassword Mock.generateTokens _ _ _ Hrun)
    as (u & hash & w & _ & _ & Hfound & _ & _ & _ & _ & _ & Hcount & _).
  injection Hfound as <- _.
  split; [exact Hrun|apply Hcount; vm_compute; split; [discriminate|reflexivity]].
Defined.

Lemma login_success_witness :
  let bob := Mock.user "u2" "bob" RoleUser in
  let found := Mock.env (Mock.mkAnswers None (Some bob) None
                           (mkExistsResult false None)) in
  let logged := fst (User.recordLogin bob Mock.runtime) in
  calls (snd (LoginUser.execute Mock.repository Mock.comparePassword
                Mock.generateTokens
                (LoginUser.mkRequest "Bob@Example.com" "password") found))
  = [CallFindByEmail (Email.mk "bob@example.com"); CallUpdate logged].
Proof.
  intros bob found logged.
  destruct (login_success Mock.repository Mock.comparePassword Mock.generateTokens
              "Bob@Example.com" "password" found bob logged "hashed-password"
              (LoginUser.mkTokens "access-token" "refresh-token")
              (world found) (world found)
              eq_refl ltac:(discriminate) eq_refl eq_refl eq_refl
              ltac:(discriminate) eq_refl eq_refl eq_refl)
    as [Hrun _].
  rewrite Hrun. reflexivity.
Defined.

Lemma login_blocked_reports_reasons_witness :
  let bob := Mock.user "u2" "bob" RoleUser in
  let blocked := fst (User.suspend "spam" (fst (User.deactivate bob Mock.runtime))
                        Mock.runtime) in
  let found := Mock.env (Mock.mkAnswers None (Some blocked) None
                           (mkExistsResult false None)) in
  fst (LoginUser.execute Mock.repository Mock.comparePassword Mock.generateTokens
         (LoginUser.mkRequest "bob@example.com" "anything") found)
  = Throw "Cannot login: account is inactive, account is suspended".
Proof.
  intros bob blocked found.
  destruct (login_blocked_reports_reasons Mock.repository Mock.comparePassword
              Mock.generateTokens "bob@example.com" "anything" found blocked
              (world found) eq_refl ltac:(discriminate) eq_refl eq_refl)
    as [Hrun _].
  rewrite Hrun. reflexivity.
Defined.

Lemma login_validates_before_lookup_witness :
  let env := Mock.env Mock.nothing in
  LoginUser.execute Mock.repository Mock.comparePassword Mock.generateTokens
    (LoginUser.mkRequest "bob@example.com" "") env
  = (Throw "Email and password are required", env)
  /\ LoginUser.execute Mock.repository Mock.comparePassword Mock.generateTokens
       (LoginUser.mkRequest "bob@example" "password") env
     = (Throw "Invalid email format", env).
Proof.
  intros env.
  destruct (login_validates_before_lookup Mock.repository Mock.comparePassword
              Mock.generateTokens "bob@example.com" "" env) as [Hempty _].
  destruct (login_validates_before_lookup Mock.repository Mock.comparePassword
              Mock.generateTokens "bob@example" "password" env) as [_ Hformat].
  split; [apply Hempty; by right|apply Hformat; done].
Defined.

(** ** CreateUser *)

Lemma username_new_valid (s : string) :
  Username.isValid s = true -> Username.new s = Ok (Username.mk (Js.trim s)).
Proof. intros H. unfold Username.new. by rewrite H. Qed.

Lemma username_new_invalid (s : string) :
  Username.isValid s = false -> Username.new s = Throw "Invalid username format".
Proof. intros H. unfold Username.new. by rewrite H. Qed.

Lemma password_new_long (s : string) :
  (8 <= String.length s)%nat -> Password.new s = Ok (Password.mk s).
Proof.
  intros H. unfold Password.new, Password.isValid.
  assert (Js.truthy s = true) as -> by (destruct s; [simpl in H; lia|done]).
  by assert ((8 <=? String.length s)%nat = true) as -> by by apply Nat.leb_le.
Qed.

Lemma password_new_short (s : string) :
  (String.length s < 8)%nat ->
  Password.new s = Throw "Password must be at least 8 characters long".
Proof.
  intros H. unfold Password.new, Password.isValid.
  assert ((8 <=? String.length s)%nat = false) as -> by (apply Nat.leb_gt; lia).
  by rewrite andb_false_r.
Qed.

Section RegistrationCases.
Context {W : Type} (repo : UserRepository.t W).
Context (hashPassword : string -> Outcome string).

(** X17. CreateUser validates before it touches the port, in the order email,
    username, password: the first of the three that does not construct
    decides the error, and neither the port nor the hashing function is
    reached. *)
Theorem register_validates_in_order (request : CreateUser.Request) (env : Env W) :
  let register := CreateUser.execute repo hashPassword request env in
  (Email.isValid (CreateUser.email request) = false ->
   register = (Throw "Invalid email format", env))
  /\ (Email.isValid (CreateUser.email request) = true ->
      Username.isValid (CreateUser.username request) = false ->
      register = (Throw "Invalid username format", env))
  /\ (Email.isValid (CreateUser.email request) = true ->
      Username.isValid (CreateUser.username request) = true ->
      (String.length (CreateUser.password request) < 8)%nat ->
      register = (Throw "Password must be at least 8 characters long", env)).
Proof.
  unfold CreateUser.execute. split; [|split].
  - intros H. rewrite (email_new_invalid _ H). by run.
  - intros He Hu. rewrite (email_new_valid _ He), (username_new_invalid _ Hu).
    by run.
  - intros He Hu Hp.
    rewrite (email_new_valid _ He), (username_new_valid _ Hu),
      (password_new_short _ Hp).
    by run.
Qed.

(** X18. A registration that passes validation, meets no conflict and whose
    password hashes creates one user through the port: with the lower-cased
    email and the trimmed username, the hash and never the password, the
    role given or else user, the names, gender and date of birth of the
    request, a phone and a bio only when the request gives non-empty ones,
    no display name or avatar, the default preferences, active, not
    suspended, email and phone unverified, no address, no social account,
    no login yet, no identifier and creation and update dates equal to the
    one reading of the clock.  That user cannot log in until the
    email is verified.  The use case returns what the port returns and asks
    for email verification. *)
Theorem register_creates_unverified_user
    (request : CreateUser.Request) (env : Env W)
    (hash : string) (saved : User.t) (report : ExistsResult) (w w' : W) :
  let e := Email.mk (Js.toLowerCase (CreateUser.email request)) in
  let n := Username.mk (Js.trim (CreateUser.username request)) in
  let created :=
    fst (User.create n e (Some hash) (default RoleUser (CreateUser.role request))
           (UserProfile.mk (CreateUser.firstName request)
              (CreateUser.lastName request) None (CreateUser.gender request) None
              (if Js.truthyOpt (CreateUser.phone request)
               then CreateUser.phone request else None)
              (CreateUser.dateOfBirth request)
              (if Js.truthyOpt (CreateUser.bio request)
               then CreateUser.bio request else None))
           [] [] false false true false CreateUser.defaultPreferences 0 ∅
           (runtime env)) in
  Email.isValid (CreateUser.email request) = true ->
  Username.isValid (CreateUser.username request) = true ->
  (8 <= String.length (CreateUser.password request))%nat ->
  UserRepository.exists_ repo e n (world env) = (Ok report, w) ->
  r_exists report = false ->
  hashPassword (CreateUser.password request) = Ok hash ->
  UserRepository.create repo created w = (Ok saved, w') ->
  fst (CreateUser.execute repo hashPassword request env)
  = Ok (CreateUser.mkResponse saved true)
  /\ calls (snd (CreateUser.execute repo hashPassword request env))
     = (calls env ++ [CallExists e n; CallCreate created])%list
  /\ User.passwordHash created = Some hash
  /\ User.id created = None
  /\ User.isActive created = true
  /\ User.isSuspended created = false
  /\ User.emailVerified created = false
  /\ User.canLogin created = false
  /\ User.loginCount created = 0
  /\ User.addresses created = []
  /\ User.socialAccounts created = []
  /\ User.createdAt created = User.updatedAt created
  /\ (CreateUser.role request = None -> User.role created = RoleUser)
  /\ Email.getValue (User.email created) = Js.toLowerCase (CreateUser.email request)
  /\ Username.getValue (User.username created)
     = Js.trim (CreateUser.username request)
  /\ (forall role, CreateUser.role request = Some role -> User.role created = role)
  /\ UserProfile.firstName (User.profile created) = CreateUser.firstName request
  /\ UserProfile.lastName (User.profile created) = CreateUser.lastName request
  /\ UserProfile.gender (User.profile created) = CreateUser.gender request
  /\ UserProfile.dateOfBirth (User.profile created) = CreateUser.dateOfBirth request
  /\ UserProfile.displayName (User.profile created) = None
  /\ UserProfile.avatarUrl (User.profile created) = None
  /\ (forall phone, CreateUser.phone request = Some phone -> phone <> "" ->
      UserProfile.phone (User.profile created) = Some phone)
  /\ (CreateUser.phone request = None \/ CreateUser.phone request = Some "" ->
      UserProfile.phone (User.profile created) = None)
  /\ (forall bio, CreateUser.bio request = Some bio -> bio <> "" ->
      UserProfile.bio (User.profile created) = Some bio)
  /\ (CreateUser.bio request = None \/ CreateUser.bio request = Some "" ->
      UserProfile.bio (User.profile created) = None)
  /\ User.preferences created
     = UserPreferences.mk "en" "UTC"
         (UserPreferences.mkNotifications true true false)
         (UserPreferences.mkPrivacy Public false false)
  /\ User.phoneVerified created = false
  /\ User.suspendedReason created = None
  /\ User.suspendedAt created = None
  /\ User.lastLoginAt created = None
  /\ User.lastActiveAt created = None
  /\ User.customFields created = ∅
  /\ User.createdBy created = None
  /\ User.updatedBy created = None
  /\ User.createdAt created
     = Runtime.clock (runtime env) (Runtime.ticks (runtime env)).
Proof.
  intros e n created He Hu Hp Hreport Hfree Hhash Hcreate.
  assert (CreateUser.execute repo hashPassword request env
          = (Ok (CreateUser.mkResponse saved true),
             mkEnv w' (snd (Runtime.newDate (runtime env)))
               (calls env ++ [CallExists e n; CallCreate created]))) as Hrun.
  { unfold CreateUser.execute.
    rewrite (email_new_valid _ He), (username_new_valid _ Hu),
      (password_new_long _ Hp).
    run. fold e n. rewrite Hreport, Hfree. simpl. rewrite Hhash. simpl.
    subst created. simpl in Hcreate |- *. rewrite Hcreate. simpl.
    by rewrite <- app_assoc. }
  rewrite Hrun. simpl.
  assert (forall x : option string,
            (forall v, x = Some v -> v <> "" ->
               (if Js.truthyOpt x then x else None) = Some v)
            /\ (x = None \/ x = Some "" -> (if Js.truthyOpt x then x else None) = None))
    as Hfalsy.
  { intros x. split.
    - intros v -> Hv. simpl. by destruct v.
    - by intros [-> | ->]. }
  repeat split; try done; try apply Hfalsy.
  - by intros ->.
  - by intros role ->.
Qed.

End RegistrationCases.

Lemma register_validates_in_order_witness :
  let env := Mock.env Mock.nothing in
  let request email username password :=
    CreateUser.mkRequest username email password "A" "B" None None None None None in
  CreateUser.execute Mock.repository Mock.hashPassword
    (request "a@b" "x" "short") env = (Throw "Invalid email format", env)
  /\ CreateUser.execute Mock.repository Mock.hashPassword
       (request "a@b.com" "user-name" "short") env
     = (Throw "Invalid username format", env)
  /\ CreateUser.execute Mock.repository Mock.hashPassword
       (request "a@b.com" "user_name" "short") env
     = (Throw "Password must be at least 8 characters long", env).
Proof.
  intros env request.
  destruct (register_validates_in_order Mock.repository Mock.hashPassword
              (request "a@b" "x" "short") env) as (H1 & _ & _).
  destruct (register_validates_in_order Mock.repository Mock.hashPassword
              (request "a@b.com" "user-name" "short") env) as (_ & H2 & _).
  destruct (register_validates_in_order Mock.repository Mock.hashPassword
              (request "a@b.com" "user_name" "short") env) as (_ & _ & H3).
  split; [exact (H1 eq_refl)|].
  split; [exact (H2 eq_refl eq_refl)|].
  apply (H3 eq_refl eq_refl). vm_compute. lia.
Defined.

Lemma register_creates_unverified_user_witness :
  let request :=
    CreateUser.mkRequest " alice_1 " "Alice@Example.com" "password123"
      "Alice" "Doe" None None (Some "") None None in
  let run := CreateUser.execute Mock.repository Mock.hashPassword request
               (Mock.env Mock.nothing) in
  exists created,
    calls (snd run)
    = [CallExists (Email.mk "alice@example.com") (Username.mk "alice_1");
       CallCreate created]
    /\ fst run = Ok (CreateUser.mkResponse created true)
    /\ User.passwordHash created = Some "hashed-password123"
    /\ UserProfile.phone (User.profile created) = None
    /\ User.canLogin created = false.
Proof.
  intros request run.
  destruct (register_creates_unverified_user Mock.repository Mock.hashPassword
              request (Mock.env Mock.nothing) "hashed-password123"
              (fst (User.create (Username.mk "alice_1") (Email.mk "alice@example.com")
                      (Some "hashed-password123") RoleUser
                      (UserProfile.mk "Alice" "Doe" None None None None None None)
                      [] [] false false true false CreateUser.defaultPreferences
                      0 ∅ Mock.runtime))
              (mkExistsResult false None) Mock.nothing Mock.nothing
              eq_refl eq_refl ltac:(vm_compute; lia) eq_refl eq_refl eq_refl eq_refl)
    as (Hrun & Hcalls & Hhash & _ & _ & _ & _ & Hcan & _).
  eexists. split; [exact Hcalls|]. split; [exact Hrun|].
  split; [exact Hhash|]. split; [reflexivity|exact Hcan].
Defined.

(** ** GetUser, UpdateUser, SearchUsers, ListUsers, LinkSocialAccount *)

Section OtherCases.
Context {W : Type} (repo : UserRepository.t W).

(** X19. GetUser on an existing user returns the user exactly when the requester
    is an admin, is the user, or the user's profile visibility is not
    private; otherwise it fails with "This profile is private".  A profile
    visible to friends is readable by anyone, like a public one. *)
Theorem getUser_access_rule
    (userId requester role : string) (env : Env W) (u : User.t) (w : W) :
  let visibility :=
    UserPreferences.profileVisibility
      (UserPreferences.privacy (User.preferences u)) in
  let get := GetUser.execute repo (GetUser.mkRequest userId requester role) env in
  UserRepository.findById repo userId (world env) = (Ok (Some u), w) ->
  (fst get = Ok u <->
   role = "admin" \/ requester = userId \/ visibility <> Private)
  /\ (fst get = Throw "This profile is private" <->
      role <> "admin" /\ requester <> userId /\ visibility = Private)
  /\ (visibility = Friends -> fst get = Ok u)
  /\ snd get = mkEnv w (runtime env) (calls env ++ [CallFindById userId]).
Proof.
  intros visibility get Hfind. unfold get, GetUser.execute. run.
  rewrite Hfind. simpl. fold visibility.
  destruct (selfOrAdmin role requester userId) eqn:Hauth; simpl.
  - apply selfOrAdmin_true in Hauth.
    repeat split; try done; intuition discriminate.
  - apply selfOrAdmin_false in Hauth as [Hrole Hself].
    destruct visibility; simpl; repeat split; try done;
      intuition (try discriminate; try congruence).
Qed.

(** X20. UpdateUser by an authorized requester on an existing user calls [update]
    once, with the user after the given partials were merged, and returns
    what the port returns.  When neither a profile nor preferences are
    given, the user is passed on as found: not even [updatedAt] moves and
    the clock is not read. *)
Theorem updateUser_merges_then_saves
    (userId requester role : string)
    (profile : option UserProfile.partial)
    (preferences : option UserPreferences.partial)
    (env : Env W) (u : User.t) (w : W) :
  let ms := (from_option (fun p => [UpdateProfile p]) [] profile
             ++ from_option (fun p => [UpdatePreferences p]) [] preferences)%list in
  let merged := mutateAll ms u (runtime env) in
  let upd := UpdateUser.execute repo
               (UpdateUser.mkRequest userId requester role profile preferences) env in
  UserRepository.findById repo userId (world env) = (Ok (Some u), w) ->
  role = "admin" \/ requester = userId ->
  upd = (fst (UserRepository.update repo (fst merged) w),
         mkEnv (snd (UserRepository.update repo (fst merged) w)) (snd merged)
           (calls env ++ [CallFindById userId; CallUpdate (fst merged)]))
  /\ User.profile (fst merged)
     = from_option (UserProfile.merge (User.profile u)) (User.profile u) profile
  /\ User.preferences (fst merged)
     = from_option (UserPreferences.merge (User.preferences u))
         (User.preferences u) preferences
  /\ (profile = None -> preferences = None -> merged = (u, runtime env)).
Proof.
  intros ms merged upd Hfind Hauth%selfOrAdmin_true.
  unfold upd, merged, ms, UpdateUser.execute. run. rewrite Hfind, Hauth. simpl.
  destruct profile as [p|], preferences as [q|]; simpl;
    destruct (UserRepository.update repo _ w) as [[saved|message] w'];
    simpl; rewrite <- ?app_assoc; repeat split; done.
Qed.

(** X21. SearchUsers refuses, before it touches the port, a query that is empty
    or has fewer than two characters once the white space around it is
    removed.  For a query it accepts, the limit passed to the port is never
    above 50, whatever the role, and an admin's [includeInactive] is passed
    as asked. *)
Theorem searchUsers_validates_and_caps
    (query role : string) (options : option SearchUsers.Options) (env : Env W) :
  let search := SearchUsers.execute repo
                  (SearchUsers.mkRequest query role options) env in
  ((String.length (Js.trim query) < 2)%nat ->
   search = (Throw "Search query must be at least 2 characters long", env))
  /\ ((2 <= String.length (Js.trim query))%nat ->
      exists passed,
        calls (snd search)
        = (calls env ++ [CallSearch (Js.trim query) (Some passed)])%list
        /\ so_limit passed <= 50
        /\ (role = "admin" ->
            so_includeInactive passed = options ≫= SearchUsers.o_includeInactive)).
Proof.
  intros search. unfold search, SearchUsers.execute. simpl. split.
  - intros Hshort.
    assert ((String.length (Js.trim query) <? 2)%nat = true) as ->
      by by apply Nat.ltb_lt.
    by rewrite orb_true_r.
  - intros Hlong.
    assert (Js.truthy query = true) as ->.
    { destruct query; [simpl in Hlong; lia|done]. }
    assert ((String.length (Js.trim query) <? 2)%nat = false) as ->
      by (apply Nat.ltb_ge; lia).
    simpl. run. eexists (mkSearchOptions _ _ _ _). simpl.
    split; [by destruct (UserRepository.search repo _ _ _) as [[r|m] w]|].
    split; [lia|]. by intros ->.
Qed.

(** X22. ListUsers for an admin treats a page or a limit of 0 like a missing one
    and an empty sort key like a missing one; the limit has an upper bound
    only: a negative limit or page is passed to the port as it came. *)
Theorem listUsers_falsy_and_negative
    (filters : option UserFilters) (p l : Z) (key : string)
    (order : option SortOrder) (env : Env W) :
  let passed p l key :=
    calls (snd (ListUsers.execute repo
                  (ListUsers.mkRequest "admin" filters
                     (Some (ListUsers.mkOptions (Some p) (Some l) (Some key) order)))
                  env)) in
  (passed 0 0 "")
  = (calls env ++ [CallFindAll filters
                     (Some (mkPaginationOptions 1 20 (Some "createdAt")
                              (Some (default Desc order))))])%list
  /\ (p <> 0 -> l < 0 -> key <> "" ->
      (passed p l key)
      = (calls env ++ [CallFindAll filters
                         (Some (mkPaginationOptions p l (Some key)
                                  (Some (default Desc order))))])%list).
Proof.
  intros passed. unfold passed, ListUsers.execute. simpl. run. split.
  - by destruct (UserRepository.findAll repo _ _ _) as [[r|m] w].
  - intros Hp Hl Hkey.
    assert ((p =? 0) = false) as -> by by apply Z.eqb_neq.
    assert ((l =? 0) = false) as -> by (apply Z.eqb_neq; lia).
    assert (Js.truthy key = true) as -> by by destruct key.
    rewrite Z.min_l by lia.
    by destruct (UserRepository.findAll repo _ _ _) as [[r|m] w].
Qed.

(** X23. LinkSocialAccount checks the requester before it looks anything up: a
    requester who is neither the target nor an admin is refused without a
    call of the port, whether or not the target exists.  An authorized
    requester on a missing target gets "User not found" after the single
    lookup. *)
Theorem linkSocialAccount_authorizes_before_lookup
    (request : LinkSocialAccount.Request) (env : Env W) (w : W) :
  let userId := LinkSocialAccount.userId request in
  let role := LinkSocialAccount.requestingUserRole request in
  let requester := LinkSocialAccount.requestingUserId request in
  (role <> "admin" -> requester <> userId ->
   LinkSocialAccount.execute repo request env
   = (Throw "You can only link social accounts to your own profile", env))
  /\ (role = "admin" \/ requester = userId ->
      UserRepository.findById repo userId (world env) = (Ok None, w) ->
      LinkSocialAccount.execute repo request env
      = (Throw "User not found",
         mkEnv w (runtime env) (calls env ++ [CallFindById userId]))).
Proof.
  intros userId role requester. unfold LinkSocialAccount.execute.
  fold userId role requester. split.
  - intros Hrole Hself.
    assert (selfOrAdmin role requester userId = false) as ->
      by by apply selfOrAdmin_false.
    done.
  - intros Hauth%selfOrAdmin_true Hfind. rewrite Hauth. run.
    fold userId. by rewrite Hfind.
Qed.

End OtherCases.

Lemma getUser_access_rule_witness :
  let hidden :=
    User.setPreferences
      (UserPreferences.mk "en" "UTC"
         (UserPreferences.mkNotifications true true false)
         (UserPreferences.mkPrivacy Private false false))
      (Mock.user "u2" "bob" RoleUser) in
  let found := Mock.env (Mock.mkAnswers (Some hidden) None None
                           (mkExistsResult false None)) in
  fst (GetUser.execute Mock.repository (GetUser.mkRequest "u2" "u1" "user") found)
  = Throw "This profile is private"
  /\ fst (GetUser.execute Mock.repository (GetUser.mkRequest "u2" "u2" "user") found)
     = Ok hidden.
Proof.
  intros hidden found.
  destruct (getUser_access_rule Mock.repository "u2" "u1" "user" found hidden
              (world found) eq_refl) as (_ & Hprivate & _).
  destruct (getUser_access_rule Mock.repository "u2" "u2" "user" found hidden
              (world found) eq_refl) as (Hself & _).
  split; [apply Hprivate; repeat split; discriminate|apply Hself; by right; left].
Defined.

Lemma updateUser_merges_then_saves_witness :
  let bob := Mock.user "u2" "bob" RoleUser in
  let found := Mock.env (Mock.mkAnswers (Some bob) None None
                           (mkExistsResult false None)) in
  UpdateUser.execute Mock.repository
    (UpdateUser.mkRequest "u2" "u2" "user" None None) found
  = (Ok bob, mkEnv (world found) Mock.runtime [CallFindById "u2"; CallUpdate bob]).
Proof.
  intros bob found.
  destruct (updateUser_merges_then_saves Mock.repository "u2" "u2" "user" None None
              found bob (world found) eq_refl (or_intror eq_refl)) as (Hrun & _).
  exact Hrun.
Defined.

Lemma searchUsers_validates_and_caps_witness :
  let env := Mock.env Mock.nothing in
  SearchUsers.execute Mock.repository (SearchUsers.mkRequest "  a  " "admin" None) env
  = (Throw "Search query must be at least 2 characters long", env).
Proof.
  intros env.
  destruct (searchUsers_validates_and_caps Mock.repository "  a  " "admin" None env)
    as [Hshort _].
  apply Hshort. vm_compute. lia.
Defined.

Lemma listUsers_falsy_and_negative_witness :
  calls (snd (ListUsers.execute Mock.repository
                (ListUsers.mkRequest "admin" None
                   (Some (ListUsers.mkOptions (Some (-2)) (Some (-5))
                            (Some "email") (Some Asc))))
                (Mock.env Mock.nothing)))
  = [CallFindAll None
       (Some (mkPaginationOptions (-2) (-5) (Some "email") (Some Asc)))].
Proof.
  destruct (listUsers_falsy_and_negative Mock.repository None (-2) (-5) "email"
              (Some Asc) (Mock.env Mock.nothing)) as [_ H].
  apply H; [discriminate|lia|discriminate].
Defined.

Lemma linkSocialAccount_authorizes_before_lookup_witness :
  let env := Mock.env Mock.nothing in
  LinkSocialAccount.execute Mock.repository
    (LinkSocialAccount.mkRequest "u2" "u1" "user" Google "g-1" "x@gmail.com" None) env
  = (Throw "You can only link social accounts to your own profile", env)
  /\ fst (LinkSocialAccount.execute Mock.repository
            (LinkSocialAccount.mkRequest "u2" "u2" "user" Google "g-1" "x@gmail.com"
               None) env)
     = Throw "User not found".
Proof.
  intros env.
  destruct (linkSocialAccount_authorizes_before_lookup Mock.repository
              (LinkSocialAccount.mkRequest "u2" "u1" "user" Google "g-1"
                 "x@gmail.com" None) env (world env)) as [Hrefused _].
  destruct (linkSocialAccount_authorizes_before_lookup Mock.repository
              (LinkSocialAccount.mkRequest "u2" "u2" "user" Google "g-1"
                 "x@gmail.com" None) env (world env)) as [_ Hmissing].
  split; [apply Hrefused; discriminate|].
  rewrite (Hmissing (or_intror eq_refl) eq_refl). reflexivity.
Defined.

Lemma link_delegates_to_aggregate_witness :
  let bob := Mock.user "u2" "bob" RoleUser in
  let own := Mock.env (Mock.mkAnswers (Some bob) None (Some bob)
                         (mkExistsResult false None)) in
  let request := LinkSocialAccount.mkRequest "u2" "u2" "user" Google "g-1"
                   "bob@gmail.com" None in
  let linked := fst (User.linkSocialAccount Google "g-1" "bob@gmail.com" ∅ bob
                       Mock.runtime) in
  fst (LinkSocialAccount.execute Mock.repository request own) = Ok linked
  /\ calls (snd (LinkSocialAccount.execute Mock.repository request own))
     = [CallFindById "u2"; CallFindBySocialAccount "google" "g-1"; CallUpdate linked].
Proof.
  intros bob own request linked.
  rewrite (link_delegates_to_aggregate Mock.repository request own bob (Some bob)
             (world own) (world own) eq_refl eq_refl eq_refl).
  - split; reflexivity.
  - by intros other [= <-].
Defined.

(** ** The HTTP error handler and the authorization middleware *)

Lemma startsWith_trans (q p s : string) :
  Js.startsWith q p = true -> Js.startsWith p s = true -> Js.startsWith q s = true.
Proof.
  revert p s. induction q as [|a q IH]; intros p s; [done|].
  destruct p as [|b p]; [done|]. destruct s as [|c s]; [done|]. simpl.
  intros [Hab Hq]%andb_true_iff [Hbc Hp]%andb_true_iff.
  apply Ascii.eqb_eq in Hab, Hbc. subst.
  by rewrite Ascii.eqb_refl, (IH p s).
Qed.

(** A string that includes a fragment includes every prefix of the
    fragment. *)
Lemma includes_prefix (q p s : string) :
  Js.startsWith q p = true -> Js.includes p s = true -> Js.includes q s = true.
Proof.
  intros Hq. induction s as [|c s IH]; simpl.
  - rewrite !orb_false_r. by apply startsWith_trans.
  - intros [H|H]%orb_true_iff.
    + by rewrite (startsWith_trans q p (String c s)).
    + rewrite IH by done. apply orb_true_r.
Qed.

(** X24. The error handler answers with one of six status and code pairs; in
    production the message is always "Internal server error", otherwise it
    is the message of the error.  The checks run in a fixed order, so an
    error whose message includes "Invalid email or password" is never
    answered 401: the earlier check for "Invalid" (or one before it) takes
    it.  401 is answered only to messages that include "Unauthorized". *)
Theorem errorHandler_order (production : bool) (errMessage : string) :
  let response := ErrorHandler.errorHandler production errMessage in
  let status := ErrorHandler.statusCode response in
  let code := ErrorHandler.errorCode response in
  In (status, code)
     [(409, "CONFLICT"); (404, "NOT_FOUND"); (400, "VALIDATION_ERROR");
      (401, "UNAUTHORIZED"); (403, "FORBIDDEN"); (500, "INTERNAL_ERROR")]
  /\ ErrorHandler.message response
     = (if production then "Internal server error" else errMessage)
  /\ (Js.includes "Invalid email or password" errMessage = true ->
      In (status, code)
         [(409, "CONFLICT"); (404, "NOT_FOUND"); (400, "VALIDATION_ERROR")])
  /\ (status = 401 -> Js.includes "Unauthorized" errMessage = true)
  /\ (Js.includes "already exists" errMessage = true -> status = 409).
Proof.
  intros response status code. unfold status, code, response.
  unfold ErrorHandler.errorHandler.
  pose proof (includes_prefix "Invalid" "Invalid email or password" errMessage
                eq_refl) as Hprefix.
  destruct (Js.includes "already exists" errMessage);
    destruct (Js.includes "already registered" errMessage);
    destruct (Js.includes "not found" errMessage);
    destruct (Js.includes "Invalid" errMessage);
    destruct (Js.includes "required" errMessage);
    destruct (Js.includes "Unauthorized" errMessage);
    destruct (Js.includes "Invalid email or password" errMessage);
    destruct (Js.includes "cannot" errMessage);
    destruct (Js.includes "not allowed" errMessage);
    destruct (Js.includes "admin" errMessage);
    simpl; (repeat split; try done; try (intros; discriminate);
            try (intros H; by specialize (Hprefix H)); tauto).
Qed.

(** X25. What the handler makes of the errors of the use cases, for every
    input: a registration conflict is answered 409 exactly when the email is
    among the taken fields, and 500 when only the username is; a social
    account linked elsewhere is answered 500 for every provider; and a
    blocked login is answered 500 whatever the reasons. *)
Theorem errorHandler_on_use_case_errors
    (emailTaken usernameTaken : bool) (provider : SocialProvider) (u : User.t) :
  let code message :=
    ErrorHandler.errorCode (ErrorHandler.errorHandler false message) in
  code (conflictMessage emailTaken usernameTaken)
  = (if emailTaken then "CONFLICT" else "INTERNAL_ERROR")
  /\ code ("This " +:+ providerName provider
           +:+ " account is already linked to another user") = "INTERNAL_ERROR"
  /\ code ("Cannot login: " +:+ Js.join ", " (LoginUser.reasons u))
     = "INTERNAL_ERROR".
Proof.
  split; [by destruct emailTaken, usernameTaken|].
  split; [by destruct provider|].
  unfold LoginUser.reasons.
  by destruct (User.isActive u), (User.isSuspended u), (User.emailVerified u).
Qed.

Lemma requireAdmin_next (user : option AuthMiddleware.AuthUser) :
  AuthMiddleware.requireAdmin user = AuthMiddleware.Next <->
  exists u, user = Some u /\ AuthMiddleware.role u = "admin".
Proof.
  unfold AuthMiddleware.requireAdmin.
  destruct user as [u|]; [|split; [done|by intros (? & ? & ?)]].
  destruct (String.eqb_spec (AuthMiddleware.role u) "admin") as [Hrole|Hrole];
    simpl; split; try done.
  - intros _. by exists u.
  - intros (? & [= <-] & ?). done.
Qed.

Lemma requireSelfOrAdmin_next
    (user : option AuthMiddleware.AuthUser) (params : AuthMiddleware.Params) :
  AuthMiddleware.requireSelfOrAdmin user params = AuthMiddleware.Next <->
  exists u, user = Some u
            /\ (AuthMiddleware.role u = "admin"
                \/ AuthMiddleware.targetUserId params = Some (AuthMiddleware.id u)).
Proof.
  unfold AuthMiddleware.requireSelfOrAdmin.
  destruct user as [u|]; [|split; [done|by intros (? & ? & ?)]].
  destruct (String.eqb_spec (AuthMiddleware.role u) "admin") as [Hrole|Hrole];
    simpl.
  - split; [|done]. intros _. exists u. auto.
  - case_bool_decide as Hid; simpl; split; try done.
    + intros _. exists u. auto.
    + intros (? & [= <-] & [?|?]); congruence.
Qed.

Lemma targetUserId_userId (params : AuthMiddleware.Params) (target : string) :
  AuthMiddleware.p_userId params = Some target -> target <> "" ->
  AuthMiddleware.targetUserId params = Some target.
Proof.
  intros Htarget Hne. unfold AuthMiddleware.targetUserId.
  rewrite Htarget. simpl. by destruct target.
Qed.

(** [requireAdmin] lets a request through exactly when it carries a user
    whose role is admin, and [requireSelfOrAdmin] exactly when it carries a
    user who is an admin or whose id is the target, the target being the
    [userId] parameter or, when that one is missing or empty, the [id]
    parameter.  Without a user both answer 401, otherwise 403. *)
Theorem middleware_gates
    (user : option AuthMiddleware.AuthUser) (params : AuthMiddleware.Params) :
  (AuthMiddleware.requireAdmin user = AuthMiddleware.Next <->
   exists u, user = Some u /\ AuthMiddleware.role u = "admin")
  /\ (AuthMiddleware.requireSelfOrAdmin user params = AuthMiddleware.Next <->
      exists u, user = Some u
                /\ (AuthMiddleware.role u = "admin"
                    \/ AuthMiddleware.targetUserId params
                       = Some (AuthMiddleware.id u)))
  /\ (user = None ->
      AuthMiddleware.requireAdmin user
      = AuthMiddleware.Respond 401 "Authentication required" "UNAUTHORIZED"
      /\ AuthMiddleware.requireSelfOrAdmin user params
         = AuthMiddleware.Respond 401 "Authentication required" "UNAUTHORIZED")
  /\ (forall status message code,
        AuthMiddleware.requireSelfOrAdmin user params
        = AuthMiddleware.Respond status message code ->
        (status = 401 /\ user = None) \/ (status = 403 /\ user <> None))
  /\ (forall target, AuthMiddleware.p_userId params = Some target -> target <> "" ->
      AuthMiddleware.targetUserId params = Some target)
  /\ (AuthMiddleware.p_userId params = None \/ AuthMiddleware.p_userId params = Some "" ->
      AuthMiddleware.targetUserId params = AuthMiddleware.p_id params).
Proof.
  split; [apply requireAdmin_next|]. split; [apply requireSelfOrAdmin_next|].
  split; [by intros ->|]. split; [|split].
  - intros status message code. unfold AuthMiddleware.requireSelfOrAdmin.
    destruct user as [u|]; [|intros [= <- _ _]; auto].
    destruct (negb _ && negb _); [intros [= <- _ _]; auto|done].
  - intros target. apply targetUserId_userId.
  - unfold AuthMiddleware.targetUserId. by intros [-> | ->].
Qed.

Section BehindMiddleware.
Context {W : Type} (repo : UserRepository.t W).

(** X26. Behind [requireSelfOrAdmin], with the target taken from the [userId]
    parameter and the requester from the authenticated user, the use cases
    never reach their own ownership refusals on an existing user: GetUser
    returns the user even when the profile is private, UpdateUser goes on to
    [update], and DeleteUser goes on to [update] unless it is an admin
    deleting their own account.  Behind [requireAdmin] ListUsers reaches the
    port. *)
Theorem middleware_covers_use_case_checks
    (au : AuthMiddleware.AuthUser) (userId : string) (otherId : option string)
    (filters : option UserFilters) (options : option ListUsers.Options)
    (profile : option UserProfile.partial)
    (preferences : option UserPreferences.partial)
    (env : Env W) (u : User.t) (w : W) :
  let requester := AuthMiddleware.id au in
  let role := AuthMiddleware.role au in
  userId <> "" ->
  UserRepository.findById repo userId (world env) = (Ok (Some u), w) ->
  (AuthMiddleware.requireSelfOrAdmin (Some au)
     (AuthMiddleware.mkParams (Some userId) otherId) = AuthMiddleware.Next ->
   fst (GetUser.execute repo (GetUser.mkRequest userId requester role) env) = Ok u
   /\ (exists user,
        calls (snd (UpdateUser.execute repo
                      (UpdateUser.mkRequest userId requester role profile
                         preferences) env))
        = (calls env ++ [CallFindById userId; CallUpdate user])%list)
   /\ (fst (DeleteUser.execute repo
              (DeleteUser.mkRequest userId requester role) env)
       = Throw "Administrators cannot delete their own account"
       \/ exists user,
            calls (snd (DeleteUser.execute repo
                          (DeleteUser.mkRequest userId requester role) env))
            = (calls env ++ [CallFindById userId; CallUpdate user])%list))
  /\ (AuthMiddleware.requireAdmin (Some au) = AuthMiddleware.Next ->
      exists passed,
        calls (snd (ListUsers.execute repo
                      (ListUsers.mkRequest role filters options) env))
        = (calls env ++ [CallFindAll filters (Some passed)])%list).
Proof.
  intros requester role Hne Hfind. split.
  - intros Hnext.
    assert (selfOrAdmin role requester userId = true) as Hauth.
    { apply requireSelfOrAdmin_next in Hnext as (au' & [= <-] & Hcase).
      apply selfOrAdmin_true. destruct Hcase as [?|Hcase]; [by left|right].
      rewrite (targetUserId_userId (AuthMiddleware.mkParams (Some userId) otherId)
                 userId eq_refl Hne) in Hcase.
      unfold requester. congruence. }
    split; [|split].
    + unfold GetUser.execute. run. by rewrite Hfind, Hauth.
    + unfold UpdateUser.execute. run. rewrite Hfind, Hauth. simpl.
      destruct profile, preferences; simpl; eexists;
        destruct (UserRepository.update repo _ w) as [[?|?] ?]; simpl;
        by rewrite <- app_assoc.
    + unfold DeleteUser.execute. run. rewrite Hfind, Hauth. simpl.
      destruct (String.eqb requester userId && String.eqb role "admin");
        [by left|right].
      simpl. eexists.
      destruct (UserRepository.update repo _ w) as [[?|?] ?]; simpl;
        by rewrite <- app_assoc.
  - intros Hnext.
    apply requireAdmin_next in Hnext as (au' & [= <-] & Hrole).
    unfold ListUsers.execute, role. simpl. rewrite Hrole. simpl. run.
    eexists. by destruct (UserRepository.findAll repo _ _ _) as [[?|?] ?].
Qed.

End BehindMiddleware.

Lemma middleware_covers_use_case_checks_witness :
  let hidden :=
    User.setPreferences
      (UserPreferences.mk "en" "UTC"
         (UserPreferences.mkNotifications true true false)
         (UserPreferences.mkPrivacy Private false false))
      (Mock.user "u2" "bob" RoleUser) in
  let found := Mock.env (Mock.mkAnswers (Some hidden) None None
                           (mkExistsResult false None)) in
  AuthMiddleware.requireSelfOrAdmin
    (Some (AuthMiddleware.mkAuthUser "u1" "eve@example.com" "user"))
    (AuthMiddleware.mkParams (Some "u2") None)
  = AuthMiddleware.Respond 403
      "You can only access your own resources or must be an admin" "FORBIDDEN"
  /\ fst (GetUser.execute Mock.repository (GetUser.mkRequest "u2" "a1" "admin") found)
     = Ok hidden.
Proof.
  intros hidden found.
  destruct (middleware_covers_use_case_checks Mock.repository
              (AuthMiddleware.mkAuthUser "a1" "root@example.com" "admin")
              "u2" None None None None None found hidden (world found))
    as [Hself _]; [discriminate|reflexivity|].
  destruct (Hself eq_refl) as (Hget & _).
  split; [reflexivity|exact Hget].
Defined.

(** ** Constructors of the value objects, as accepted inputs *)

(** X1. The [Email] constructor succeeds exactly on the strings made of a
    non-empty local part, [@], a non-empty domain part, a dot and a
    non-empty last part, none of the three with white space or [@] in it;
    on every other string it throws "Invalid email format". *)
Theorem email_constructor_accepts (s : string) :
  ((exists e, Email.new s = Ok e) <->
   exists loc domain tld,
     s = loc +:+ "@" +:+ domain +:+ "." +:+ tld
     /\ emailPart loc /\ emailPart domain /\ emailPart tld)
  /\ ((forall e, Email.new s <> Ok e) <-> Email.new s = Throw "Invalid email format").
Proof.
  rewrite <- email_isValid_shape.
  destruct (Email.isValid s) eqn:Hvalid.
  - rewrite (email_new_valid s Hvalid).
    split; split; try done; eauto. intros H. by specialize (H _ eq_refl).
  - rewrite (email_new_invalid s Hvalid).
    split; split; try done. by intros [e He].
Qed.

(** X3. The [Username] constructor succeeds exactly on the strings whose trimmed
    form has 3 to 50 code units, all letters, digits or underscores, and
    throws "Invalid username format" on every other string. *)
Theorem username_constructor_accepts (s : string) :
  ((exists u, Username.new s = Ok u) <->
   (3 <= String.length (Js.trim s) <= 50)%nat
   /\ Js.every Username.wordChar (Js.trim s) = true)
  /\ ((forall u, Username.new s <> Ok u)
      <-> Username.new s = Throw "Invalid username format").
Proof.
  rewrite <- username_isValid_iff.
  destruct (Username.isValid s) eqn:Hvalid.
  - rewrite (username_new_valid s Hvalid).
    split; split; try done; eauto. intros H. by specialize (H _ eq_refl).
  - rewrite (username_new_invalid s Hvalid).
    split; split; try done. by intros [e He].
Qed.

(** ** Response shaping *)

Lemma isAdmin_true (role : option string) :
  UserPresenter.isAdmin role = true <-> role = Some "admin".
Proof.
  destruct role as [r|]; simpl; [|done].
  rewrite String.eqb_eq. split; congruence.
Qed.

(** X27. [presentUserWithPrivacy] gives the full view exactly to an admin and to
    a requester whose id is the user's; anyone else gets the public view,
    which carries the id, username, names, email verification and creation
    date of the user, and the avatar and bio only when the profile is not
    private. *)
Theorem presentUserWithPrivacy_views
    (u : User.t) (requestingUserId requestingUserRole : option string) :
  let view := UserPresenter.presentUserWithPrivacy u requestingUserId
                requestingUserRole in
  let visibility :=
    UserPreferences.profileVisibility (UserPreferences.privacy (User.preferences u)) in
  ((exists full, view = inl full) <->
   requestingUserRole = Some "admin" \/ requestingUserId = User.id u)
  /\ (forall full, view = inl full -> full = UserResponseDto.toUserResponseDto u)
  /\ (forall data, view = inr data ->
      UserPresenter.id data = User.id u
      /\ UserPresenter.username data = Username.getValue (User.username u)
      /\ UserPresenter.firstName (UserPresenter.profile data)
         = UserProfile.firstName (User.profile u)
      /\ UserPresenter.lastName (UserPresenter.profile data)
         = UserProfile.lastName (User.profile u)
      /\ UserPresenter.displayName (UserPresenter.profile data)
         = UserProfile.displayName (User.profile u)
      /\ UserPresenter.emailVerified data = User.emailVerified u
      /\ UserPresenter.createdAt data = User.createdAt u
      /\ (visibility = Private ->
          UserPresenter.avatarUrl (UserPresenter.profile data) = None
          /\ UserPresenter.bio (UserPresenter.profile data) = None)
      /\ (visibility <> Private -> data = UserPresenter.presentPublicProfile u)).
Proof.
  intros view visibility. unfold view, UserPresenter.presentUserWithPrivacy.
  fold visibility.
  pose proof (isAdmin_true requestingUserRole) as Hadmin.
  destruct (UserPresenter.isAdmin requestingUserRole).
  - split; [split; [intros _; left; by apply Hadmin|eauto]|].
    split; [by intros full [= <-]|done].
  - unfold UserPresenter.sameId. case_bool_decide as Hid.
    + split; [split; [by right|eauto]|]. split; [by intros full [= <-]|done].
    + assert (requestingUserRole <> Some "admin") as Hrole
        by (intros H; by apply Hadmin in H).
      destruct visibility eqn:Hv;
        (split; [split; [by intros [? ?]|by intros [?|?]]|]);
        (split; [done|]); intros data [= <-]; repeat split; done.
Qed.

(** [presentSearchResults] answers one entry per user, in the same order,
    never with a bio; the email, role and activity of a user are in the
    entry exactly when the requesting role is admin. *)
Theorem presentSearchResults_fields (users : list User.t) (role : string) :
  let results := UserPresenter.presentSearchResults users role in
  length results = length users
  /\ map UserPresenter.s_id results = map User.id users
  /\ Forall (fun r => UserPresenter.bio (UserPresenter.s_profile r) = None) results
  /\ (role = "admin" ->
      map UserPresenter.s_email results
      = map (fun u => Some (Email.getValue (User.email u))) users
      /\ map UserPresenter.s_role results = map (fun u => Some (User.role u)) users
      /\ map UserPresenter.s_isActive results
         = map (fun u => Some (User.isActive u)) users)
  /\ (role <> "admin" ->
      Forall (fun r => UserPresenter.s_email r = None
                       /\ UserPresenter.s_role r = None
                       /\ UserPresenter.s_isActive r = None) results).
Proof.
  intros results. unfold results, UserPresenter.presentSearchResults.
  split; [by rewrite length_map|].
  split; [by rewrite map_map|].
  split; [by apply Forall_map, Forall_true|].
  split.
  - intros ->. rewrite !map_map. done.
  - intros Hrole%String.eqb_neq. apply Forall_map, Forall_true.
    intros u. simpl. by rewrite Hrole.
Qed.

Lemma presentSearchResults_fields_witness :
  let bob := Mock.user "u2" "bob" RoleUser in
  map UserPresenter.s_email (UserPresenter.presentSearchResults [bob] "admin")
  = [Some "bob@example.com"]
  /\ map UserPresenter.s_email (UserPresenter.presentSearchResults [bob] "user")
     = [None].
Proof.
  intros bob.
  destruct (presentSearchResults_fields [bob] "admin") as (_ & _ & _ & Hadmin & _).
  destruct (Hadmin eq_refl) as (Hemail & _).
  split; [exact Hemail|reflexivity].
Defined.

(** X28. [presentUserAddresses] and [presentSocialAccounts] show an admin and the
    user themselves every address and every social account, each with its
    identifier, provider, provider email, link date and activity; to anyone
    else they show no address at all, and of the social accounts only the
    active ones, as provider and link date, without identifier, provider
    email or activity. *)
Theorem present_lists_by_requester
    (u : User.t) (requestingUserId requestingUserRole : option string) :
  let addresses := UserPresenter.presentUserAddresses u requestingUserId
                     requestingUserRole in
  let accounts := UserPresenter.presentSocialAccounts u requestingUserId
                    requestingUserRole in
  (requestingUserRole = Some "admin" \/ requestingUserId = User.id u ->
   addresses = User.addresses u
   /\ map UserPresenter.v_id accounts
      = map (fun a => Some (SocialAccount.id a)) (User.socialAccounts u)
   /\ map UserPresenter.v_providerEmail accounts
      = map (fun a => Some (SocialAccount.providerEmail a)) (User.socialAccounts u)
   /\ map UserPresenter.v_provider accounts
      = map SocialAccount.provider (User.socialAccounts u)
   /\ map UserPresenter.v_linkedAt accounts
      = map SocialAccount.linkedAt (User.socialAccounts u)
   /\ map UserPresenter.v_isActive accounts
      = map (fun a => Some (SocialAccount.isActive a)) (User.socialAccounts u))
  /\ (requestingUserRole <> Some "admin" -> requestingUserId <> User.id u ->
      addresses = []
      /\ map UserPresenter.v_provider accounts
         = map SocialAccount.provider
             (List.filter SocialAccount.isActive (User.socialAccounts u))
      /\ map UserPresenter.v_linkedAt accounts
         = map SocialAccount.linkedAt
             (List.filter SocialAccount.isActive (User.socialAccounts u))
      /\ (length accounts <= length (User.socialAccounts u))%nat
      /\ Forall (fun v => UserPresenter.v_id v = None
                          /\ UserPresenter.v_providerEmail v = None
                          /\ UserPresenter.v_isActive v = None) accounts).
Proof.
  intros addresses accounts.
  unfold addresses, accounts, UserPresenter.presentUserAddresses,
    UserPresenter.presentSocialAccounts, UserPresenter.sameId.
  pose proof (isAdmin_true requestingUserRole) as Hadmin.
  split.
  - intros Hauth.
    assert (UserPresenter.isAdmin requestingUserRole
            || bool_decide (requestingUserId = User.id u) = true) as ->.
    { destruct Hauth as [H|H].
      - apply Hadmin in H. by rewrite H.
      - rewrite (bool_decide_eq_true_2 _ H). apply orb_true_r. }
    split; [|by rewrite !map_map].
    rewrite <- (map_id (User.addresses u)) at 2.
    apply map_ext. by intros [].
  - intros Hrole Hid.
    assert (UserPresenter.isAdmin requestingUserRole
            || bool_decide (requestingUserId = User.id u) = false) as ->.
    { rewrite (bool_decide_eq_false_2 _ Hid), orb_false_r.
      destruct (UserPresenter.isAdmin requestingUserRole); [|done].
      exfalso. by apply Hrole, Hadmin. }
    split; [done|]. split; [by rewrite map_map|]. split; [by rewrite map_map|].
    split; [rewrite length_map; apply List.filter_length_le|].
    by apply Forall_map, Forall_true.
Qed.

Lemma present_lists_by_requester_witness :
  let bob := fst (mutateAll
                    [AddAddress (Mock.home true);
                     LinkSocial Google "g-1" "bob@gmail.com" ∅]
                    (Mock.user "u2" "bob" RoleUser) Mock.runtime) in
  UserPresenter.presentUserAddresses bob (Some "u1") (Some "user") = []
  /\ length (UserPresenter.presentUserAddresses bob (Some "u2") (Some "user")) = 1%nat
  /\ map UserPresenter.v_providerEmail
       (UserPresenter.presentSocialAccounts bob (Some "u1") (Some "user"))
     = [None].
Proof.
  intros bob.
  destruct (present_lists_by_requester bob (Some "u1") (Some "user"))
    as [_ Hother].
  destruct (present_lists_by_requester bob (Some "u2") (Some "user"))
    as [Hself _].
  destruct Hother as (Hnone & _); [discriminate|discriminate|].
  destruct (Hself (or_intror eq_refl)) as (Hall & _).
  split; [exact Hnone|]. split; [by rewrite Hall|reflexivity].
Defined.

(** ** Display names *)

Lemma allWhiteSpace_trimStart (s : string) :
  Js.allWhiteSpace (Js.trimStart s) = Js.allWhiteSpace s.
Proof.
  induction s as [|c s IH]; [done|]. simpl.
  destruct (Js.isWhiteSpace c) eqn:Hc; simpl; [done|by rewrite Hc].
Qed.

Lemma trim_empty_iff (s : string) :
  Js.trim s = "" <-> Js.allWhiteSpace s = true.
Proof.
  unfold Js.trim. rewrite <- allWhiteSpace_trimStart.
  destruct (Js.trimStart s) as [|c t]; [done|].
  cbn [Js.trimEnd]. destruct (Js.allWhiteSpace (String c t)); split; done.
Qed.

Lemma allWhiteSpace_app (s t : string) :
  Js.allWhiteSpace (s +:+ t) = Js.allWhiteSpace s && Js.allWhiteSpace t.
Proof.
  induction s as [|c s IH]; [done|].
  change (String c s +:+ t) with (String c (s +:+ t)). simpl.
  by rewrite IH, andb_assoc.
Qed.

Lemma truthy_false (s : string) : Js.truthy s = false <-> s = "".
Proof.
  unfold Js.truthy. rewrite negb_false_iff. apply String.eqb_eq.
Qed.

(** X12. [getFullName] answers the username exactly when the first and the last
    name are both blank (empty or white space only) and the trimmed
    "first last" otherwise; so for a user whose username is not empty neither
    [getFullName] nor the display name of [presentMinimalUser] is ever the
    empty string. *)
Theorem getFullName_fallback (u : User.t) :
  let first := UserProfile.firstName (User.profile u) in
  let last := UserProfile.lastName (User.profile u) in
  let blank := Js.allWhiteSpace first && Js.allWhiteSpace last in
  (blank = true -> User.getFullName u = Username.getValue (User.username u))
  /\ (blank = false ->
      User.getFullName u = Js.trim (first +:+ " " +:+ last)
      /\ User.getFullName u <> "")
  /\ (Username.getValue (User.username u) <> "" ->
      User.getFullName u <> ""
      /\ UserPresenter.m_displayName (UserPresenter.presentMinimalUser u) <> "").
Proof.
  intros first last blank.
  assert (Js.trim (first +:+ " " +:+ last) = "" <-> blank = true) as Hblank.
  { rewrite trim_empty_iff, !allWhiteSpace_app. unfold blank.
    change (Js.allWhiteSpace " ") with true. by rewrite andb_true_l. }
  assert (blank = true -> User.getFullName u = Username.getValue (User.username u))
    as Htrue.
  { intros H. apply Hblank in H. unfold User.getFullName. fold first last.
    by rewrite H. }
  assert (blank = false ->
          User.getFullName u = Js.trim (first +:+ " " +:+ last)
          /\ User.getFullName u <> "") as Hfalse.
  { intros H. unfold User.getFullName. fold first last.
    destruct (Js.truthy (Js.trim (first +:+ " " +:+ last))) eqn:Ht.
    - split; [done|]. intros Hempty. apply Hblank in Hempty. congruence.
    - apply truthy_false, Hblank in Ht. congruence. }
  split; [done|]. split; [done|]. intros Hname.
  assert (User.getFullName u <> "") as Hfull.
  { destruct blank eqn:Hb; [by rewrite Htrue|by apply Hfalse]. }
  split; [done|]. unfold UserPresenter.presentMinimalUser. simpl.
  destruct (UserProfile.displayName (User.profile u)) as [d|]; simpl; [|done].
  destruct (Js.truthy d) eqn:Hd; [|done].
  intros ->. done.
Qed.

Lemma getFullName_fallback_witness :
  let bob := Mock.user "u2" "bob" RoleUser in
  let anonymous :=
    User.setProfile (UserProfile.mk " " "" None None None None None None) bob in
  User.getFullName anonymous = "bob" /\ User.getFullName bob <> "".
Proof.
  intros bob anonymous.
  destruct (getFullName_fallback anonymous) as (Hblank & _ & _).
  destruct (getFullName_fallback bob) as (_ & _ & Hnamed).
  split; [exact (Hblank eq_refl)|].
  exact (proj1 (Hnamed ltac:(discriminate))).
Defined.

(** ** The existence check of the MongoDB adapter *)

(** X29. [exists] reports on the one document [findOne] answers: no document
    gives [exists: false] without conflicts; a document matching the filter
    gives [exists: true] with at least one flag set, so that registration
    throws a non-empty message, the one of these flags; both fields are
    named only when that one document holds both the email and the username;
    and a failure of the query is thrown again behind the prefix
    "Error checking user existence: ". *)
Theorem mongo_exists_reports_found_document
    (findOne : Outcome (option MongoUserRepository.Doc))
    (e : Email.t) (u : Username.t) :
  let report := MongoUserRepository.exists_ findOne e u in
  (findOne = Ok None -> report = Ok (mkExistsResult false None))
  /\ (forall doc, findOne = Ok (Some doc) ->
      MongoUserRepository.matchesEither e u doc = true ->
      exists r emailTaken usernameTaken,
        report = Ok r
        /\ r_exists r = true
        /\ r_conflicts r = Some (mkConflicts emailTaken usernameTaken)
        /\ (emailTaken = true <-> MongoUserRepository.email doc = Email.getValue e)
        /\ (usernameTaken = true <->
            MongoUserRepository.username doc = Username.getValue u)
        /\ Js.join ", " (CreateUser.conflicts r)
           = conflictMessage emailTaken usernameTaken
        /\ Js.join ", " (CreateUser.conflicts r) <> "")
  /\ (forall rendered, findOne = Throw rendered ->
      report = Throw ("Error checking user existence: " +:+ rendered)).
Proof.
  intros report. unfold report.
  split; [by intros ->|]. split; [|by intros rendered ->].
  intros doc -> Hmatch. unfold MongoUserRepository.matchesEither in Hmatch.
  eexists _, _, _. split; [reflexivity|]. simpl.
  split; [done|]. split; [done|].
  rewrite !String.eqb_eq. split; [done|]. split; [done|].
  unfold CreateUser.conflicts. simpl.
  destruct (String.eqb (MongoUserRepository.email doc) (Email.getValue e)),
    (String.eqb (MongoUserRepository.username doc) (Username.getValue u));
    try done.
Qed.

Lemma mongo_exists_reports_found_document_witness :
  let e := Email.mk "bob@example.com" in
  let u := Username.mk "bob" in
  let holder := MongoUserRepository.mkDoc "bob@example.com" "robert" in
  exists r,
    MongoUserRepository.exists_ (Ok (Some holder)) e u = Ok r
    /\ Js.join ", " (CreateUser.conflicts r) = "Email already registered".
Proof.
  intros e u holder.
  destruct (mongo_exists_reports_found_document (Ok (Some holder)) e u)
    as (_ & Hfound & _).
  destruct (Hfound holder eq_refl eq_refl)
    as (r & emailTaken & usernameTaken & Hr & _ & Hc & _ & _ & Hjoin & _).
  exists r. split; [exact Hr|].
  vm_compute in Hr. injection Hr as <-. reflexivity.
Defined.
